(** * A segregated free-list allocator over a fixed region

    Shallow embedding of [src/allocator.c] (with the configuration of
    [src/allocator.h]: THREAD_SAFE, ENABLE_STATS, MEMORY_GUARDS,
    BOUNDARY_TAGS, CACHE_LOCALITY and LEAK_DETECTION all enabled,
    DEBUG_LEVEL 1).

    The backing region is modelled byte by byte: block headers and footers
    are read and written as little-endian fields at the offsets the LP64
    layout of [struct Block] and [struct BlockFooter] gives them, so that a
    header lying inside another block's payload is overwritten when that
    payload is.  Every function of the source is a computation in a small
    monad that threads the global variables, collects what is printed (the
    diagnostics on [stderr] and the two banners that DEBUG_LEVEL 1 writes on
    [stdout]), stops with [Undefined] on an access outside the region and
    with [Diverges] when a list walk does not end.  Calls are taken one at a
    time, so the mutex is left out. *)

From Stdlib Require Import ZArith List Lia Bool String.
From stdpp Require Import base option list gmap.

Local Open Scope string_scope.
Local Open Scope Z_scope.

(** ** Constants of allocator.h *)

Definition HEAP_SIZE : Z := 1024 * 1024.
Definition ALIGNMENT : Z := 16.
Definition SENTINEL_VALUE : Z := 0xCAFEBABE.
Definition FOOTER_SENTINEL : Z := 0xDEADBEEF.
Definition GUARD_VALUE : Z := 0xFE.
Definition NUM_SIZE_CLASSES : nat := 8.
Definition SIZE_CLASS_1 : Z := 32.
Definition SIZE_CLASS_2 : Z := 64.
Definition SIZE_CLASS_3 : Z := 128.
Definition SIZE_CLASS_4 : Z := 256.
Definition SIZE_CLASS_5 : Z := 512.
Definition SIZE_CLASS_6 : Z := 1024.
Definition SIZE_CLASS_7 : Z := 2048.

(** [size_t] is 64 bits wide, [uint32_t] 32 bits; arithmetic on them wraps. *)
Definition SIZE_MAX : Z := 2 ^ 64 - 1.
Definition wrap64 (z : Z) : Z := z mod 2 ^ 64.
Definition wrap32 (z : Z) : Z := z mod 2 ^ 32.

(** [ALIGN(size)] is [((size) + (ALIGNMENT-1)) & ~(ALIGNMENT-1)] on [size_t]. *)
Definition ALIGN (size : Z) : Z :=
  Z.land (wrap64 (size + (ALIGNMENT - 1))) (Z.lnot (ALIGNMENT - 1)).

(** Layout of [struct Block] (64 bytes) and [struct BlockFooter] (16 bytes). *)
Definition sizeof_Block : Z := 64.
Definition sizeof_BlockFooter : Z := 16.
Definition off_sentinel_start : Z := 0.
Definition off_size : Z := 8.
Definition off_free : Z := 16.
Definition off_prev : Z := 24.
Definition off_next : Z := 32.
Definition off_request_size : Z := 40.
Definition off_address_tag : Z := 48.
Definition off_alloc_id : Z := 56.
Definition off_sentinel_end : Z := 60.
Definition foff_size : Z := 0.
Definition foff_free : Z := 8.
Definition foff_sentinel : Z := 12.

Definition MIN_BLOCK_SIZE : Z := ALIGN (sizeof_Block + 16).

(** The null pointer; every other pointer is an absolute address. *)
Definition NULL : Z := 0.

(** ** Global state *)

Record AllocStats := mkStats {
  allocated_bytes : Z;
  free_bytes : Z;
  allocated_blocks : Z;
  free_blocks : Z;
  total_allocations : Z;
  total_frees : Z;
  failed_allocations : Z;
  fragmentation_count : Z;
  largest_free_block : Z;
  smallest_free_block : Z;
  total_alloc_time : Z;
  total_free_time : Z;
  requested_bytes : Z;
  overhead_bytes : Z;
  class_usage : list Z
}.

Record AllocationRecord := mkRecord {
  rec_ptr : Z;
  rec_size : Z;
  rec_alloc_id : Z;
  rec_file : string;
  rec_line : Z
}.

(** The global variables of allocator.c; [region] holds the bytes of the
    region that [heap] points to (an absent key is a zero byte). *)
Record state := mkState {
  heap : Z;
  region : gmap Z Z;
  free_lists : list Z;
  used_list : Z;
  initialized : bool;
  next_alloc_id : Z;
  allocation_records : list AllocationRecord;
  stats : AllocStats
}.

(** What the host gives during one public call: the address its [malloc]
    returns for the region ([NULL] when it fails), whether it can allocate a
    leak record, and the clock ticks that elapse inside the call. *)
Record host := mkHost {
  region_addr : Z;
  record_ok : bool;
  ticks : Z
}.

(** The lines the allocator prints, in the order of the calls that print
    them: the two banners go to [stdout], all the others to [stderr]. *)
Inductive diagnostic :=
| Initialized (heap : Z)
| CleanedUp
| HeapInitFailed
| DoubleFree (ptr id : Z)
| BufferOverrun (ptr id : Z)
| OutsideHeap (location : string) (block : Z)
| StartSentinelCorrupted (location : string) (block : Z)
| EndSentinelCorrupted (location : string) (block : Z)
| FooterSentinelCorrupted (location : string) (block : Z)
| InvalidSize (location : string) (block size : Z).

Definition zero_stats : AllocStats :=
  mkStats 0 0 0 0 0 0 0 0 0 0 0 0 0 0 (replicate NUM_SIZE_CLASSES 0).

(** The state at program start: the static initialisers of allocator.c. *)
Definition startup : state :=
  mkState NULL ∅ (replicate NUM_SIZE_CLASSES NULL) NULL false 1 [] zero_stats.

(** ** The monad *)

Inductive outcome (A : Type) : Type :=
| Ok (a : A) (s : state) (err : list diagnostic)
| Undefined
| Diverges.
Arguments Ok {A} a s err.
Arguments Undefined {A}.
Arguments Diverges {A}.

Definition M (A : Type) : Type := state -> outcome A.

#[global] Instance M_ret : MRet M := fun A (a : A) s => Ok a s [].

#[global] Instance M_bind : MBind M := fun A B (f : A -> M B) (m : M A) s =>
  match m s with
  | Ok a s1 e1 =>
      match f a s1 with
      | Ok b s2 e2 => Ok b s2 (e1 ++ e2)
      | Undefined => Undefined
      | Diverges => Diverges
      end
  | Undefined => Undefined
  | Diverges => Diverges
  end.

Definition get : M state := fun s => Ok s s [].
Definition emit (d : diagnostic) : M unit := fun s => Ok tt s [d].
Definition diverges {A} : M A := fun _ => Diverges.
Definition when (b : bool) (m : M unit) : M unit := if b then m else mret tt.

(** ** Memory *)

(** The byte at [a]: whatever the map holds there, taken as an
    [unsigned char]. *)
Definition byte_at (m : gmap Z Z) (a : Z) : Z := default 0 (m !! a) mod 256.

Fixpoint load_le (m : gmap Z Z) (a : Z) (n : nat) : Z :=
  match n with
  | O => 0
  | S k => byte_at m a + 256 * load_le m (a + 1) k
  end.

Fixpoint store_le (m : gmap Z Z) (a : Z) (n : nat) (v : Z) : gmap Z Z :=
  match n with
  | O => m
  | S k => store_le (<[a := v mod 256]> m) (a + 1) k (v / 256)
  end.

(** An access of [w] bytes at [a] is defined when it lies in the region. *)
Definition in_region (s : state) (a w : Z) : bool :=
  negb (heap s =? NULL) && (heap s <=? a) && (a + w <=? heap s + HEAP_SIZE).

Definition set_heap (v : Z) (s : state) : state :=
  mkState v (region s) (free_lists s) (used_list s) (initialized s)
          (next_alloc_id s) (allocation_records s) (stats s).
Definition set_region (m : gmap Z Z) (s : state) : state :=
  mkState (heap s) m (free_lists s) (used_list s) (initialized s)
          (next_alloc_id s) (allocation_records s) (stats s).
Definition set_free_lists (l : list Z) (s : state) : state :=
  mkState (heap s) (region s) l (used_list s) (initialized s)
          (next_alloc_id s) (allocation_records s) (stats s).
Definition set_used_list (v : Z) (s : state) : state :=
  mkState (heap s) (region s) (free_lists s) v (initialized s)
          (next_alloc_id s) (allocation_records s) (stats s).
Definition set_initialized (b : bool) (s : state) : state :=
  mkState (heap s) (region s) (free_lists s) (used_list s) b
          (next_alloc_id s) (allocation_records s) (stats s).
Definition set_next_alloc_id (v : Z) (s : state) : state :=
  mkState (heap s) (region s) (free_lists s) (used_list s) (initialized s)
          v (allocation_records s) (stats s).
Definition set_allocation_records (l : list AllocationRecord) (s : state) : state :=
  mkState (heap s) (region s) (free_lists s) (used_list s) (initialized s)
          (next_alloc_id s) l (stats s).
Definition set_stats (t : AllocStats) (s : state) : state :=
  mkState (heap s) (region s) (free_lists s) (used_list s) (initialized s)
          (next_alloc_id s) (allocation_records s) t.

Definition modify (f : state -> state) : M unit := fun s => Ok tt (f s) [].

Definition load (w : nat) (a : Z) : M Z := fun s =>
  if in_region s a (Z.of_nat w) then Ok (load_le (region s) a w) s [] else Undefined.

Definition store (w : nat) (a v : Z) : M unit := fun s =>
  if in_region s a (Z.of_nat w)
  then Ok tt (set_region (store_le (region s) a w v) s) []
  else Undefined.

Definition load_bool (a : Z) : M bool := v ← load 1 a; mret (negb (v =? 0)).
Definition store_bool (a : Z) (b : bool) : M unit := store 1 a (if b then 1 else 0).

(** [for (i = 0; i < n; i++) a[i] = v]. *)
Fixpoint fill (a : Z) (n : nat) (v : Z) : M unit :=
  match n with
  | O => mret tt
  | S k => store 1 a v;; fill (a + 1) k v
  end.

(** [for (i = 0; i < n; i++) if (a[i] != v) return false]. *)
Fixpoint all_bytes (a : Z) (n : nat) (v : Z) : M bool :=
  match n with
  | O => mret true
  | S k => b ← load 1 a; if b =? v then all_bytes (a + 1) k v else mret false
  end.

Fixpoint copy (dst src : Z) (n : nat) : M unit :=
  match n with
  | O => mret tt
  | S k => b ← load 1 src; store 1 dst b;; copy (dst + 1) (src + 1) k
  end.

(** [memset(p, v, n)]: the whole range has to lie in the region. *)
Definition memset (p v n : Z) : M unit := fun s =>
  if n =? 0 then Ok tt s []
  else if in_region s p n then fill p (Z.to_nat n) v s else Undefined.

(** [memcpy(dst, src, n)]: both ranges in the region, and no overlap. *)
Definition memcpy (dst src n : Z) : M unit := fun s =>
  if n =? 0 then Ok tt s []
  else if in_region s dst n && in_region s src n
          && ((dst + n <=? src) || (src + n <=? dst))
       then copy dst src (Z.to_nat n) s
       else Undefined.

(** ** Fields of a block header and of a footer *)

Definition get_sentinel_start (b : Z) : M Z := load 4 (b + off_sentinel_start).
Definition get_size (b : Z) : M Z := load 8 (b + off_size).
Definition get_free (b : Z) : M bool := load_bool (b + off_free).
Definition get_prev (b : Z) : M Z := load 8 (b + off_prev).
Definition get_next (b : Z) : M Z := load 8 (b + off_next).
Definition get_request_size (b : Z) : M Z := load 4 (b + off_request_size).
Definition get_alloc_id (b : Z) : M Z := load 4 (b + off_alloc_id).
Definition get_sentinel_end (b : Z) : M Z := load 4 (b + off_sentinel_end).

Definition put_sentinel_start (b v : Z) : M unit := store 4 (b + off_sentinel_start) v.
Definition put_size (b v : Z) : M unit := store 8 (b + off_size) v.
Definition put_free (b : Z) (v : bool) : M unit := store_bool (b + off_free) v.
Definition put_prev (b v : Z) : M unit := store 8 (b + off_prev) v.
Definition put_next (b v : Z) : M unit := store 8 (b + off_next) v.
Definition put_request_size (b v : Z) : M unit := store 4 (b + off_request_size) v.
Definition put_address_tag (b v : Z) : M unit := store 8 (b + off_address_tag) v.
Definition put_alloc_id (b v : Z) : M unit := store 4 (b + off_alloc_id) v.
Definition put_sentinel_end (b v : Z) : M unit := store 4 (b + off_sentinel_end) v.

(** ** Statistics *)

Definition set_allocated_bytes (v : Z) (t : AllocStats) : AllocStats :=
  mkStats v (free_bytes t) (allocated_blocks t) (free_blocks t) (total_allocations t)
    (total_frees t) (failed_allocations t) (fragmentation_count t) (largest_free_block t)
    (smallest_free_block t) (total_alloc_time t) (total_free_time t) (requested_bytes t)
    (overhead_bytes t) (class_usage t).
Definition set_free_bytes (v : Z) (t : AllocStats) : AllocStats :=
  mkStats (allocated_bytes t) v (allocated_blocks t) (free_blocks t) (total_allocations t)
    (total_frees t) (failed_allocations t) (fragmentation_count t) (largest_free_block t)
    (smallest_free_block t) (total_alloc_time t) (total_free_time t) (requested_bytes t)
    (overhead_bytes t) (class_usage t).
Definition set_allocated_blocks (v : Z) (t : AllocStats) : AllocStats :=
  mkStats (allocated_bytes t) (free_bytes t) v (free_blocks t) (total_allocations t)
    (total_frees t) (failed_allocations t) (fragmentation_count t) (largest_free_block t)
    (smallest_free_block t) (total_alloc_time t) (total_free_time t) (requested_bytes t)
    (overhead_bytes t) (class_usage t).
Definition set_free_blocks (v : Z) (t : AllocStats) : AllocStats :=
  mkStats (allocated_bytes t) (free_bytes t) (allocated_blocks t) v (total_allocations t)
    (total_frees t) (failed_allocations t) (fragmentation_count t) (largest_free_block t)
    (smallest_free_block t) (total_alloc_time t) (total_free_time t) (requested_bytes t)
    (overhead_bytes t) (class_usage t).
Definition set_total_allocations (v : Z) (t : AllocStats) : AllocStats :=
  mkStats (allocated_bytes t) (free_bytes t) (allocated_blocks t) (free_blocks t) v
    (total_frees t) (failed_allocations t) (fragmentation_count t) (largest_free_block t)
    (smallest_free_block t) (total_alloc_time t) (total_free_time t) (requested_bytes t)
    (overhead_bytes t) (class_usage t).
Definition set_total_frees (v : Z) (t : AllocStats) : AllocStats :=
  mkStats (allocated_bytes t) (free_bytes t) (allocated_blocks t) (free_blocks t)
    (total_allocations t) v (failed_allocations t) (fragmentation_count t)
    (largest_free_block t) (smallest_free_block t) (total_alloc_time t) (total_free_time t)
    (requested_bytes t) (overhead_bytes t) (class_usage t).
Definition set_failed_allocations (v : Z) (t : AllocStats) : AllocStats :=
  mkStats (allocated_bytes t) (free_bytes t) (allocated_blocks t) (free_blocks t)
    (total_allocations t) (total_frees t) v (fragmentation_count t)
    (largest_free_block t) (smallest_free_block t) (total_alloc_time t) (total_free_time t)
    (requested_bytes t) (overhead_bytes t) (class_usage t).
Definition set_fragmentation_count (v : Z) (t : AllocStats) : AllocStats :=
  mkStats (allocated_bytes t) (free_bytes t) (allocated_blocks t) (free_blocks t)
    (total_allocations t) (total_frees t) (failed_allocations t) v
    (largest_free_block t) (smallest_free_block t) (total_alloc_time t) (total_free_time t)
    (requested_bytes t) (overhead_bytes t) (class_usage t).
Definition set_largest_free_block (v : Z) (t : AllocStats) : AllocStats :=
  mkStats (allocated_bytes t) (free_bytes t) (allocated_blocks t) (free_blocks t)
    (total_allocations t) (total_frees t) (failed_allocations t) (fragmentation_count t)
    v (smallest_free_block t) (total_alloc_time t) (total_free_time t)
    (requested_bytes t) (overhead_bytes t) (class_usage t).
Definition set_smallest_free_block (v : Z) (t : AllocStats) : AllocStats :=
  mkStats (allocated_bytes t) (free_bytes t) (allocated_blocks t) (free_blocks t)
    (total_allocations t) (total_frees t) (failed_allocations t) (fragmentation_count t)
    (largest_free_block t) v (total_alloc_time t) (total_free_time t)
    (requested_bytes t) (overhead_bytes t) (class_usage t).
Definition set_total_alloc_time (v : Z) (t : AllocStats) : AllocStats :=
  mkStats (allocated_bytes t) (free_bytes t) (allocated_blocks t) (free_blocks t)
    (total_allocations t) (total_frees t) (failed_allocations t) (fragmentation_count t)
    (largest_free_block t) (smallest_free_block t) v (total_free_time t)
    (requested_bytes t) (overhead_bytes t) (class_usage t).
Definition set_total_free_time (v : Z) (t : AllocStats) : AllocStats :=
  mkStats (allocated_bytes t) (free_bytes t) (allocated_blocks t) (free_blocks t)
    (total_allocations t) (total_frees t) (failed_allocations t) (fragmentation_count t)
    (largest_free_block t) (smallest_free_block t) (total_alloc_time t) v
    (requested_bytes t) (overhead_bytes t) (class_usage t).
Definition set_requested_bytes (v : Z) (t : AllocStats) : AllocStats :=
  mkStats (allocated_bytes t) (free_bytes t) (allocated_blocks t) (free_blocks t)
    (total_allocations t) (total_frees t) (failed_allocations t) (fragmentation_count t)
    (largest_free_block t) (smallest_free_block t) (total_alloc_time t) (total_free_time t)
    v (overhead_bytes t) (class_usage t).
Definition set_overhead_bytes (v : Z) (t : AllocStats) : AllocStats :=
  mkStats (allocated_bytes t) (free_bytes t) (allocated_blocks t) (free_blocks t)
    (total_allocations t) (total_frees t) (failed_allocations t) (fragmentation_count t)
    (largest_free_block t) (smallest_free_block t) (total_alloc_time t) (total_free_time t)
    (requested_bytes t) v (class_usage t).
Definition set_class_usage (v : list Z) (t : AllocStats) : AllocStats :=
  mkStats (allocated_bytes t) (free_bytes t) (allocated_blocks t) (free_blocks t)
    (total_allocations t) (total_frees t) (failed_allocations t) (fragmentation_count t)
    (largest_free_block t) (smallest_free_block t) (total_alloc_time t) (total_free_time t)
    (requested_bytes t) (overhead_bytes t) v.

Definition upd_stats (f : AllocStats -> AllocStats) : M unit :=
  modify (fun s => set_stats (f (stats s)) s).

(** Reading and writing [free_lists[i]] and [stats.class_usage[i]]. *)
Definition head_of (s : state) (i : nat) : Z := default NULL (free_lists s !! i).
Definition set_head (i : nat) (b : Z) : M unit :=
  modify (fun s => set_free_lists (<[i := b]> (free_lists s)) s).
Definition usage_of (t : AllocStats) (i : nat) : Z := default 0 (class_usage t !! i).

(** ** Internal helpers of allocator.c *)

(** A walk along [next] links visits one header address per step and writes
    nothing, so a walk that is longer than the region has addresses has come
    back to a block it has seen and never ends. *)
Definition walk_fuel : nat := Z.to_nat (HEAP_SIZE + 1).

Definition get_size_class (size : Z) : nat :=
  if size <=? SIZE_CLASS_1 then 0%nat
  else if size <=? SIZE_CLASS_2 then 1%nat
  else if size <=? SIZE_CLASS_3 then 2%nat
  else if size <=? SIZE_CLASS_4 then 3%nat
  else if size <=? SIZE_CLASS_5 then 4%nat
  else if size <=? SIZE_CLASS_6 then 5%nat
  else if size <=? SIZE_CLASS_7 then 6%nat
  else 7%nat.

Definition get_footer (block : Z) : M Z :=
  sz ← get_size block; mret (block + sizeof_Block + sz).

Definition set_block_footer (block : Z) : M unit :=
  footer ← get_footer block;
  if footer =? NULL then mret tt
  else
    sz ← get_size block; store 8 (footer + foff_size) sz;;
    fr ← get_free block; store_bool (footer + foff_free) fr;;
    store 4 (footer + foff_sentinel) FOOTER_SENTINEL.

Definition get_prev_physical_block (block : Z) : M Z :=
  s ← get;
  if block <=? heap s then mret NULL
  else
    let prev_footer := block - sizeof_BlockFooter in
    fs ← load 4 (prev_footer + foff_sentinel);
    if negb (fs =? FOOTER_SENTINEL) then mret NULL
    else
      fsz ← load 8 (prev_footer + foff_size);
      let prev_block := prev_footer - fsz - sizeof_Block in
      ss ← get_sentinel_start prev_block;
      if negb (ss =? SENTINEL_VALUE) then mret NULL
      else
        se ← get_sentinel_end prev_block;
        if negb (se =? SENTINEL_VALUE) then mret NULL else mret prev_block.

Definition get_block_data (block : Z) : Z := block + sizeof_Block.

Definition add_guard_bytes (ptr size : Z) : M unit :=
  fill (ptr - ALIGNMENT) (Z.to_nat ALIGNMENT) GUARD_VALUE;;
  fill (ptr + size) (Z.to_nat ALIGNMENT) GUARD_VALUE.

Definition check_guard_bytes (ptr size : Z) : M bool :=
  ok ← all_bytes (ptr - ALIGNMENT) (Z.to_nat ALIGNMENT) GUARD_VALUE;
  if (ok : bool) then all_bytes (ptr + size) (Z.to_nat ALIGNMENT) GUARD_VALUE
  else mret false.

Definition validate_block (block : Z) (location : string) : M unit :=
  if block =? NULL then mret tt
  else
    s ← get;
    if (block <? heap s) || (heap s + HEAP_SIZE <=? block)
    then emit (OutsideHeap location block)
    else
      ss ← get_sentinel_start block;
      when (negb (ss =? SENTINEL_VALUE)) (emit (StartSentinelCorrupted location block));;
      se ← get_sentinel_end block;
      when (negb (se =? SENTINEL_VALUE)) (emit (EndSentinelCorrupted location block));;
      footer ← get_footer block;
      (if footer =? NULL then mret tt
       else
         fs ← load 4 (footer + foff_sentinel);
         when (negb (fs =? FOOTER_SENTINEL)) (emit (FooterSentinelCorrupted location block)));;
      sz ← get_size block;
      when (HEAP_SIZE <? sz) (emit (InvalidSize location block sz)).

(** With DEBUG_LEVEL 1 the sweep returns at once. *)
Definition check_heap_integrity : M unit := mret tt.

Fixpoint fragmentation_walk (fuel : nat) (current : Z) : M unit :=
  match fuel with
  | O => diverges
  | S f =>
      if current =? NULL then mret tt
      else
        upd_stats (fun t => set_fragmentation_count (wrap64 (fragmentation_count t + 1)) t);;
        sz ← get_size current;
        upd_stats (fun t => if largest_free_block t <? sz then set_largest_free_block sz t else t);;
        sz ← get_size current;
        upd_stats (fun t => if sz <? smallest_free_block t then set_smallest_free_block sz t else t);;
        nx ← get_next current;
        fragmentation_walk f nx
  end.

Fixpoint fragmentation_classes (cs : list nat) : M unit :=
  match cs with
  | [] => mret tt
  | i :: r =>
      s ← get;
      fragmentation_walk walk_fuel (head_of s i);;
      fragmentation_classes r
  end.

Definition update_fragmentation_stats : M unit :=
  upd_stats (set_fragmentation_count 0);;
  upd_stats (set_largest_free_block 0);;
  upd_stats (set_smallest_free_block SIZE_MAX);;
  fragmentation_classes (seq 0 NUM_SIZE_CLASSES);;
  s ← get;
  when (fragmentation_count (stats s) =? 0) (upd_stats (set_smallest_free_block 0)).

(** The CACHE_LOCALITY loop of [add_to_free_list]:
    [while (current && current->next && current->next < block)]. *)
Fixpoint locality_walk (fuel : nat) (block current prev : Z) : M (Z * Z) :=
  match fuel with
  | O => diverges
  | S f =>
      if current =? NULL then mret (current, prev)
      else
        nx ← get_next current;
        if negb (nx =? NULL) && (nx <? block)
        then locality_walk f block nx current
        else mret (current, prev)
  end.

Definition add_to_free_list (block : Z) : M unit :=
  if block =? NULL then mret tt
  else
    put_free block true;;
    sz ← get_size block;
    let size_class := get_size_class sz in
    put_prev block NULL;;
    s ← get;
    put_next block (head_of s size_class);;
    s ← get;
    when (negb (head_of s size_class =? NULL)) (put_prev (head_of s size_class) block);;
    set_head size_class block;;
    if (size_class <? 4)%nat
    then
      s ← get;
      '(current, prev) ← locality_walk walk_fuel block (head_of s size_class) NULL;
      if prev =? NULL then mret tt
      else
        s ← get;
        hn ← get_next (head_of s size_class);
        set_head size_class hn;;
        when (negb (hn =? NULL)) (put_prev hn NULL);;
        cn ← get_next current;
        put_next block cn;;
        bn ← get_next block;
        when (negb (bn =? NULL)) (put_prev bn block);;
        put_next current block;;
        put_prev block current
    else mret tt.

Definition remove_from_free_list (block : Z) : M unit :=
  if block =? NULL then mret tt
  else
    sz ← get_size block;
    let size_class := get_size_class sz in
    p ← get_prev block;
    when (negb (p =? NULL)) (n ← get_next block; put_next p n);;
    n ← get_next block;
    when (negb (n =? NULL)) (p ← get_prev block; put_prev n p);;
    s ← get;
    when (head_of s size_class =? block) (n ← get_next block; set_head size_class n);;
    put_prev block NULL;;
    put_next block NULL.

Definition add_to_used_list (block : Z) : M unit :=
  if block =? NULL then mret tt
  else
    put_free block false;;
    put_prev block NULL;;
    s ← get;
    put_next block (used_list s);;
    s ← get;
    when (negb (used_list s =? NULL)) (put_prev (used_list s) block);;
    modify (set_used_list block).

Definition remove_from_used_list (block : Z) : M unit :=
  if block =? NULL then mret tt
  else
    p ← get_prev block;
    when (negb (p =? NULL)) (n ← get_next block; put_next p n);;
    n ← get_next block;
    when (negb (n =? NULL)) (p ← get_prev block; put_prev n p);;
    s ← get;
    when (used_list s =? block) (n ← get_next block; modify (set_used_list n));;
    put_prev block NULL;;
    put_next block NULL.

(** The scan of the request's own bucket in [find_best_fit_block]; the
    result is the exact fit it stops at, or [best_fit] at the end. *)
Fixpoint best_fit_walk (fuel : nat) (size current best_fit smallest_diff : Z) : M Z :=
  match fuel with
  | O => diverges
  | S f =>
      if current =? NULL then mret best_fit
      else
        validate_block current "find_best_fit";;
        fr ← get_free current;
        fits ← (if (fr : bool) then sz ← get_size current; mret (size <=? sz) else mret false);
        if (fits : bool)
        then
          sz ← get_size current;
          let diff := sz - size in
          if diff =? 0 then mret current
          else if diff <? smallest_diff
               then nx ← get_next current; best_fit_walk f size nx current diff
               else nx ← get_next current; best_fit_walk f size nx best_fit smallest_diff
        else nx ← get_next current; best_fit_walk f size nx best_fit smallest_diff
  end.

(** [for (c = size_class + 1; c < NUM_SIZE_CLASSES; c++)]: the first head
    that is not null. *)
Fixpoint first_head (s : state) (cs : list nat) : Z :=
  match cs with
  | [] => NULL
  | c :: r => if head_of s c =? NULL then first_head s r else head_of s c
  end.

Definition higher_classes (size_class : nat) : list nat :=
  seq (S size_class) (NUM_SIZE_CLASSES - S size_class).

Definition find_best_fit_block (size : Z) : M Z :=
  let size_class := get_size_class size in
  s ← get;
  best_fit ← best_fit_walk walk_fuel size (head_of s size_class) NULL SIZE_MAX;
  if negb (best_fit =? NULL) then mret best_fit
  else mret (first_head s (higher_classes size_class)).

Definition split_block (block size : Z) : M unit :=
  validate_block block "split_block_before";;
  original_size ← get_size block;
  let remaining_size :=
    wrap64 (original_size - size - sizeof_Block - sizeof_BlockFooter) in
  if remaining_size <? MIN_BLOCK_SIZE + ALIGNMENT * 2 then mret tt
  else
    put_size block size;;
    set_block_footer block;;
    let new_block := block + sizeof_Block + size + sizeof_BlockFooter in
    put_sentinel_start new_block SENTINEL_VALUE;;
    put_size new_block remaining_size;;
    put_free new_block true;;
    put_prev new_block NULL;;
    put_next new_block NULL;;
    put_request_size new_block 0;;
    put_address_tag new_block NULL;;
    put_alloc_id new_block 0;;
    put_sentinel_end new_block SENTINEL_VALUE;;
    set_block_footer new_block;;
    add_to_free_list new_block;;
    upd_stats (fun t => set_free_blocks (wrap64 (free_blocks t + 1)) t);;
    validate_block block "split_block_after1";;
    validate_block new_block "split_block_after2".

Definition try_merge_with_neighbors (block : Z) : M bool :=
  s ← get;
  if (block <? heap s) || (heap s + HEAP_SIZE <=? block) then mret false
  else
    bsz ← get_size block;
    let next_physical := block + sizeof_Block + bsz + sizeof_BlockFooter in
    merged ←
      (if next_physical <? heap s + HEAP_SIZE - sizeof_Block
       then
         validate_block next_physical "merge_check_next";;
         nfree ← get_free next_physical;
         if (nfree : bool)
         then
           remove_from_free_list next_physical;;
           bsz ← get_size block;
           nsz ← get_size next_physical;
           put_size block (wrap64 (bsz + wrap64 (sizeof_Block + nsz + sizeof_BlockFooter)));;
           set_block_footer block;;
           upd_stats (fun t => set_free_blocks (wrap64 (free_blocks t - 1)) t);;
           mret true
         else mret false
       else mret false);
    prev_physical ← get_prev_physical_block block;
    pfree ← (if prev_physical =? NULL then mret false else get_free prev_physical);
    if (pfree : bool)
    then
      remove_from_free_list block;;
      psz ← get_size prev_physical;
      bsz ← get_size block;
      put_size prev_physical (wrap64 (psz + wrap64 (sizeof_Block + bsz + sizeof_BlockFooter)));;
      set_block_footer prev_physical;;
      upd_stats (fun t => set_free_blocks (wrap64 (free_blocks t - 1)) t);;
      mret true
    else mret merged.

(** ** Public entry points *)

Definition initialize (h : host) : M unit :=
  s ← get;
  if initialized s then mret tt
  else
    modify (set_heap (region_addr h));;
    s ← get;
    if heap s =? NULL then emit HeapInitFailed
    else
      modify (set_region ∅);;
      let first_block := heap s in
      put_sentinel_start first_block SENTINEL_VALUE;;
      put_size first_block (HEAP_SIZE - sizeof_Block - sizeof_BlockFooter);;
      put_free first_block true;;
      put_prev first_block NULL;;
      put_next first_block NULL;;
      put_request_size first_block 0;;
      put_address_tag first_block NULL;;
      put_alloc_id first_block 0;;
      put_sentinel_end first_block SENTINEL_VALUE;;
      set_block_footer first_block;;
      add_to_free_list first_block;;
      sz ← get_size first_block;
      upd_stats (set_free_bytes sz);;
      upd_stats (set_free_blocks 1);;
      sz ← get_size first_block;
      upd_stats (set_largest_free_block sz);;
      sz ← get_size first_block;
      upd_stats (set_smallest_free_block sz);;
      modify (set_initialized true);;
      emit (Initialized (heap s)).

Definition cleanup : M unit :=
  s ← get;
  if negb (initialized s) then mret tt
  else
    modify (set_allocation_records []);;
    modify (set_region ∅);;
    modify (set_heap NULL);;
    modify (set_free_lists (replicate NUM_SIZE_CLASSES NULL));;
    modify (set_used_list NULL);;
    modify (set_initialized false);;
    emit CleanedUp.

Definition my_malloc_internal (h : host) (requested_size : Z) (file : string) (line : Z)
  : M Z :=
  s ← get;
  when (negb (initialized s)) (initialize h);;
  if requested_size =? 0 then mret NULL
  else
    upd_stats (fun t => set_total_allocations (wrap64 (total_allocations t + 1)) t);;
    upd_stats (fun t => set_requested_bytes (wrap64 (requested_bytes t + requested_size)) t);;
    let aligned_size := ALIGN (wrap64 (requested_size + ALIGNMENT * 2)) in
    check_heap_integrity;;
    block ← find_best_fit_block aligned_size;
    if block =? NULL
    then
      upd_stats (fun t => set_failed_allocations (wrap64 (failed_allocations t + 1)) t);;
      mret NULL
    else
      sz ← get_size block;
      when (wrap64 (aligned_size + MIN_BLOCK_SIZE) <=? sz) (split_block block aligned_size);;
      put_free block false;;
      put_request_size block requested_size;;
      put_address_tag block 0xDEADBEEF;;
      s ← get;
      put_alloc_id block (next_alloc_id s);;
      modify (set_next_alloc_id (wrap32 (next_alloc_id s + 1)));;
      remove_from_free_list block;;
      add_to_used_list block;;
      set_block_footer block;;
      sz ← get_size block;
      upd_stats (fun t => set_allocated_bytes (wrap64 (allocated_bytes t + sz)) t);;
      upd_stats (fun t => set_allocated_blocks (wrap64 (allocated_blocks t + 1)) t);;
      sz ← get_size block;
      upd_stats (fun t => set_free_bytes (wrap64 (free_bytes t - sz)) t);;
      upd_stats (fun t => set_free_blocks (wrap64 (free_blocks t - 1)) t);;
      upd_stats (fun t => set_overhead_bytes
        (wrap64 (overhead_bytes t
                 + wrap64 (sizeof_Block + sizeof_BlockFooter + wrap64 (aligned_size - requested_size)))) t);;
      upd_stats (fun t => set_class_usage
        (<[get_size_class aligned_size :=
             wrap64 (usage_of t (get_size_class aligned_size) + aligned_size)]> (class_usage t)) t);;
      upd_stats (fun t => set_total_alloc_time (total_alloc_time t + ticks h) t);;
      update_fragmentation_stats;;
      let data_ptr := get_block_data block + ALIGNMENT in
      add_guard_bytes data_ptr requested_size;;
      memset data_ptr 0 requested_size;;
      (if record_ok h
       then
         id ← get_alloc_id block;
         modify (fun s => set_allocation_records
           (mkRecord data_ptr requested_size id file line :: allocation_records s) s)
       else mret tt);;
      mret data_ptr.

(** The unlinking of the first leak record whose [ptr] is [p]. *)
Fixpoint remove_record (p : Z) (l : list AllocationRecord) : list AllocationRecord :=
  match l with
  | [] => []
  | r :: t => if rec_ptr r =? p then t else r :: remove_record p t
  end.

Definition my_free (h : host) (ptr : Z) : M unit :=
  s ← get;
  when (negb (initialized s)) (initialize h);;
  if ptr =? NULL then mret tt
  else
    check_heap_integrity;;
    let ptr := ptr - ALIGNMENT in
    let block := ptr - sizeof_Block in
    validate_block block "my_free";;
    fr ← get_free block;
    if (fr : bool)
    then
      id ← get_alloc_id block;
      emit (DoubleFree ptr id)
    else
      rq ← get_request_size block;
      ok ← check_guard_bytes (ptr + ALIGNMENT) rq;
      (if (ok : bool) then mret tt
       else id ← get_alloc_id block; emit (BufferOverrun (ptr + ALIGNMENT) id));;
      sz ← get_size block;
      upd_stats (fun t => set_allocated_bytes (wrap64 (allocated_bytes t - sz)) t);;
      upd_stats (fun t => set_allocated_blocks (wrap64 (allocated_blocks t - 1)) t);;
      sz ← get_size block;
      upd_stats (fun t => set_free_bytes (wrap64 (free_bytes t + sz)) t);;
      upd_stats (fun t => set_free_blocks (wrap64 (free_blocks t + 1)) t);;
      upd_stats (fun t => set_total_frees (wrap64 (total_frees t + 1)) t);;
      sz ← get_size block;
      upd_stats (fun t => set_class_usage
        (<[get_size_class sz := wrap64 (usage_of t (get_size_class sz) - sz)]> (class_usage t)) t);;
      put_free block true;;
      put_address_tag block NULL;;
      remove_from_used_list block;;
      add_to_free_list block;;
      set_block_footer block;;
      try_merge_with_neighbors block;;
      modify (fun s => set_allocation_records
        (remove_record (ptr + ALIGNMENT) (allocation_records s)) s);;
      upd_stats (fun t => set_total_free_time (total_free_time t + ticks h) t);;
      update_fragmentation_stats.

Definition my_malloc_size (ptr : Z) : M Z :=
  s ← get;
  if (ptr =? NULL) || negb (initialized s) then mret 0
  else
    let ptr := ptr - ALIGNMENT in
    let block := ptr - sizeof_Block in
    ss ← get_sentinel_start block;
    if negb (ss =? SENTINEL_VALUE) then mret 0
    else
      se ← get_sentinel_end block;
      if negb (se =? SENTINEL_VALUE) then mret 0
      else
        fr ← get_free block;
        if (fr : bool) then mret 0 else get_request_size block.

Definition my_realloc_internal (h : host) (ptr size : Z) (file : string) (line : Z)
  : M Z :=
  if ptr =? NULL then my_malloc_internal h size file line
  else if size =? 0 then my_free h ptr;; mret NULL
  else
    current_size ← my_malloc_size ptr;
    if current_size =? 0 then mret NULL
    else
      let user_ptr := ptr in
      let internal_ptr := ptr - ALIGNMENT in
      let block := internal_ptr - sizeof_Block in
      let required_total_size := ALIGN (wrap64 (size + ALIGNMENT * 2)) in
      bsz ← get_size block;
      if required_total_size <=? bsz
      then
        bsz ← get_size block;
        when (wrap64 (required_total_size + MIN_BLOCK_SIZE) <=? bsz)
             (split_block block required_total_size;; set_block_footer block);;
        put_request_size block size;;
        add_guard_bytes user_ptr size;;
        mret user_ptr
      else
        new_ptr ← my_malloc_internal h size file line;
        if new_ptr =? NULL then mret NULL
        else
          memcpy new_ptr user_ptr (if current_size <? size then current_size else size);;
          my_free h user_ptr;;
          mret new_ptr.

Definition my_calloc_internal (h : host) (count size : Z) (file : string) (line : Z)
  : M Z :=
  if (0 <? count) && (SIZE_MAX / count <? size) then mret NULL
  else
    let total_size := wrap64 (count * size) in
    my_malloc_internal h total_size file line.

(** ** Observing a state *)

(** Header fields as they stand in the region. *)
Definition size_at (s : state) (b : Z) : Z := load_le (region s) (b + off_size) 8.
Definition free_at (s : state) (b : Z) : bool :=
  negb (load_le (region s) (b + off_free) 1 =? 0).
Definition next_at (s : state) (b : Z) : Z := load_le (region s) (b + off_next) 8.
Definition alloc_id_at (s : state) (b : Z) : Z := load_le (region s) (b + off_alloc_id) 4.
Definition footer_at (s : state) (b : Z) : Z := b + sizeof_Block + size_at s b.

(** The header that [my_free] and [my_malloc_size] take a user pointer to
    belong to: one guard band and one header below it. *)
Definition header_of (ptr : Z) : Z := ptr - ALIGNMENT - sizeof_Block.

(** The blocks threaded from [b] along [next]. *)
Fixpoint members (fuel : nat) (s : state) (b : Z) : list Z :=
  match fuel with
  | O => []
  | S f => if b =? NULL then [] else b :: members f s (next_at s b)
  end.

Definition bucket (s : state) (i : nat) : list Z := members walk_fuel s (head_of s i).
Definition used_blocks (s : state) : list Z := members walk_fuel s (used_list s).
Definition all_free_blocks (s : state) : list Z :=
  concat (map (bucket s) (seq 0 NUM_SIZE_CLASSES)).
Definition sum_sizes (s : state) (l : list Z) : Z :=
  foldr (fun b acc => size_at s b + acc) 0 l.

(** The block that starts where [b], its payload and its footer end. *)
Definition next_physical (s : state) (b : Z) : Z :=
  b + sizeof_Block + size_at s b + sizeof_BlockFooter.

(** The [n] bytes at [a]. *)
Definition bytes_at (s : state) (a : Z) (n : nat) : list Z :=
  map (fun i => byte_at (region s) (a + Z.of_nat i)) (seq 0 n).

(** [m] run from [s] returns, and [Q] holds of what it returns. *)
Definition after {A} (m : M A) (s : state) (Q : A -> state -> list diagnostic -> Prop)
  : Prop :=
  match m s with
  | Ok a s' err => Q a s' err
  | Undefined | Diverges => False
  end.

(** ** Well-formed bucket chains *)

(** The header of [b] and the footer its size field points to can be read. *)
Definition readable (s : state) (b : Z) : Prop :=
  in_region s b sizeof_Block = true /\
  in_region s (footer_at s b) sizeof_BlockFooter = true.

(** [chain s b l]: following [next] from [b] visits exactly the blocks [l],
    all readable, and then reaches the null pointer. *)
Inductive chain (s : state) : Z -> list Z -> Prop :=
| chain_end : chain s NULL []
| chain_step b l :
    b <> NULL -> readable s b -> chain s (next_at s b) l -> chain s b (b :: l).

(** [b] is marked free and is large enough for a request of [size]. *)
Definition fits (s : state) (size b : Z) : bool :=
  free_at s b && (size <=? size_at s b).

(** What the scan of one bucket computes, on the list of its blocks. *)
Fixpoint best_fit_of (s : state) (size : Z) (l : list Z) (best_fit smallest_diff : Z) : Z :=
  match l with
  | [] => best_fit
  | b :: r =>
      if fits s size b
      then
        if size_at s b - size =? 0 then b
        else if size_at s b - size <? smallest_diff
             then best_fit_of s size r b (size_at s b - size)
             else best_fit_of s size r best_fit smallest_diff
      else best_fit_of s size r best_fit smallest_diff
  end.

(** What [find_best_fit_block] returns, on the list [l] of the blocks of the
    request's bucket. *)
Definition placement (s : state) (size : Z) (l : list Z) : Z :=
  let best_fit := best_fit_of s size l NULL SIZE_MAX in
  if negb (best_fit =? NULL) then best_fit
  else first_head s (higher_classes (get_size_class size)).

(** ** Client programs *)

Definition host0 : host := mkHost 0x10000 true 0.

(** allocate(1); free it. *)
Definition coalesce_client : M Z :=
  p ← my_malloc_internal host0 1 "client.c" 1;
  my_free host0 p;;
  mret p.

(** allocate(1). *)
Definition split_client : M Z := my_malloc_internal host0 1 "client.c" 1.

(** allocate(200); shrink it in place to 1 byte. *)
Definition shrink_client : M Z :=
  p ← my_malloc_internal host0 200 "client.c" 1;
  my_realloc_internal host0 p 1 "client.c" 2.

(** allocate(200); shrink it in place to 1 byte; free it. *)
Definition shrink_free_client : M Z :=
  p ← shrink_client;
  my_free host0 p;;
  mret p.

(** allocate(3000) and allocate(1); free the first; allocate(1000), which
    takes the freed block from bucket 7 and splits it. *)
Definition promoted_split_client : M unit :=
  w ← my_malloc_internal host0 3000 "client.c" 1;
  _ ← my_malloc_internal host0 1 "client.c" 2;
  my_free host0 w;;
  _ ← my_malloc_internal host0 1000 "client.c" 3;
  mret tt.

(** After that, allocate(100) and store 100 bytes 0xAB through the pointer. *)
Definition filled_client : M Z :=
  promoted_split_client;;
  p ← my_malloc_internal host0 100 "client.c" 4;
  fill p 100 0xAB;;
  mret p.

(** allocate(1000) and allocate(100); free both; allocate(2000). *)
Definition absorbed_client : M unit :=
  a ← my_malloc_internal host0 1000 "client.c" 1;
  b ← my_malloc_internal host0 100 "client.c" 2;
  my_free host0 a;;
  my_free host0 b;;
  _ ← my_malloc_internal host0 2000 "client.c" 3;
  mret tt.

(** allocate 200, 1, 100 and 1 bytes; free the first and the third. *)
Definition two_free_client : M unit :=
  a ← my_malloc_internal host0 200 "client.c" 1;
  _ ← my_malloc_internal host0 1 "client.c" 2;
  b ← my_malloc_internal host0 100 "client.c" 3;
  _ ← my_malloc_internal host0 1 "client.c" 4;
  my_free host0 a;;
  my_free host0 b.

(** allocate 1000, 100 and 1 bytes; free the first two, which merge; then
    allocate(1048), whose payload and rear guard band cover the header the
    second block had.  The result is the second pointer, already freed. *)
Definition reused_client : M Z :=
  a ← my_malloc_internal host0 1000 "client.c" 1;
  b ← my_malloc_internal host0 100 "client.c" 2;
  _ ← my_malloc_internal host0 1 "client.c" 3;
  my_free host0 a;;
  my_free host0 b;;
  _ ← my_malloc_internal host0 1048 "client.c" 4;
  mret b.

(** allocate(1000) and allocate(100); free both; allocate(1064). *)
Definition stale_chain_client : M unit :=
  a ← my_malloc_internal host0 1000 "client.c" 1;
  b ← my_malloc_internal host0 100 "client.c" 2;
  my_free host0 a;;
  my_free host0 b;;
  _ ← my_malloc_internal host0 1064 "client.c" 3;
  mret tt.

(** The state a client program leaves. *)
Definition final_state {A} (m : M A) : state :=
  match m startup with
  | Ok _ s _ => s
  | Undefined | Diverges => startup
  end.

Definition coalesced : state := final_state coalesce_client.
Definition two_free : state := final_state two_free_client.

(** ** More observations *)

Definition sentinel_start_at (s : state) (b : Z) : Z :=
  load_le (region s) (b + off_sentinel_start) 4.
Definition sentinel_end_at (s : state) (b : Z) : Z :=
  load_le (region s) (b + off_sentinel_end) 4.
Definition request_size_at (s : state) (b : Z) : Z :=
  load_le (region s) (b + off_request_size) 4.
Definition prev_at (s : state) (b : Z) : Z := load_le (region s) (b + off_prev) 8.

(** Both sentinels of the header at [b] read [SENTINEL_VALUE]. *)
Definition intact (s : state) (b : Z) : bool :=
  (sentinel_start_at s b =? SENTINEL_VALUE) && (sentinel_end_at s b =? SENTINEL_VALUE).

(** The footer at [f] mirrors [size] and [free] and carries its sentinel. *)
Definition footer_is (s : state) (f size : Z) (free : bool) : Prop :=
  load_le (region s) (f + foff_size) 8 = size /\
  negb (load_le (region s) (f + foff_free) 1 =? 0) = free /\
  load_le (region s) (f + foff_sentinel) 4 = FOOTER_SENTINEL.

(** One free block over the whole region, alone in bucket 7, and nothing in
    use. *)
Definition fresh_heap (s : state) : Prop :=
  initialized s = true /\ heap s <> NULL /\
  free_lists s = <[7%nat := heap s]> (replicate NUM_SIZE_CLASSES NULL) /\
  used_list s = NULL /\
  intact s (heap s) = true /\
  size_at s (heap s) = HEAP_SIZE - sizeof_Block - sizeof_BlockFooter /\
  free_at s (heap s) = true /\
  prev_at s (heap s) = NULL /\ next_at s (heap s) = NULL /\
  footer_is s (footer_at s (heap s)) (size_at s (heap s)) true.

(** The region after [fill a n v]. *)
Fixpoint fill_mem (m : gmap Z Z) (a : Z) (n : nat) (v : Z) : gmap Z Z :=
  match n with
  | O => m
  | S k => fill_mem (store_le m a 1 v) (a + 1) k v
  end.

(** Both guard bands of the user range [ptr, ptr + size) hold [GUARD_VALUE]. *)
Definition guards_ok (s : state) (ptr size : Z) : bool :=
  forallb (fun x => x =? GUARD_VALUE) (bytes_at s (ptr - ALIGNMENT) (Z.to_nat ALIGNMENT))
  && forallb (fun x => x =? GUARD_VALUE) (bytes_at s (ptr + size) (Z.to_nat ALIGNMENT)).

(** The three fields [update_fragmentation_stats] recomputes. *)
Definition with_fragmentation (c l m : Z) (t : AllocStats) : AllocStats :=
  set_smallest_free_block m (set_largest_free_block l (set_fragmentation_count c t)).

(** Two headers that do not overlap (or the null pointer, which names no
    header). *)
Definition apart (a b : Z) : Prop := a + sizeof_Block <= b \/ b + sizeof_Block <= a.

(** The region lies within the 64-bit address space. *)
Definition addressable (s : state) : Prop := 0 < heap s /\ heap s + HEAP_SIZE <= 2 ^ 64.

(** The header at [x] lies in the region, away from the header at [b]. *)
Definition neighbour (s : state) (b x : Z) : Prop :=
  x = NULL \/ (in_region s x sizeof_Block = true /\ apart x b).

Definition footer_sentinel_at (s : state) (b : Z) : Z :=
  load_le (region s) (footer_at s b + foff_sentinel) 4.

(** What [validate_block] checks on a header inside the region. *)
Definition valid_block (s : state) (b : Z) : bool :=
  intact s b && (footer_sentinel_at s b =? FOOTER_SENTINEL) && (size_at s b <=? HEAP_SIZE).

(** The lines [validate_block] prints for a header inside the region. *)
Definition validate_report (s : state) (b : Z) (location : string) : list diagnostic :=
  ((if sentinel_start_at s b =? SENTINEL_VALUE then []
    else [StartSentinelCorrupted location b]) ++
   (if sentinel_end_at s b =? SENTINEL_VALUE then []
    else [EndSentinelCorrupted location b]) ++
   (if footer_sentinel_at s b =? FOOTER_SENTINEL then []
    else [FooterSentinelCorrupted location b]) ++
   (if HEAP_SIZE <? size_at s b then [InvalidSize location b (size_at s b)] else []))%list.

(** The three fields [set_block_footer] writes. *)
Definition write_footer (m : gmap Z Z) (f size : Z) (free : bool) : gmap Z Z :=
  store_le (store_le (store_le m (f + foff_size) 8 size)
              (f + foff_free) 1 (if free then 1 else 0))
    (f + foff_sentinel) 4 FOOTER_SENTINEL.

(** The header [split_block] writes for the remainder. *)
Definition new_header (m : gmap Z Z) (nb rem : Z) : gmap Z Z :=
  store_le
    (store_le
       (store_le
          (store_le
             (store_le
                (store_le
                   (store_le
                      (store_le
                         (store_le m (nb + off_sentinel_start) 4 SENTINEL_VALUE)
                         (nb + off_size) 8 rem)
                      (nb + off_free) 1 1)
                   (nb + off_prev) 8 NULL)
                (nb + off_next) 8 NULL)
             (nb + off_request_size) 4 0)
          (nb + off_address_tag) 8 NULL)
       (nb + off_alloc_id) 4 0)
    (nb + off_sentinel_end) 4 SENTINEL_VALUE.

(** The links [add_to_free_list] writes when [b] becomes the head, before
    the old head [h]. *)
Definition push_links (m : gmap Z Z) (b h : Z) : gmap Z Z :=
  let m' := store_le (store_le (store_le m (b + off_free) 1 1) (b + off_prev) 8 NULL)
              (b + off_next) 8 h in
  if h =? NULL then m' else store_le m' (h + off_prev) 8 b.

(** The region after [split_block b size] has split. *)
Definition split_mem (s : state) (b size : Z) : gmap Z Z :=
  let rem := size_at s b - size - 80 in
  let nb := b + sizeof_Block + size + sizeof_BlockFooter in
  push_links
    (write_footer
       (new_header
          (write_footer (store_le (region s) (b + off_size) 8 size)
             (b + sizeof_Block + size) size (free_at s b))
          nb rem)
       (nb + sizeof_Block + rem) rem true)
    nb (head_of s (get_size_class rem)).

Definition split_state (s : state) (b size : Z) : state :=
  set_stats (set_free_blocks (wrap64 (free_blocks (stats s) + 1)) (stats s))
    (set_free_lists
       (<[get_size_class (size_at s b - size - 80) :=
            b + sizeof_Block + size + sizeof_BlockFooter]> (free_lists s))
       (set_region (split_mem s b size) s)).

(** When [split_block b size] splits without reordering a bucket: the block
    is valid and at least 192 bytes larger than [size], and the head [h] of
    the bucket of the remainder is null or a header away from the span of
    the block (or the block itself) that the remainder goes in front of. *)
Definition splittable (s : state) (b size : Z) : Prop :=
  addressable s /\ length (free_lists s) = NUM_SIZE_CLASSES /\
  readable s b /\ valid_block s b = true /\
  0 <= size /\ size + 192 <= size_at s b /\
  (head_of s (get_size_class (size_at s b - size - 80)) = NULL \/
   in_region s (head_of s (get_size_class (size_at s b - size - 80))) sizeof_Block = true /\
   (head_of s (get_size_class (size_at s b - size - 80)) = b \/
    head_of s (get_size_class (size_at s b - size - 80)) + sizeof_Block <= b \/
    next_physical s b <= head_of s (get_size_class (size_at s b - size - 80)))) /\
  ((4 <= get_size_class (size_at s b - size - 80))%nat \/
   head_of s (get_size_class (size_at s b - size - 80)) = NULL \/
   b + 80 + size < head_of s (get_size_class (size_at s b - size - 80))).

Definition refusing_host : host := mkHost NULL true 0.

(** * Properties *)

(** ** The model on the scenarios of the specification *)

(** Fresh cycle: allocate(100) gives a pointer of size 100 to 100 zero bytes;
    after free the region is one free block of [HEAP_SIZE - 80] bytes. *)
Example fresh_allocate_free_cycle :
  after (my_malloc_internal host0 100 "client.c" 1) startup (fun p s _ =>
    after (my_malloc_size p) s (fun n _ _ => n = 100) /\
    bytes_at s p 100 = replicate 100 0 /\
    after (my_free host0 p) s (fun _ s' _ =>
      all_free_blocks s' = [heap s'] /\ used_blocks s' = [] /\
      size_at s' (heap s') = HEAP_SIZE - sizeof_Block - sizeof_BlockFooter)).
Proof. vm_compute. repeat split. Qed.

(** Best fit: with blocks of 32, 64, 128 and 256 bytes allocated and the
    second freed, allocate(50) returns the pointer of the freed block. *)
Example best_fit_reuses_freed_slot :
  after (_ ← my_malloc_internal host0 32 "client.c" 1;
         b ← my_malloc_internal host0 64 "client.c" 2;
         _ ← my_malloc_internal host0 128 "client.c" 3;
         _ ← my_malloc_internal host0 256 "client.c" 4;
         my_free host0 b;;
         e ← my_malloc_internal host0 50 "client.c" 5;
         mret (b, e)) startup (fun be _ _ => be.1 = be.2).
Proof. vm_compute. reflexivity. Qed.

(** Shrink in place: allocate(200), fill with 0xAB, reallocate to 80 bytes
    returns the same pointer, of size 80, with the first 80 bytes kept. *)
Example realloc_shrinks_in_place :
  after (p ← my_malloc_internal host0 200 "client.c" 1;
         fill p 200 0xAB;;
         q ← my_realloc_internal host0 p 80 "client.c" 2;
         n ← my_malloc_size q;
         mret (p, q, n)) startup (fun r s _ =>
    r.1.2 = r.1.1 /\ r.2 = 80 /\ bytes_at s r.1.2 80 = replicate 80 0xAB).
Proof. vm_compute. repeat split. Qed.

(** ** What the code does on the client programs *)

(** C1.  After allocate(1) and free of the pointer, the freed block has
    absorbed its free next neighbour and spans the whole region: its size,
    1048496, is of class 7, and it is the one block threaded into bucket
    1, the bucket of the 48 bytes it had when [my_free] inserted it. *)
Theorem merged_block_stays_in_old_bucket :
  after coalesce_client startup (fun _ s _ =>
    bucket s 1 = [heap s] /\
    free_at s (heap s) = true /\
    size_at s (heap s) = 1048496 /\
    get_size_class (size_at s (heap s)) = 7%nat /\
    bucket s 7 = []).
Proof. vm_compute. repeat split. Qed.

(** In that state the whole region is one free block, and yet allocate(100)
    returns null: bucket 3 and the buckets above it are empty. *)
Remark allocation_fails_in_a_free_region :
  after coalesce_client startup (fun _ s _ =>
    after (my_malloc_internal host0 100 "client.c" 2) s (fun p s' _ =>
      p = NULL /\
      failed_allocations (stats s') = 1)).
Proof. vm_compute. repeat split. Qed.

(** C2.  After allocate(1) has split the initial block, the one free block
    has 1048368 bytes while [stats.free_bytes] is 1048448: the header and
    footer of the new block were not taken off.  After a reallocate that
    shrinks a 240-byte block to 48 bytes in place, the one used block has 48
    bytes while [stats.allocated_bytes] is still 240. *)
Theorem byte_counters_drift_on_split :
  after split_client startup (fun _ s _ =>
    sum_sizes s (all_free_blocks s) = 1048368 /\
    free_bytes (stats s) = 1048448) /\
  after shrink_client startup (fun _ s _ =>
    sum_sizes s (used_blocks s) = 48 /\
    allocated_bytes (stats s) = 240).
Proof. vm_compute. repeat split. Qed.

(** C3.  After allocate(200) and a reallocate to 1 byte, which shrinks the
    block in place and splits off a free tail, the tail is free and so is
    its next physical neighbour; after the pointer is then freed, the block
    that contains it is free and its next physical neighbour is free. *)
Theorem shrink_leaves_adjacent_free_blocks :
  after shrink_client startup (fun p s _ =>
    let tail := next_physical s (p - ALIGNMENT - sizeof_Block) in
    free_at s tail = true /\
    In tail (all_free_blocks s) /\
    free_at s (next_physical s tail) = true /\
    In (next_physical s tail) (all_free_blocks s)) /\
  after shrink_free_client startup (fun p s _ =>
    let block := p - ALIGNMENT - sizeof_Block in
    free_at s block = true /\
    In block (all_free_blocks s) /\
    free_at s (next_physical s block) = true /\
    In (next_physical s block) (all_free_blocks s)).
Proof. vm_compute. intuition. Qed.

(** C4.  In the state [reused_client] leaves, the pointer [b] has been
    freed and the bytes of its header lie in the payload and the rear guard
    band of a later allocation: the header is inside the region and its
    [free] field is set, but its size field holds guard bytes, so that the
    footer lies past the end of the region (and below 2^64: the address
    does not wrap).  free(b), a double free, has no result: [validate_block]
    reads that footer, outside the region, before [my_free] tests [free].
    Up to there the run has printed the banner only. *)
Theorem double_free_reads_past_the_region :
  after reused_client startup (fun b s err =>
    err = [Initialized 65536] /\
    b = 66736 /\
    initialized s = true /\
    in_region s (header_of b) sizeof_Block = true /\
    free_at s (header_of b) = true /\
    size_at s (header_of b) = 0xFEFEFEFEFEFEFEFE /\
    in_region s (footer_at s (header_of b)) sizeof_BlockFooter = false /\
    footer_at s (header_of b) + sizeof_BlockFooter <= 2 ^ 64 /\
    validate_block (header_of b) "my_free" s = Undefined /\
    my_free host0 b s = Undefined).
Proof. vm_compute. repeat split. discriminate. Qed.

(** C5.  In the state [stale_chain_client] leaves, reached by allocations
    and frees of live pointers that printed the banner only, bucket 3 (that
    of a 144-byte request, as allocate(100) makes) is headed by a block that
    was merged away and whose [next] field now holds guard bytes, an address
    outside the region.  The placement search for 144 bytes follows it and
    reads there: it has no result, and neither has allocate(100). *)
Theorem placement_search_follows_a_stale_head :
  ALIGN (100 + 32) = 144 /\
  after stale_chain_client startup (fun _ s err =>
    err = [Initialized 65536] /\
    initialized s = true /\
    head_of s (get_size_class 144) = 66656 /\
    in_region s 66656 sizeof_Block = true /\
    next_at s 66656 = 0xFEFEFEFEFEFEFEFE /\
    in_region s (next_at s 66656) sizeof_Block = false /\
    find_best_fit_block 144 s = Undefined /\
    my_malloc_internal host0 100 "client.c" 4 s = Undefined).
Proof. vm_compute. repeat split. Qed.

(** C6.  In the state [filled_client] leaves, [p] was returned by
    allocate(100) and holds 100 bytes 0xAB.  reallocate(p, 2000) returns a
    pointer [q] that is not null and not [p], and the first 100 bytes at [q]
    are zero. *)
Theorem realloc_loses_the_contents :
  after filled_client startup (fun p s _ =>
    bytes_at s p 100 = replicate 100 0xAB /\
    after (my_realloc_internal host0 p 2000 "client.c" 5) s (fun q s' _ =>
      q <> NULL /\ q <> p /\
      bytes_at s' q 100 = replicate 100 0)).
Proof. vm_compute. repeat split; discriminate. Qed.

(** C7.  In the state [absorbed_client] leaves, allocate(50) returns a
    pointer that is not null, and [my_malloc_size] of that pointer is 0. *)
Theorem size_of_fresh_pointer_is_zero :
  after absorbed_client startup (fun _ s _ =>
    after (my_malloc_internal host0 50 "client.c" 4) s (fun p s' _ =>
      p <> NULL /\
      after (my_malloc_size p) s' (fun n _ _ => n = 0))).
Proof. vm_compute. repeat split; discriminate. Qed.

(** ** Memory lemmas *)

Lemma byte_at_insert (m : gmap Z Z) (a a' v : Z) :
  byte_at (<[a := v]> m) a' = if decide (a = a') then v mod 256 else byte_at m a'.
Proof.
  unfold byte_at. rewrite lookup_insert. destruct (decide (a = a')); reflexivity.
Qed.

Lemma byte_at_range (m : gmap Z Z) (a : Z) : 0 <= byte_at m a < 256.
Proof. unfold byte_at. apply Z.mod_pos_bound. lia. Qed.

Lemma load_le_range (n : nat) : forall (m : gmap Z Z) (a : Z),
  0 <= load_le m a n < 256 ^ Z.of_nat n.
Proof.
  induction n as [|n IH]; intros m a.
  - cbn. lia.
  - cbn [load_le]. specialize (IH m (a + 1)). pose proof (byte_at_range m a).
    replace (Z.of_nat (S n)) with (Z.succ (Z.of_nat n)) by lia.
    rewrite Z.pow_succ_r by lia. lia.
Qed.

Lemma byte_at_store_le (m : gmap Z Z) (n : nat) : forall (a v a' : Z),
  a' < a \/ a + Z.of_nat n <= a' ->
  byte_at (store_le m a n v) a' = byte_at m a'.
Proof.
  revert m. induction n as [|n IH]; intros m a v a' Hd; [reflexivity|].
  cbn [store_le]. rewrite IH by lia.
  rewrite byte_at_insert. destruct (decide (a = a')); [lia | reflexivity].
Qed.

Lemma load_le_store_le_other (n' : nat) : forall (m : gmap Z Z) (a' a : Z) (n : nat) (v : Z),
  a' + Z.of_nat n' <= a \/ a + Z.of_nat n <= a' ->
  load_le (store_le m a n v) a' n' = load_le m a' n'.
Proof.
  induction n' as [|n' IH]; intros m a' a n v Hd; [reflexivity|].
  cbn [load_le]. rewrite IH by lia. rewrite byte_at_store_le by lia. reflexivity.
Qed.

Lemma load_le_store_le_same (n : nat) : forall (m : gmap Z Z) (a v : Z),
  load_le (store_le m a n v) a n = v mod 256 ^ Z.of_nat n.
Proof.
  induction n as [|n IH]; intros m a v.
  - cbn. rewrite Z.mod_1_r. reflexivity.
  - cbn [load_le store_le]. rewrite IH.
    rewrite byte_at_store_le by lia. rewrite byte_at_insert.
    destruct (decide (a = a)) as [_|]; [|congruence].
    rewrite Z.mod_mod by lia.
    replace (Z.of_nat (S n)) with (Z.succ (Z.of_nat n)) by lia.
    rewrite Z.pow_succ_r by lia.
    rewrite (Z.rem_mul_r v 256 (256 ^ Z.of_nat n)) by lia.
    reflexivity.
Qed.

(** ** Rules for [after] *)

Lemma after_ok {A} (m : M A) (s : state) Q :
  after m s Q <-> exists a s' err, m s = Ok a s' err /\ Q a s' err.
Proof.
  unfold after. split.
  - destruct (m s) as [a s' err| |]; [eauto | tauto | tauto].
  - intros (a & s' & err & -> & HQ). exact HQ.
Qed.

Lemma after_ret {A} (a : A) (s : state) (Q : A -> state -> list diagnostic -> Prop) :
  Q a s [] -> after (mret a) s Q.
Proof. exact id. Qed.

Lemma after_bind {A B} (m : M A) (f : A -> M B) (s : state)
    (Q : B -> state -> list diagnostic -> Prop) :
  after m s (fun a s1 e1 => after (f a) s1 (fun b s2 e2 => Q b s2 (e1 ++ e2)%list)) ->
  after (m ≫= f) s Q.
Proof.
  unfold after, mbind, M_bind. destruct (m s) as [a s1 e1| |]; [|tauto|tauto].
  destruct (f a s1); tauto.
Qed.

Lemma after_get (s : state) Q : Q s s [] -> after get s Q.
Proof. exact id. Qed.

Lemma after_modify (f : state -> state) (s : state) Q :
  Q tt (f s) [] -> after (modify f) s Q.
Proof. exact id. Qed.

Lemma after_emit (d : diagnostic) (s : state) Q : Q tt s [d] -> after (emit d) s Q.
Proof. exact id. Qed.

Lemma after_load (w : nat) (a : Z) (s : state) Q :
  in_region s a (Z.of_nat w) = true ->
  Q (load_le (region s) a w) s [] -> after (load w a) s Q.
Proof. unfold after, load. intros ->. exact id. Qed.

Lemma after_store (w : nat) (a v : Z) (s : state) Q :
  in_region s a (Z.of_nat w) = true ->
  Q tt (set_region (store_le (region s) a w v) s) [] -> after (store w a v) s Q.
Proof. unfold after, store. intros ->. exact id. Qed.

Lemma in_region_intro (s : state) (a w : Z) :
  heap s <> NULL -> heap s <= a -> a + w <= heap s + HEAP_SIZE ->
  in_region s a w = true.
Proof.
  intros Hn Hl Hu. unfold in_region.
  apply andb_true_intro; split; [apply andb_true_intro; split|].
  - apply negb_true_iff, Z.eqb_neq, Hn.
  - apply Z.leb_le, Hl.
  - apply Z.leb_le, Hu.
Qed.

Lemma in_region_elim (s : state) (a w : Z) :
  in_region s a w = true ->
  heap s <> NULL /\ heap s <= a /\ a + w <= heap s + HEAP_SIZE.
Proof.
  unfold in_region. intros H.
  apply andb_prop in H as [H Hu]. apply andb_prop in H as [Hn Hl].
  apply negb_true_iff, Z.eqb_neq in Hn. apply Z.leb_le in Hl, Hu. auto.
Qed.

(** ** Rules for results *)

Lemma bind_undefined {A B} (m : M A) (f : A -> M B) (s : state) :
  m s = Undefined -> (m ≫= f) s = Undefined.
Proof. intros H. unfold mbind, M_bind. rewrite H. reflexivity. Qed.

Lemma bind_ok {A B} (m : M A) (f : A -> M B) (s s' : state) (a : A) (e : list diagnostic) :
  m s = Ok a s' e -> f a s' = Undefined -> (m ≫= f) s = Undefined.
Proof. intros H H'. unfold mbind, M_bind. rewrite H, H'. reflexivity. Qed.


Lemma load_outside (w : nat) (a : Z) (s : state) :
  in_region s a (Z.of_nat w) = false -> load w a s = Undefined.
Proof. intros H. unfold load. rewrite H. reflexivity. Qed.



Lemma after_eq {A} (m : M A) (s s' : state) (a : A) (e : list diagnostic)
    (Q : A -> state -> list diagnostic -> Prop) :
  m s = Ok a s' e -> Q a s' e -> after m s Q.
Proof. intros H HQ. unfold after. rewrite H. exact HQ. Qed.

(** ** Stepping through a computation *)

Ltac unfold_fields :=
  unfold get_sentinel_start, get_size, get_free, get_prev, get_next, get_request_size,
    get_alloc_id, get_sentinel_end, put_sentinel_start, put_size, put_free, put_prev,
    put_next, put_request_size, put_address_tag, put_alloc_id, put_sentinel_end,
    load_bool, store_bool, upd_stats, set_head.

Ltac proj :=
  cbn [heap region free_lists used_list initialized next_alloc_id allocation_records stats
       set_heap set_region set_free_lists set_used_list set_initialized set_next_alloc_id
       set_allocation_records set_stats].

Ltac unfold_layout :=
  unfold readable, footer_at, size_at, free_at, next_at, alloc_id_at,
    HEAP_SIZE, sizeof_Block, sizeof_BlockFooter, off_sentinel_start, off_size, off_free,
    off_prev, off_next, off_request_size, off_address_tag, off_alloc_id, off_sentinel_end,
    foff_size, foff_free, foff_sentinel, NULL in *.

Ltac layout_lia := unfold_layout; cbn [Z.of_nat Pos.of_succ_nat Pos.succ]; lia.

Ltac region_facts :=
  repeat match goal with
  | H : in_region _ _ _ = true |- _ => apply in_region_elim in H as (? & ? & ?)
  | H : _ /\ _ |- _ => destruct H
  end.

Ltac region_tac :=
  proj; unfold_layout; region_facts; apply in_region_intro; proj; layout_lia.

Ltac step :=
  cbv beta iota; proj;
  lazymatch goal with
  | |- after (mbind _ _) _ _ => apply after_bind
  | |- after get _ _ => apply after_get
  | |- after (modify _) _ _ => apply after_modify
  | |- after (emit _) _ _ => apply after_emit
  | |- after (mret _) _ _ => apply after_ret
  | |- after (store _ _ _) _ _ => apply after_store; [region_tac|]
  | |- after (load _ _) _ _ => apply after_load; [region_tac|]
  end.

Ltac steps := repeat step; cbv beta iota; proj.

Lemma set_region_same (s : state) : set_region (region s) s = s.
Proof. destruct s; reflexivity. Qed.

(** [set_block_footer] returns on a readable block and writes only the
    sixteen bytes of the footer. *)
Lemma after_set_block_footer (s : state) (b : Z)
    (Q : unit -> state -> list diagnostic -> Prop) :
  readable s b ->
  (forall m',
     (forall a w,
        a + Z.of_nat w <= footer_at s b \/ footer_at s b + sizeof_BlockFooter <= a ->
        load_le m' a w = load_le (region s) a w) ->
     Q tt (set_region m' s) []) ->
  after (set_block_footer b) s Q.
Proof.
  intros Hr HQ. unfold set_block_footer, get_footer. unfold_fields.
  steps.
  fold (size_at s b). fold (footer_at s b).
  destruct (footer_at s b =? NULL).
  { step. rewrite <- (set_region_same s). apply HQ. reflexivity. }
  steps.
  apply HQ. intros a w Hd.
  rewrite !load_le_store_le_other; [reflexivity | | |]; layout_lia.
Qed.

(** [initialize] returns from every uninitialised state whose bucket 7 is
    empty, whatever the host answers. *)
Lemma initialize_returns (h : host) (s : state) :
  initialized s = false -> head_of s 7 = NULL ->
  after (initialize h) s (fun _ s' err =>
    if region_addr h =? NULL
    then s' = set_heap NULL s /\ err = [HeapInitFailed]
    else initialized s' = true /\ heap s' = region_addr h /\
         err = [Initialized (region_addr h)]).
Proof.
  intros Hi Hh. unfold initialize. step. step. rewrite Hi. steps.
  destruct (region_addr h =? NULL) eqn:E.
  { step. apply Z.eqb_eq in E. rewrite E. split; reflexivity. }
  apply Z.eqb_neq in E.
  unfold_fields. steps.
  match goal with |- after _ ?s0 _ => set (s1 := s0) end.
  assert (Hsz : size_at s1 (region_addr h) = 1048496).
  { unfold size_at, s1. proj.
    rewrite !load_le_store_le_other by layout_lia.
    rewrite load_le_store_le_same. reflexivity. }
  assert (Hheap : heap s1 = region_addr h) by reflexivity.
  assert (Hfl : free_lists s1 = free_lists s) by reflexivity.
  clearbody s1.
  apply after_set_block_footer.
  { unfold readable, footer_at. rewrite Hsz.
    split; apply in_region_intro; rewrite ?Hheap; try assumption; layout_lia. }
  intros m' Hm'.
  unfold add_to_free_list. apply Z.eqb_neq in E as E'. rewrite E'.
  unfold_fields. steps.
  assert (Hsz' : load_le (store_le m' (region_addr h + off_free) 1 1)
                         (region_addr h + off_size) 8 = 1048496).
  { rewrite load_le_store_le_other by layout_lia.
    rewrite Hm'; [exact Hsz|]. unfold footer_at. rewrite Hsz. layout_lia. }
  rewrite Hsz'.
  change (get_size_class 1048496) with 7%nat.
  unfold head_of in *. proj. rewrite Hfl, Hh.
  steps.
  change (negb (NULL =? NULL)) with false. cbn [when]. steps.
  change (7 <? 4)%nat with false. steps.
  rewrite Hheap. auto.
Qed.

Lemma after_when_emit (b : bool) (d : diagnostic) (s : state)
    (Q : unit -> state -> list diagnostic -> Prop) :
  (forall err, Q tt s err) -> after (when b (emit d)) s Q.
Proof. intros HQ. destruct b; cbn; apply HQ. Qed.

(** [validate_block] on a readable block only prints. *)
Lemma after_validate_block (s : state) (b : Z) (location : string)
    (Q : unit -> state -> list diagnostic -> Prop) :
  readable s b -> (forall err, Q tt s err) -> after (validate_block b location) s Q.
Proof.
  intros Hr HQ. unfold validate_block.
  destruct (b =? NULL); [step; apply HQ|].
  step. step.
  destruct ((b <? heap s) || (heap s + HEAP_SIZE <=? b)); [step; apply HQ|].
  unfold get_footer. unfold_fields.
  steps. apply after_when_emit; intros e1.
  steps. apply after_when_emit; intros e2.
  steps.
  fold (size_at s b). fold (footer_at s b).
  destruct (footer_at s b =? NULL).
  - steps. apply after_when_emit; intros e3. apply HQ.
  - steps. apply after_when_emit; intros e3.
    steps. apply after_when_emit; intros e4. apply HQ.
Qed.

(** ** Double free *)




(** ** C9: the overflow guard of zero_allocate *)

(** C9.  When [count > 0] and [size > SIZE_MAX / count], zero_allocate
    returns the null pointer from every state, writes nothing on [stderr]
    and leaves the state (region, lists, statistics, leak records) as it
    was. *)
Theorem calloc_overflow_guard (h : host) (s : state) (count size : Z)
    (file : string) (line : Z) :
  0 < count -> SIZE_MAX / count < size ->
  my_calloc_internal h count size file line s = Ok NULL s [].
Proof.
  intros Hc Hs. unfold my_calloc_internal.
  apply Z.ltb_lt in Hc, Hs. rewrite Hc, Hs. reflexivity.
Qed.

Lemma calloc_overflow_guard_witness :
  0 < SIZE_MAX /\ SIZE_MAX / SIZE_MAX < 2 /\
  my_calloc_internal host0 SIZE_MAX 2 "client.c" 1 startup = Ok NULL startup [].
Proof.
  split; [reflexivity|]. split; [reflexivity|].
  apply (calloc_overflow_guard host0 startup SIZE_MAX 2); reflexivity.
Defined.

(** ** C8: free of the null pointer *)

(** C8, as stated, fails at program start: free of the null pointer does
    not return with the startup state. *)
Lemma free_null_not_a_noop_at_startup :
  ~ exists err, my_free host0 NULL startup = Ok tt startup err.
Proof.
  intros [err H].
  assert (E : after (my_free host0 NULL) startup (fun _ s _ => initialized s = false)).
  { unfold after. rewrite H. reflexivity. }
  vm_compute in E. discriminate E.
Qed.

(** C8 (amended).  free of the null pointer does what the lazy
    initialisation does and nothing more: from an initialised state it
    returns with the state as it was and prints nothing, from an
    uninitialised state it is [initialize]. *)
Theorem free_null_is_lazy_initialize (h : host) (s : state) :
  my_free h NULL s = if initialized s then Ok tt s [] else initialize h s.
Proof.
  unfold my_free. unfold mbind at 1. unfold M_bind, get.
  destruct (initialized s) eqn:Hi; cbn [negb when].
  - reflexivity.
  - unfold mbind, M_bind. destruct (initialize h s) as [[] s1 e1| |]; [|reflexivity|reflexivity].
    cbn. rewrite app_nil_r. reflexivity.
Qed.

(** ** C10: zero_allocate with a zero count *)

(** C10.  zero_allocate(0, size) returns the null pointer for every [size]:
    from an initialised state with the state as it was and nothing printed,
    from an uninitialised state (with bucket 7 empty, as at startup and
    after [cleanup]) after the lazy initialisation. *)
Theorem calloc_zero_count (h : host) (s : state) (size : Z) (file : string) (line : Z) :
  (initialized s = false -> head_of s 7 = NULL) ->
  after (my_calloc_internal h 0 size file line) s (fun p s' err =>
    p = NULL /\
    (initialized s = true -> s' = s /\ err = []) /\
    (initialized s = false -> after (initialize h) s (fun _ s1 e1 => s' = s1 /\ err = e1))).
Proof.
  intros Hh. unfold my_calloc_internal.
  change ((0 <? 0) && (SIZE_MAX / 0 <? size)) with false. cbv iota.
  change (wrap64 (0 * size)) with 0.
  unfold my_malloc_internal. step. step.
  destruct (initialized s) eqn:Hi; cbn [negb when].
  - steps. change (0 =? 0) with true. steps.
    split; [reflexivity|]. split; [auto | discriminate].
  - specialize (Hh eq_refl). step.
    pose proof (initialize_returns h s Hi Hh) as Hr.
    apply after_ok in Hr as ([] & s1 & e1 & Heq & _).
    unfold after. rewrite Heq.
    change (0 =? 0) with true. cbv iota. cbn [mret M_ret].
    split; [reflexivity|]. split; [discriminate|].
    intros _. rewrite !app_nil_r. auto.
Qed.

Lemma calloc_zero_count_witness :
  (initialized startup = false -> head_of startup 7 = NULL) /\
  after (my_calloc_internal host0 0 8 "client.c" 1) startup (fun p s' err =>
    p = NULL /\
    (initialized startup = true -> s' = startup /\ err = []) /\
    (initialized startup = false ->
     after (initialize host0) startup (fun _ s1 e1 => s' = s1 /\ err = e1))).
Proof.
  split; [reflexivity|].
  apply (calloc_zero_count host0 startup 8 "client.c" 1). reflexivity.
Defined.

(** ** Bucket chains *)

Lemma chain_det (s : state) (b : Z) (l1 : list Z) :
  chain s b l1 -> forall l2, chain s b l2 -> l1 = l2.
Proof.
  induction 1 as [|b l1 Hb Hr Hc IH]; intros l2 H2; inversion H2; subst;
    try reflexivity; try congruence.
  f_equal. apply IH. assumption.
Qed.

Lemma chain_suffix (s : state) (l1 : list Z) : forall (b x : Z) (l2 : list Z),
  chain s b (l1 ++ x :: l2) -> chain s x (x :: l2).
Proof.
  induction l1 as [|y l1 IH]; intros b x l2 H; cbn in H.
  - inversion H; subst. assumption.
  - inversion H; subst. eapply IH. eassumption.
Qed.

Lemma chain_NoDup (s : state) (b : Z) (l : list Z) : chain s b l -> NoDup l.
Proof.
  induction 1 as [|b l Hb Hr Hc IH]; constructor; [|assumption].
  intros Hin. apply list_elem_of_split in Hin as (l1 & l2 & ->).
  pose proof (chain_suffix s l1 _ b l2 Hc) as Hs.
  inversion Hs; subst.
  match goal with H : chain s (next_at s b) l2 |- _ =>
    pose proof (chain_det s _ _ Hc _ H) as E end.
  apply (f_equal length) in E. rewrite length_app in E. cbn in E. lia.
Qed.

Lemma chain_in_region (s : state) (b : Z) (l : list Z) :
  chain s b l -> forall x, In x l -> x <> NULL /\ readable s x.
Proof.
  induction 1 as [|b l Hb Hr Hc IH]; intros x Hin; [destruct Hin|].
  destruct Hin as [<-|Hin]; auto.
Qed.

(** A chain has fewer blocks than a walk has steps. *)
Lemma chain_length (s : state) (b : Z) (l : list Z) :
  chain s b l -> (length l < walk_fuel)%nat.
Proof.
  intros Hc.
  assert (Hsub : l ⊆+ seqZ (heap s) HEAP_SIZE).
  { apply NoDup_submseteq; [eapply chain_NoDup; eassumption|].
    intros x Hx. apply list_elem_of_In in Hx.
    destruct (chain_in_region s b l Hc x Hx) as [_ [Hr _]].
    apply in_region_elim in Hr as (_ & H1 & H2).
    apply elem_of_seqZ. unfold sizeof_Block in H2. lia. }
  apply submseteq_length in Hsub. rewrite length_seqZ in Hsub.
  unfold walk_fuel. unfold HEAP_SIZE in *. lia.
Qed.

(** ** The scan of one bucket *)

Lemma size_at_range (s : state) (b : Z) : 0 <= size_at s b < 2 ^ 64.
Proof. unfold size_at. apply (load_le_range 8). Qed.

Lemma after_best_fit_walk (s : state) (size : Z) (b : Z) (l : list Z) :
  chain s b l ->
  forall (fuel : nat) (best_fit smallest_diff : Z)
         (Q : Z -> state -> list diagnostic -> Prop),
  (length l < fuel)%nat ->
  (forall err, Q (best_fit_of s size l best_fit smallest_diff) s err) ->
  after (best_fit_walk fuel size b best_fit smallest_diff) s Q.
Proof.
  induction 1 as [|b l Hb Hr Hc IH]; intros fuel best_fit smallest_diff Q Hlen HQ;
    (destruct fuel as [|fuel]; [cbn in Hlen; lia|]); cbn [best_fit_walk].
  - change (NULL =? NULL) with true. step. apply HQ.
  - apply Z.eqb_neq in Hb as Hb'. rewrite Hb'.
    cbn [length] in Hlen. cbn [best_fit_of] in HQ. unfold fits in HQ.
    step. apply after_validate_block; [assumption|intros e1].
    unfold_fields. steps.
    fold (free_at s b).
    destruct (free_at s b); steps.
    + fold (size_at s b).
      destruct (size <=? size_at s b); cbn [andb] in HQ; steps.
      * fold (size_at s b).
        destruct (size_at s b - size =? 0); [step; apply HQ|].
        destruct (size_at s b - size <? smallest_diff); steps;
          fold (next_at s b); (apply IH; [lia | intros err; apply HQ]).
      * fold (next_at s b). apply IH; [lia | intros err; apply HQ].
    + cbn [andb] in HQ. fold (next_at s b). apply IH; [lia | intros err; apply HQ].
Qed.

Lemma best_fit_of_spec (s : state) (size : Z) (l : list Z) :
  forall best_fit smallest_diff,
  let r := best_fit_of s size l best_fit smallest_diff in
  (r = best_fit /\
   forall b, In b l -> fits s size b = true ->
             smallest_diff <= size_at s b - size /\ size_at s b <> size)
  \/
  (In r l /\ fits s size r = true /\
   (size_at s r - size < smallest_diff \/ size_at s r = size) /\
   forall b, In b l -> fits s size b = true -> size_at s r <= size_at s b).
Proof.
  induction l as [|b l IH]; intros best_fit smallest_diff; cbv zeta in *; cbn [best_fit_of].
  - left. split; [reflexivity|]. intros b [].
  - destruct (fits s size b) eqn:Hfit.
    + assert (Hle : size <= size_at s b).
      { unfold fits in Hfit. apply andb_prop in Hfit as [_ H]. apply Z.leb_le, H. }
      destruct (size_at s b - size =? 0) eqn:Hex.
      * apply Z.eqb_eq in Hex. right. cbn [In]. split; [auto|]. split; [assumption|].
        split; [right; lia|]. intros b' [<-|Hin] Hf'; [lia|].
        unfold fits in Hf'. apply andb_prop in Hf' as [_ H]. apply Z.leb_le in H. lia.
      * apply Z.eqb_neq in Hex.
        destruct (size_at s b - size <? smallest_diff) eqn:Hlt.
        -- apply Z.ltb_lt in Hlt.
           destruct (IH b (size_at s b - size)) as [[Hr Hall]|(Hin & Hf & Hd & Hmin)].
           ++ right. cbn [In]. rewrite Hr. split; [auto|]. split; [assumption|].
              split; [left; lia|]. intros b' [<-|Hin'] Hf'; [lia|].
              specialize (Hall b' Hin' Hf'). lia.
           ++ right. cbn [In]. split; [auto|]. split; [assumption|].
              split; [destruct Hd; [left|right]; lia|].
              intros b' [<-|Hin'] Hf'; [|auto].
              destruct Hd as [Hd|Hd]; lia.
        -- apply Z.ltb_ge in Hlt.
           destruct (IH best_fit smallest_diff) as [[Hr Hall]|(Hin & Hf & Hd & Hmin)].
           ++ left. split; [assumption|]. intros b' [<-|Hin'] Hf'; [lia|auto].
           ++ right. cbn [In]. split; [auto|]. split; [assumption|]. split; [assumption|].
              intros b' [<-|Hin'] Hf'; [|auto].
              destruct Hd as [Hd|Hd]; lia.
    + destruct (IH best_fit smallest_diff) as [[Hr Hall]|(Hin & Hf & Hd & Hmin)].
      * left. split; [assumption|]. intros b' [<-|Hin'] Hf'; [congruence|auto].
      * right. cbn [In]. split; [auto|]. split; [assumption|]. split; [assumption|].
        intros b' [<-|Hin'] Hf'; [congruence|auto].
Qed.

Lemma best_fit_of_exact (s : state) (size : Z) (l1 : list Z) :
  forall (b : Z) (l2 : list Z) best_fit smallest_diff,
  fits s size b = true -> size_at s b = size ->
  (forall x, In x l1 -> fits s size x = true -> size_at s x <> size) ->
  best_fit_of s size (l1 ++ b :: l2) best_fit smallest_diff = b.
Proof.
  induction l1 as [|x l1 IH]; intros b l2 best_fit smallest_diff Hfit Hsz Hno; cbn [app best_fit_of].
  - rewrite Hfit, Hsz, Z.sub_diag. reflexivity.
  - assert (Hno' : forall y, In y l1 -> fits s size y = true -> size_at s y <> size)
      by (intros y Hy; apply Hno; right; assumption).
    destruct (fits s size x) eqn:Hfx; [|apply IH; assumption].
    specialize (Hno x (or_introl eq_refl) Hfx).
    destruct (size_at s x - size =? 0) eqn:Hex; [apply Z.eqb_eq in Hex; lia|].
    destruct (size_at s x - size <? smallest_diff); apply IH; assumption.
Qed.

Lemma first_head_seq (s : state) (n : nat) : forall (k : nat),
  let r := first_head s (seq k n) in
  (r = NULL /\ forall c, (k <= c < k + n)%nat -> head_of s c = NULL)
  \/
  (exists c, (k <= c < k + n)%nat /\ r = head_of s c /\ r <> NULL /\
             forall c', (k <= c' < c)%nat -> head_of s c' = NULL).
Proof.
  induction n as [|n IH]; intros k; cbv zeta in *; cbn [seq first_head].
  - left. split; [reflexivity|]. intros c Hc. lia.
  - destruct (head_of s k =? NULL) eqn:E.
    + apply Z.eqb_eq in E.
      destruct (IH (S k)) as [[Hr Hall]|(c & Hc & Hr & Hn & Hall)].
      * left. split; [assumption|]. intros c Hc.
        destruct (decide (c = k)) as [->|]; [assumption|apply Hall; lia].
      * right. exists c. split; [lia|]. split; [assumption|]. split; [assumption|].
        intros c' Hc'. destruct (decide (c' = k)) as [->|]; [assumption|apply Hall; lia].
    + apply Z.eqb_neq in E. right. exists k. split; [lia|]. split; [reflexivity|].
      split; [assumption|]. intros c' Hc'. lia.
Qed.

Lemma chain_set_stats (t : AllocStats) (s : state) (b : Z) (l : list Z) :
  chain s b l -> chain (set_stats t s) b l.
Proof.
  induction 1 as [|b l Hb Hr Hc IH]; constructor; [assumption | exact Hr | exact IH].
Qed.

Lemma best_fit_of_set_stats (t : AllocStats) (s : state) (size : Z) (l : list Z) :
  forall best_fit smallest_diff,
  best_fit_of (set_stats t s) size l best_fit smallest_diff
  = best_fit_of s size l best_fit smallest_diff.
Proof.
  induction l as [|b l IH]; intros best_fit smallest_diff; cbn [best_fit_of]; [reflexivity|].
  change (fits (set_stats t s) size b) with (fits s size b).
  change (size_at (set_stats t s) b) with (size_at s b).
  rewrite !IH. reflexivity.
Qed.

Lemma first_head_set_stats (t : AllocStats) (s : state) (cs : list nat) :
  first_head (set_stats t s) cs = first_head s cs.
Proof.
  induction cs as [|c cs IH]; cbn [first_head]; [reflexivity|].
  change (head_of (set_stats t s) c) with (head_of s c). rewrite IH. reflexivity.
Qed.

Lemma after_find_best_fit_block (s : state) (size : Z) (l : list Z)
    (Q : Z -> state -> list diagnostic -> Prop) :
  chain s (head_of s (get_size_class size)) l ->
  (forall err, Q (placement s size l) s err) ->
  after (find_best_fit_block size) s Q.
Proof.
  intros Hc HQ. unfold find_best_fit_block. step. step. step.
  apply (after_best_fit_walk s size _ l Hc); [eapply chain_length; eassumption|].
  intros e1. unfold placement in HQ. cbv zeta in HQ.
  destruct (negb (best_fit_of s size l NULL SIZE_MAX =? NULL)); step; apply HQ.
Qed.

(** ** The placement search *)

(** X26.  Let the bucket of a request of [size > 0] bytes be a chain, ended
    by the null pointer, of blocks [l] whose headers and footers lie in the
    region.  [find_best_fit_block] returns without changing the state, and
    its result [r] is such that: when some block of the bucket is marked
    free and large enough, [r] is such a block, of least excess over
    [size]; an exact fit is returned as soon as the scan meets it; when no
    block of the bucket fits, [r] is the head of the first higher bucket
    that is not empty, whatever its size, or null when there is none; and
    when [r] is null, allocate returns null and has counted the request, its
    bytes and one failed allocation. *)
Theorem placement_search (s : state) (size : Z) (l : list Z) :
  0 < size ->
  chain s (head_of s (get_size_class size)) l ->
  exists r err,
    find_best_fit_block size s = Ok r s err /\
    (forall b, In b l -> fits s size b = true ->
       In r l /\ fits s size r = true /\
       forall b', In b' l -> fits s size b' = true ->
                  size_at s r - size <= size_at s b' - size) /\
    (forall l1 b l2,
       l = (l1 ++ b :: l2)%list -> fits s size b = true -> size_at s b = size ->
       (forall x, In x l1 -> fits s size x = true -> size_at s x <> size) ->
       r = b) /\
    ((forall b, In b l -> fits s size b = false) ->
       (r = NULL /\
        forall c, (get_size_class size < c < NUM_SIZE_CLASSES)%nat -> head_of s c = NULL)
       \/
       (exists c, (get_size_class size < c < NUM_SIZE_CLASSES)%nat /\
                  r = head_of s c /\ r <> NULL /\
                  forall c', (get_size_class size < c' < c)%nat -> head_of s c' = NULL)) /\
    (r = NULL ->
     forall (h : host) (n : Z) (file : string) (line : Z),
       initialized s = true -> 0 < n -> ALIGN (wrap64 (n + ALIGNMENT * 2)) = size ->
       exists err',
         my_malloc_internal h n file line s
         = Ok NULL
             (set_stats
                (set_failed_allocations (wrap64 (failed_allocations (stats s) + 1))
                   (set_requested_bytes (wrap64 (requested_bytes (stats s) + n))
                      (set_total_allocations (wrap64 (total_allocations (stats s) + 1))
                         (stats s))))
                s)
             err').
Proof.
  intros Hsize Hc.
  assert (Hrun : after (find_best_fit_block size) s
                   (fun r s' _ => s' = s /\ r = placement s size l)).
  { apply (after_find_best_fit_block s size l); [assumption|]. auto. }
  apply after_ok in Hrun as (r & s' & err & Heq & -> & Hr).
  exists r, err. split; [assumption|].
  assert (Hnn : forall x, In x l -> x <> NULL)
    by (intros x Hx; eapply chain_in_region; eassumption).
  assert (Hd : forall b, fits s size b = true -> size_at s b - size < SIZE_MAX).
  { intros b _. pose proof (size_at_range s b). unfold SIZE_MAX. lia. }
  unfold placement in Hr. cbv zeta in Hr.
  destruct (best_fit_of_spec s size l NULL SIZE_MAX) as [[Hb Hall]|(Hin & Hf & _ & Hmin)].
  - (* nothing in the bucket fits *)
    rewrite Hb in Hr. change (negb (NULL =? NULL)) with false in Hr. cbv iota in Hr.
    assert (Hnone : forall b, In b l -> fits s size b = false).
    { intros b Hin. destruct (fits s size b) eqn:Hf; [|reflexivity].
      destruct (Hall b Hin Hf) as [H1 _]. specialize (Hd b Hf). lia. }
    split; [intros b Hin Hf; rewrite (Hnone b Hin) in Hf; discriminate|].
    split.
    { intros l1 b l2 -> Hf _ _. rewrite Hnone in Hf; [discriminate|].
      apply in_or_app. right. left. reflexivity. }
    split.
    { intros _. subst r. unfold higher_classes.
      destruct (first_head_seq s (NUM_SIZE_CLASSES - S (get_size_class size))
                  (S (get_size_class size))) as [[H0 Hall']|(c & Hcr & Hrc & Hn & Hall')].
      - left. split; [assumption|]. intros c Hcr. apply Hall'. lia.
      - right. exists c. split; [lia|]. split; [assumption|]. split; [assumption|].
        intros c' Hc'. apply Hall'. lia. }
    intros Hnull h n file line Hi Hn Hal.
    cut (after (my_malloc_internal h n file line) s (fun p s' _ =>
           p = NULL /\
           s' = set_stats
                  (set_failed_allocations (wrap64 (failed_allocations (stats s) + 1))
                     (set_requested_bytes (wrap64 (requested_bytes (stats s) + n))
                        (set_total_allocations (wrap64 (total_allocations (stats s) + 1))
                           (stats s))))
                  s)).
    { intros H. apply after_ok in H as (p & s' & e & Heq' & -> & ->). eauto. }
    unfold my_malloc_internal. step. step. rewrite Hi. cbn [negb when]. step. step.
    assert (Hn0 : (n =? 0) = false) by (apply Z.eqb_neq; lia). rewrite Hn0.
    unfold upd_stats, check_heap_integrity.
    apply after_bind, after_modify. apply after_bind, after_modify.
    apply after_bind, after_ret. cbv beta. rewrite Hal.
    apply after_bind.
    apply (after_find_best_fit_block _ size l).
    { apply chain_set_stats, chain_set_stats. exact Hc. }
    intros e1. unfold placement. cbv zeta.
    rewrite !best_fit_of_set_stats, !first_head_set_stats, Hb.
    change (negb (NULL =? NULL)) with false. cbv iota.
    rewrite <- Hr, Hnull. change (NULL =? NULL) with true. cbv iota.
    step. step. step. split; reflexivity.
  - (* the bucket holds a fit *)
    assert (Hrn : (best_fit_of s size l NULL SIZE_MAX =? NULL) = false)
      by (apply Z.eqb_neq, Hnn, Hin).
    rewrite Hrn in Hr. cbn [negb] in Hr. subst r.
    split; [intros b Hb Hfb; split; [assumption|]; split; [assumption|];
            intros b' Hb' Hfb'; specialize (Hmin b' Hb' Hfb'); lia|].
    split.
    { intros l1 b l2 -> Hfb Hsz Hno. apply best_fit_of_exact; assumption. }
    split.
    { intros Hnone. rewrite (Hnone _ Hin) in Hf. discriminate. }
    intros Hnull. apply Hnn in Hin. contradiction.
Qed.

Lemma two_free_chain :
  chain two_free (head_of two_free (get_size_class 144)) [65536; 65984].
Proof.
  replace (head_of two_free (get_size_class 144)) with 65536 by (vm_compute; reflexivity).
  apply chain_step; [discriminate | split; vm_compute; reflexivity |].
  replace (next_at two_free 65536) with 65984 by (vm_compute; reflexivity).
  apply chain_step; [discriminate | split; vm_compute; reflexivity |].
  replace (next_at two_free 65984) with NULL by (vm_compute; reflexivity).
  apply chain_end.
Defined.

Lemma placement_search_witness :
  (0 < 144 /\
   chain two_free (head_of two_free (get_size_class 144)) [65536; 65984] /\
   exists r err, find_best_fit_block 144 two_free = Ok r two_free err /\ r = 65984) /\
  (chain coalesced (head_of coalesced (get_size_class 144)) [] /\
   exists err,
     my_malloc_internal host0 100 "client.c" 2 coalesced
     = Ok NULL
         (set_stats
            (set_failed_allocations (wrap64 (failed_allocations (stats coalesced) + 1))
               (set_requested_bytes (wrap64 (requested_bytes (stats coalesced) + 100))
                  (set_total_allocations (wrap64 (total_allocations (stats coalesced) + 1))
                     (stats coalesced))))
            coalesced)
         err).
Proof.
  split.
  - split; [reflexivity|]. split; [exact two_free_chain|].
    destruct (placement_search two_free 144 [65536; 65984] eq_refl two_free_chain)
      as (r & err & Heq & _ & Hexact & _).
    exists r, err. split; [exact Heq|].
    apply (Hexact [65536] 65984 []).
    + reflexivity.
    + vm_compute; reflexivity.
    + vm_compute; reflexivity.
    + intros x [<-|[]] _. vm_compute. discriminate.
  - assert (Hc : chain coalesced (head_of coalesced (get_size_class 144)) []).
    { replace (head_of coalesced (get_size_class 144)) with NULL by (vm_compute; reflexivity).
      apply chain_end. }
    split; [exact Hc|].
    destruct (placement_search coalesced 144 [] eq_refl Hc)
      as (r & err & Heq & _ & _ & _ & Hfail).
    assert (Hr : r = NULL).
    { apply (f_equal (fun o => match o with Ok a _ _ => a | _ => NULL end)) in Heq.
      vm_compute in Heq. symmetry. exact Heq. }
    apply (Hfail Hr host0 100 "client.c" 2); vm_compute; reflexivity.
Defined.

(** * Beyond the claims *)

(** ** Alignment and size classes *)

Lemma land_lnot_15 (x : Z) : 0 <= x -> Z.land x (Z.lnot (ALIGNMENT - 1)) = x / 16 * 16.
Proof.
  intros Hx. change (ALIGNMENT - 1) with (Z.ones 4).
  change (Z.land x (Z.lnot (Z.ones 4))) with (Z.ldiff x (Z.ones 4)).
  rewrite Z.ldiff_ones_r by lia.
  rewrite Z.shiftr_div_pow2, Z.shiftl_mul_pow2 by lia. reflexivity.
Qed.

Lemma ALIGN_small (x : Z) : 0 <= x <= 2 ^ 64 - 16 -> ALIGN x = (x + 15) / 16 * 16.
Proof.
  intros Hx. unfold ALIGN, wrap64. change (ALIGNMENT - 1) with 15 at 1.
  rewrite Z.mod_small by lia. apply land_lnot_15. lia.
Qed.

Lemma ALIGN_small_bounds (x : Z) :
  0 <= x <= 2 ^ 64 - 16 -> x <= ALIGN x < x + 16 /\ ALIGN x mod 16 = 0.
Proof.
  intros Hx. rewrite ALIGN_small by lia.
  pose proof (Z.div_mod (x + 15) 16 ltac:(lia)) as Hd.
  pose proof (Z.mod_pos_bound (x + 15) 16 ltac:(lia)) as Hm.
  split; [lia|]. apply Z.mod_mul. lia.
Qed.

Lemma ALIGN_large (x : Z) : 2 ^ 64 - 16 < x <= 2 ^ 64 - 1 -> ALIGN x = 0.
Proof.
  intros H. unfold ALIGN, wrap64. change (ALIGNMENT - 1) with 15 at 1.
  replace (x + 15) with ((x + 15 - 2 ^ 64) + 1 * 2 ^ 64) by lia.
  rewrite Z.mod_add by lia. rewrite Z.mod_small by lia.
  rewrite land_lnot_15 by lia. rewrite Z.div_small by lia. reflexivity.
Qed.

(** X1.  For a size of at most [SIZE_MAX - 15], [ALIGN] gives the least
    multiple of 16 that is not below it, and aligning twice changes nothing;
    for the fifteen sizes above, the sum wraps and [ALIGN] gives 0. *)
Theorem ALIGN_rounds_up (size : Z) :
  0 <= size <= SIZE_MAX ->
  (size <= SIZE_MAX - 15 ->
     size <= ALIGN size < size + ALIGNMENT /\ ALIGN size mod ALIGNMENT = 0 /\
     ALIGN (ALIGN size) = ALIGN size) /\
  (SIZE_MAX - 15 < size -> ALIGN size = 0).
Proof.
  unfold SIZE_MAX. intros H. split.
  - intros Hs. destruct (ALIGN_small_bounds size) as [H1 H2]; [lia|].
    unfold ALIGNMENT. split; [lia|]. split; [exact H2|].
    pose proof (Z.div_mod (ALIGN size) 16 ltac:(lia)) as Hd. rewrite H2 in Hd.
    rewrite (ALIGN_small (ALIGN size)) by lia.
    replace (ALIGN size + 15) with (15 + ALIGN size / 16 * 16) by lia.
    rewrite Z.div_add by lia. change (15 / 16) with 0. lia.
  - intros Hs. apply ALIGN_large. lia.
Qed.

Lemma ALIGN_rounds_up_witness :
  0 <= 100 <= SIZE_MAX /\
  (100 <= SIZE_MAX - 15 ->
     100 <= ALIGN 100 < 100 + ALIGNMENT /\ ALIGN 100 mod ALIGNMENT = 0 /\
     ALIGN (ALIGN 100) = ALIGN 100) /\
  (SIZE_MAX - 15 < 100 -> ALIGN 100 = 0).
Proof.
  assert (H : 0 <= 100 <= SIZE_MAX) by (unfold SIZE_MAX; lia).
  split; [exact H|]. exact (ALIGN_rounds_up 100 H).
Defined.

(** X2.  The block size [my_malloc_internal] and [my_realloc_internal] ask
    for: with [n <= SIZE_MAX - 47] it is a multiple of 16 that holds the [n]
    bytes and both guard bands with less than 16 bytes to spare; a larger
    [n] wraps, and the request is taken for one of at most 32 bytes. *)
Theorem aligned_request_size (n : Z) :
  0 < n <= SIZE_MAX ->
  (n <= SIZE_MAX - 47 ->
     n + 2 * ALIGNMENT <= ALIGN (wrap64 (n + ALIGNMENT * 2)) < n + 3 * ALIGNMENT /\
     ALIGN (wrap64 (n + ALIGNMENT * 2)) mod ALIGNMENT = 0) /\
  (SIZE_MAX - 47 < n -> ALIGN (wrap64 (n + ALIGNMENT * 2)) <= 2 * ALIGNMENT).
Proof.
  unfold SIZE_MAX. intros Hn. split.
  - intros Hs. unfold wrap64. change (ALIGNMENT * 2) with 32.
    rewrite Z.mod_small by lia.
    destruct (ALIGN_small_bounds (n + 32)) as (H1 & H2); [lia|].
    unfold ALIGNMENT. split; [lia|exact H2].
  - intros Hb. unfold wrap64. change (ALIGNMENT * 2) with 32.
    destruct (Z_lt_le_dec (n + 32) (2 ^ 64)) as [Hlt|Hge].
    + rewrite Z.mod_small by lia. rewrite ALIGN_large; [unfold ALIGNMENT; lia|lia].
    + replace (n + 32) with ((n + 32 - 2 ^ 64) + 1 * 2 ^ 64) by lia.
      rewrite Z.mod_add by lia. rewrite Z.mod_small by lia.
      destruct (ALIGN_small_bounds (n + 32 - 2 ^ 64)) as (H1 & H2); [lia|].
      unfold ALIGNMENT.
      pose proof (Z.div_mod (ALIGN (n + 32 - 2 ^ 64)) 16 ltac:(lia)). lia.
Qed.

Lemma aligned_request_size_witness :
  0 < 100 <= SIZE_MAX /\
  (100 <= SIZE_MAX - 47 ->
     100 + 2 * ALIGNMENT <= ALIGN (wrap64 (100 + ALIGNMENT * 2)) < 100 + 3 * ALIGNMENT /\
     ALIGN (wrap64 (100 + ALIGNMENT * 2)) mod ALIGNMENT = 0) /\
  (SIZE_MAX - 47 < 100 -> ALIGN (wrap64 (100 + ALIGNMENT * 2)) <= 2 * ALIGNMENT).
Proof.
  assert (H : 0 < 100 <= SIZE_MAX) by (unfold SIZE_MAX; lia).
  split; [exact H|]. exact (aligned_request_size 100 H).
Defined.

(** X3.  [get_size_class] is below [NUM_SIZE_CLASSES], puts a size in class
    [i < 7] or below exactly when the size is at most [32 * 2 ^ i], and grows
    with the size. *)
Theorem get_size_class_bounds (size : Z) :
  (get_size_class size < NUM_SIZE_CLASSES)%nat /\
  (forall i : nat, (i < 7)%nat ->
     ((get_size_class size <= i)%nat <-> size <= SIZE_CLASS_1 * 2 ^ Z.of_nat i)) /\
  (forall size', size <= size' -> (get_size_class size <= get_size_class size')%nat).
Proof.
  assert (B : forall x (i : nat), (i < 7)%nat ->
            ((get_size_class x <= i)%nat <-> x <= SIZE_CLASS_1 * 2 ^ Z.of_nat i)).
  { intros x i Hi. unfold get_size_class, SIZE_CLASS_1, SIZE_CLASS_2, SIZE_CLASS_3,
      SIZE_CLASS_4, SIZE_CLASS_5, SIZE_CLASS_6, SIZE_CLASS_7.
    do 7 (destruct i as [|i]; [cbn [Z.of_nat Pos.of_succ_nat Pos.succ];
      repeat (match goal with |- context [?a <=? ?b] =>
                destruct (Z.leb_spec a b) end); split; intros; lia|]).
    lia. }
  split; [|split].
  - unfold get_size_class, NUM_SIZE_CLASSES.
    repeat (match goal with |- context [?a <=? ?b] => destruct (Z.leb_spec a b) end); lia.
  - apply B.
  - intros size' Hle.
    unfold get_size_class, SIZE_CLASS_1, SIZE_CLASS_2, SIZE_CLASS_3,
      SIZE_CLASS_4, SIZE_CLASS_5, SIZE_CLASS_6, SIZE_CLASS_7.
    repeat (match goal with |- context [?a <=? ?b] => destruct (Z.leb_spec a b) end); lia.
Qed.

(** ** Leak records *)

(** X4.  The unlinking [my_free] does on the leak records: a pointer that no
    record holds leaves the list as it is; otherwise the first record that
    holds it goes, and the others stay in their order (also later records
    with the same pointer). *)
Theorem remove_record_first_match (p : Z) (l : list AllocationRecord) :
  ((forall r, In r l -> rec_ptr r <> p) -> remove_record p l = l) /\
  (forall l1 r l2,
     l = (l1 ++ r :: l2)%list -> rec_ptr r = p ->
     (forall r', In r' l1 -> rec_ptr r' <> p) ->
     remove_record p l = (l1 ++ l2)%list).
Proof.
  split.
  - induction l as [|r l IH]; intros Hno; cbn [remove_record]; [reflexivity|].
    destruct (rec_ptr r =? p) eqn:E.
    + apply Z.eqb_eq in E. exfalso. apply (Hno r); [left; reflexivity|assumption].
    + f_equal. apply IH. intros r' Hr'. apply Hno. right. assumption.
  - intros l1. revert l. induction l1 as [|x l1 IH]; intros l r l2 -> Hp Hno; cbn.
    + apply Z.eqb_eq in Hp. rewrite Hp. reflexivity.
    + destruct (rec_ptr x =? p) eqn:E.
      * apply Z.eqb_eq in E. exfalso. apply (Hno x); [left; reflexivity|assumption].
      * f_equal. apply (IH _ r l2); [reflexivity|assumption|].
        intros r' Hr'. apply Hno. right. assumption.
Qed.

(** ** my_malloc_size and the entry of my_realloc_internal *)

Lemma my_malloc_size_run (s : state) (ptr : Z) :
  ((ptr = NULL \/ initialized s = false) -> my_malloc_size ptr s = Ok 0 s []) /\
  (ptr <> NULL -> initialized s = true -> in_region s (header_of ptr) sizeof_Block = true ->
   my_malloc_size ptr s
   = Ok (if intact s (header_of ptr) && negb (free_at s (header_of ptr))
         then request_size_at s (header_of ptr) else 0) s [] /\
   0 <= request_size_at s (header_of ptr) < 2 ^ 32).
Proof.
  split.
  - intros H. unfold my_malloc_size. unfold mbind at 1. unfold M_bind, get.
    destruct H as [->|Hi].
    + reflexivity.
    + rewrite Hi. rewrite orb_true_r. reflexivity.
  - intros Hp Hi Hr. split; [|apply (load_le_range 4)].
    cut (after (my_malloc_size ptr) s (fun r s' e =>
           r = (if intact s (header_of ptr) && negb (free_at s (header_of ptr))
                then request_size_at s (header_of ptr) else 0) /\ s' = s /\ e = [])).
    { intros H. apply after_ok in H as (r & s' & e & Heq & -> & -> & ->). exact Heq. }
    unfold my_malloc_size. step. step. rewrite Hi.
    apply Z.eqb_neq in Hp. rewrite Hp. cbn [negb orb].
    fold (header_of ptr). unfold_fields. unfold intact. steps.
    fold (sentinel_start_at s (header_of ptr)).
    destruct (sentinel_start_at s (header_of ptr) =? SENTINEL_VALUE); cbn [negb andb];
      [|step; auto].
    steps. fold (sentinel_end_at s (header_of ptr)).
    destruct (sentinel_end_at s (header_of ptr) =? SENTINEL_VALUE); cbn [negb andb];
      [|step; auto].
    steps. fold (free_at s (header_of ptr)).
    destruct (free_at s (header_of ptr)); cbn [negb]; steps; auto.
Qed.

(** X5.  [my_malloc_size] never changes the state and prints nothing.  It
    answers 0 for the null pointer and before initialisation, without
    reading the region; for a pointer whose header lies in the region it
    answers the stored [request_size], a number below [2 ^ 32], when both
    sentinels are intact and the block is in use, and 0 otherwise. *)
Theorem my_malloc_size_spec (s : state) (ptr : Z) :
  ((ptr = NULL \/ initialized s = false) -> my_malloc_size ptr s = Ok 0 s []) /\
  (ptr <> NULL -> initialized s = true -> in_region s (header_of ptr) sizeof_Block = true ->
   my_malloc_size ptr s
   = Ok (if intact s (header_of ptr) && negb (free_at s (header_of ptr))
         then request_size_at s (header_of ptr) else 0) s [] /\
   0 <= request_size_at s (header_of ptr) < 2 ^ 32).
Proof. exact (my_malloc_size_run s ptr). Qed.

(** X6.  [my_realloc_internal] with a pointer and a size that are not null
    returns null, with the state as it was and nothing printed, when the
    allocator is not initialised (no lazy initialisation on this path) or
    when the header of the pointer has a broken sentinel or is marked
    free. *)
Theorem realloc_rejects_dead_pointer (h : host) (s : state) (ptr size : Z)
    (file : string) (line : Z) :
  ptr <> NULL -> size <> 0 ->
  (initialized s = false \/
   (in_region s (header_of ptr) sizeof_Block = true /\
    (intact s (header_of ptr) = false \/ free_at s (header_of ptr) = true))) ->
  my_realloc_internal h ptr size file line s = Ok NULL s [].
Proof.
  intros Hp Hs Hdead.
  assert (Hz : my_malloc_size ptr s = Ok 0 s []).
  { destruct (my_malloc_size_run s ptr) as [H0 H1].
    destruct Hdead as [Hi|[Hr Hd]]; [apply H0; auto|].
    destruct (initialized s) eqn:Hi; [|apply H0; auto].
    destruct (H1 Hp eq_refl Hr) as [-> _]. f_equal.
    destruct Hd as [-> | ->]; [reflexivity|]. rewrite andb_false_r. reflexivity. }
  unfold my_realloc_internal.
  apply Z.eqb_neq in Hp, Hs. rewrite Hp, Hs.
  unfold mbind, M_bind. rewrite Hz. reflexivity.
Qed.

Lemma realloc_rejects_dead_pointer_witness :
  65616 <> NULL /\ 10 <> 0 /\
  (initialized coalesced = false \/
   (in_region coalesced (header_of 65616) sizeof_Block = true /\
    (intact coalesced (header_of 65616) = false \/
     free_at coalesced (header_of 65616) = true))) /\
  my_realloc_internal host0 65616 10 "client.c" 3 coalesced = Ok NULL coalesced [].
Proof.
  assert (Hp : 65616 <> NULL) by discriminate.
  assert (Hs : 10 <> 0) by discriminate.
  assert (Hd : initialized coalesced = false \/
               (in_region coalesced (header_of 65616) sizeof_Block = true /\
                (intact coalesced (header_of 65616) = false \/
                 free_at coalesced (header_of 65616) = true))).
  { right. split; [vm_compute; reflexivity|]. right. vm_compute. reflexivity. }
  split; [exact Hp|]. split; [exact Hs|]. split; [exact Hd|].
  exact (realloc_rejects_dead_pointer host0 coalesced 65616 10 "client.c" 3 Hp Hs Hd).
Defined.

(** ** Filling and guard bands *)

Lemma load_le_1 (m : gmap Z Z) (a : Z) : load_le m a 1 = byte_at m a.
Proof. cbn [load_le]. lia. Qed.

Lemma byte_at_store_le_1 (m : gmap Z Z) (a v x : Z) :
  byte_at (store_le m a 1 v) x = if decide (a = x) then v mod 256 else byte_at m x.
Proof.
  cbn [store_le]. rewrite byte_at_insert.
  destruct (decide (a = x)); [apply Z.mod_mod; lia|reflexivity].
Qed.

Lemma byte_at_fill_mem (n : nat) : forall (m : gmap Z Z) (a v x : Z),
  byte_at (fill_mem m a n v) x
  = if decide (a <= x < a + Z.of_nat n) then v mod 256 else byte_at m x.
Proof.
  induction n as [|n IH]; intros m a v x; cbn [fill_mem].
  - destruct (decide (a <= x < a + Z.of_nat 0)); [lia|reflexivity].
  - rewrite IH, byte_at_store_le_1.
    destruct (decide (a + 1 <= x < a + 1 + Z.of_nat n)),
      (decide (a <= x < a + Z.of_nat (S n))), (decide (a = x)); try reflexivity; lia.
Qed.

Lemma load_le_ext (w : nat) : forall (m m' : gmap Z Z) (a : Z),
  (forall x, a <= x < a + Z.of_nat w -> byte_at m' x = byte_at m x) ->
  load_le m' a w = load_le m a w.
Proof.
  induction w as [|w IH]; intros m m' a H; [reflexivity|].
  cbn [load_le]. rewrite H by lia. rewrite (IH m m' (a + 1)); [reflexivity|].
  intros x Hx. apply H. lia.
Qed.

Lemma load_le_fill_mem_other (m : gmap Z Z) (a : Z) (n : nat) (v a' : Z) (w : nat) :
  a' + Z.of_nat w <= a \/ a + Z.of_nat n <= a' ->
  load_le (fill_mem m a n v) a' w = load_le m a' w.
Proof.
  intros Hd. apply load_le_ext. intros x Hx. rewrite byte_at_fill_mem.
  destruct (decide (a <= x < a + Z.of_nat n)); [lia|reflexivity].
Qed.

Lemma after_fill (n : nat) : forall (a v : Z) (s : state)
    (Q : unit -> state -> list diagnostic -> Prop),
  in_region s a (Z.of_nat n) = true ->
  Q tt (set_region (fill_mem (region s) a n v) s) [] ->
  after (fill a n v) s Q.
Proof.
  induction n as [|n IH]; intros a v s Q Hr HQ; cbn [fill fill_mem] in *.
  - rewrite set_region_same in HQ. exact HQ.
  - apply in_region_elim in Hr as (H0 & H1 & H2).
    apply after_bind, after_store; [apply in_region_intro; [assumption|lia|lia]|].
    apply IH; [apply in_region_intro; proj; [assumption|lia|lia]|].
    proj. exact HQ.
Qed.

Lemma after_all_bytes (n : nat) : forall (a v : Z) (s : state)
    (Q : bool -> state -> list diagnostic -> Prop),
  in_region s a (Z.of_nat n) = true ->
  Q (forallb (fun x => x =? v) (bytes_at s a n)) s [] ->
  after (all_bytes a n v) s Q.
Proof.
  induction n as [|n IH]; intros a v s Q Hr HQ; cbn [all_bytes].
  - exact HQ.
  - apply in_region_elim in Hr as (H0 & H1 & H2).
    apply after_bind, after_load; [apply in_region_intro; [assumption|lia|lia]|].
    rewrite load_le_1.
    unfold bytes_at in HQ. cbn [seq map forallb] in HQ.
    replace (a + Z.of_nat 0) with a in HQ by lia.
    destruct (byte_at (region s) a =? v); cbn [andb] in HQ; [|exact HQ].
    apply IH; [apply in_region_intro; [assumption|lia|lia]|].
    unfold bytes_at. rewrite <- seq_shift, map_map in HQ.
    erewrite map_ext; [exact HQ|]. intros i. cbn beta. f_equal. lia.
Qed.

Lemma bytes_at_eq (s s' : state) (a : Z) (n : nat) :
  (forall x, a <= x < a + Z.of_nat n -> byte_at (region s') x = byte_at (region s) x) ->
  bytes_at s' a n = bytes_at s a n.
Proof.
  intros H. unfold bytes_at. apply map_ext_in. intros i Hi. apply in_seq in Hi.
  apply H. lia.
Qed.

Lemma forallb_bytes_at (s : state) (a : Z) (n : nat) (P : Z -> bool) :
  forallb P (bytes_at s a n) = true <->
  forall x, a <= x < a + Z.of_nat n -> P (byte_at (region s) x) = true.
Proof.
  unfold bytes_at. rewrite forallb_forall. split.
  - intros H x Hx. apply H. apply in_map_iff. exists (Z.to_nat (x - a)).
    split; [f_equal; lia|]. apply in_seq. lia.
  - intros H y Hy. apply in_map_iff in Hy as (i & <- & Hi). apply in_seq in Hi.
    apply H. lia.
Qed.

Lemma check_guard_bytes_run (s : state) (ptr size : Z) :
  in_region s (ptr - ALIGNMENT) ALIGNMENT = true ->
  in_region s (ptr + size) ALIGNMENT = true ->
  check_guard_bytes ptr size s = Ok (guards_ok s ptr size) s [].
Proof.
  intros H1 H2.
  cut (after (check_guard_bytes ptr size) s (fun r s' e =>
         r = guards_ok s ptr size /\ s' = s /\ e = [])).
  { intros H. apply after_ok in H as (r & s' & e & Heq & -> & -> & ->). exact Heq. }
  unfold check_guard_bytes, guards_ok. apply after_bind.
  apply after_all_bytes; [exact H1|].
  destruct (forallb _ (bytes_at s (ptr - ALIGNMENT) _)); cbn [andb].
  - apply after_all_bytes; [exact H2|]. auto.
  - apply after_ret. auto.
Qed.

(** X7.  What [add_guard_bytes] writes, [check_guard_bytes] accepts: after
    the bands around [ptr, ptr + size) are stamped, the check returns true;
    the stamping changes no byte outside the two bands. *)
Theorem guard_bytes_round_trip (s : state) (ptr size : Z) :
  in_region s (ptr - ALIGNMENT) ALIGNMENT = true ->
  in_region s (ptr + size) ALIGNMENT = true ->
  after (add_guard_bytes ptr size) s (fun _ s' err =>
    err = [] /\
    check_guard_bytes ptr size s' = Ok true s' [] /\
    forall x, ~ (ptr - ALIGNMENT <= x < ptr) -> ~ (ptr + size <= x < ptr + size + ALIGNMENT) ->
              byte_at (region s') x = byte_at (region s) x).
Proof.
  intros H1 H2. unfold add_guard_bytes.
  apply after_bind, after_fill; [exact H1|].
  apply after_fill; [exact H2|]. proj.
  split; [reflexivity|].
  match goal with |- check_guard_bytes _ _ ?s1 = _ /\ _ => set (s' := s1) end.
  assert (Hb : forall x, byte_at (region s') x =
             if decide (ptr + size <= x < ptr + size + 16) then GUARD_VALUE
             else if decide (ptr - 16 <= x < ptr - 16 + 16) then GUARD_VALUE
             else byte_at (region s) x).
  { intros x. unfold s'. proj. rewrite !byte_at_fill_mem. reflexivity. }
  split.
  - rewrite check_guard_bytes_run; [|exact H1|exact H2].
    f_equal. unfold guards_ok. apply andb_true_intro. split;
      apply forallb_bytes_at; intros x Hx; rewrite Hb; unfold ALIGNMENT in *;
      change (Z.of_nat (Z.to_nat 16)) with 16 in Hx;
      repeat destruct (decide _); try reflexivity; lia.
  - intros x Hx1 Hx2. rewrite Hb. unfold ALIGNMENT in *.
    repeat destruct (decide _); try reflexivity; lia.
Qed.

Lemma guard_bytes_round_trip_witness :
  in_region coalesced (65616 - ALIGNMENT) ALIGNMENT = true /\
  in_region coalesced (65616 + 10) ALIGNMENT = true /\
  after (add_guard_bytes 65616 10) coalesced (fun _ s' err =>
    err = [] /\
    check_guard_bytes 65616 10 s' = Ok true s' [] /\
    forall x, ~ (65616 - ALIGNMENT <= x < 65616) ->
              ~ (65616 + 10 <= x < 65616 + 10 + ALIGNMENT) ->
              byte_at (region s') x = byte_at (region coalesced) x).
Proof.
  assert (H1 : in_region coalesced (65616 - ALIGNMENT) ALIGNMENT = true)
    by (vm_compute; reflexivity).
  assert (H2 : in_region coalesced (65616 + 10) ALIGNMENT = true)
    by (vm_compute; reflexivity).
  split; [exact H1|]. split; [exact H2|].
  exact (guard_bytes_round_trip coalesced 65616 10 H1 H2).
Defined.

(** X8.  [check_guard_bytes] returns true exactly when each of the 32 bytes
    of the two bands is [GUARD_VALUE]; it returns in either case with the
    state as it was. *)
Theorem check_guard_bytes_detects (s : state) (ptr size : Z) :
  in_region s (ptr - ALIGNMENT) ALIGNMENT = true ->
  in_region s (ptr + size) ALIGNMENT = true ->
  exists r, check_guard_bytes ptr size s = Ok r s [] /\
    (r = true <->
     forall x, ptr - ALIGNMENT <= x < ptr \/ ptr + size <= x < ptr + size + ALIGNMENT ->
               byte_at (region s) x = GUARD_VALUE).
Proof.
  intros H1 H2. exists (guards_ok s ptr size).
  split; [apply check_guard_bytes_run; assumption|].
  unfold guards_ok. rewrite andb_true_iff, !forallb_bytes_at.
  unfold ALIGNMENT. change (Z.of_nat (Z.to_nat 16)) with 16. split.
  - intros [Ha Hb] x [Hx|Hx]; [apply Z.eqb_eq, Ha | apply Z.eqb_eq, Hb]; lia.
  - intros H. split; intros x Hx; apply Z.eqb_eq, H; lia.
Qed.

Lemma check_guard_bytes_detects_witness :
  in_region coalesced (65616 - ALIGNMENT) ALIGNMENT = true /\
  in_region coalesced (65616 + 1) ALIGNMENT = true /\
  exists r, check_guard_bytes 65616 1 coalesced = Ok r coalesced [] /\
    (r = true <->
     forall x, 65616 - ALIGNMENT <= x < 65616 \/ 65616 + 1 <= x < 65616 + 1 + ALIGNMENT ->
               byte_at (region coalesced) x = GUARD_VALUE).
Proof.
  assert (H1 : in_region coalesced (65616 - ALIGNMENT) ALIGNMENT = true)
    by (vm_compute; reflexivity).
  assert (H2 : in_region coalesced (65616 + 1) ALIGNMENT = true)
    by (vm_compute; reflexivity).
  split; [exact H1|]. split; [exact H2|].
  exact (check_guard_bytes_detects coalesced 65616 1 H1 H2).
Defined.

(** ** Resolving loads, and what initialize leaves *)

Ltac mem_other := rewrite !load_le_store_le_other by layout_lia.

Lemma load_le_store_le_eq (n : nat) (m : gmap Z Z) (a v : Z) :
  0 <= v < 256 ^ Z.of_nat n -> load_le (store_le m a n v) a n = v.
Proof. intros H. rewrite load_le_store_le_same. apply Z.mod_small, H. Qed.

Ltac has_var v := match v with context [?x] => is_var x end.

Ltac range_tac :=
  lazymatch goal with
  | |- 0 <= ?v < _ =>
      tryif has_var v
      then (change (256 ^ Z.of_nat 8) with 18446744073709551616;
            change (256 ^ Z.of_nat 4) with 4294967296;
            change (256 ^ Z.of_nat 1) with 256;
            unfold SIZE_MAX, wrap64, wrap32 in *; layout_lia)
      else solve [vm_compute; split; [discriminate | reflexivity]]
  end.

Ltac mem_step :=
  match goal with
  | |- context [load_le (store_le ?m ?a ?n ?v) ?a' ?n'] =>
      first [ rewrite (load_le_store_le_other n' m a' a n v) by layout_lia
            | rewrite (load_le_store_le_eq n m a v) by range_tac
            | replace a' with a by layout_lia;
              rewrite (load_le_store_le_eq n m a v) by range_tac ]
  end.

Ltac mem := repeat mem_step.

Lemma after_set_block_footer_exact (s : state) (b : Z)
    (Q : unit -> state -> list diagnostic -> Prop) :
  readable s b -> footer_at s b <> NULL ->
  Q tt (set_region
          (store_le
             (store_le
                (store_le (region s) (footer_at s b + foff_size) 8 (size_at s b))
                (footer_at s b + foff_free) 1 (if free_at s b then 1 else 0))
             (footer_at s b + foff_sentinel) 4 FOOTER_SENTINEL) s) [] ->
  after (set_block_footer b) s Q.
Proof.
  intros Hr Hn HQ. pose proof (size_at_range s b) as Hrange.
  unfold set_block_footer, get_footer. unfold_fields.
  steps.
  fold (size_at s b). fold (footer_at s b).
  apply Z.eqb_neq in Hn. rewrite Hn.
  steps.
  rewrite !load_le_store_le_other by layout_lia.
  fold (size_at s b). fold (free_at s b). exact HQ.
Qed.

Lemma initialize_run (h : host) (s : state) :
  initialized s = false -> 0 < region_addr h ->
  free_lists s = replicate NUM_SIZE_CLASSES NULL -> used_list s = NULL ->
  after (initialize h) s (fun _ s' err =>
    err = [Initialized (region_addr h)] /\
    fresh_heap s' /\ heap s' = region_addr h /\
    next_alloc_id s' = next_alloc_id s /\
    allocation_records s' = allocation_records s /\
    stats s' =
      set_smallest_free_block (HEAP_SIZE - sizeof_Block - sizeof_BlockFooter)
        (set_largest_free_block (HEAP_SIZE - sizeof_Block - sizeof_BlockFooter)
           (set_free_blocks 1
              (set_free_bytes (HEAP_SIZE - sizeof_Block - sizeof_BlockFooter) (stats s))))).
Proof.
  intros Hi Ha Hfl Hul. unfold initialize. step. step. rewrite Hi. steps.
  assert (E : (region_addr h =? NULL) = false) by (apply Z.eqb_neq; unfold NULL; lia).
  rewrite E. unfold_fields. steps.
  match goal with |- after _ ?s0 _ => set (s1 := s0) end.
  assert (Hsz : size_at s1 (region_addr h) = 1048496).
  { unfold size_at, s1. proj. mem_other. rewrite load_le_store_le_same. reflexivity. }
  assert (Hfr : free_at s1 (region_addr h) = true).
  { unfold free_at, s1. proj. mem_other. rewrite load_le_store_le_same. reflexivity. }
  apply after_set_block_footer_exact.
  { unfold readable, footer_at. rewrite Hsz.
    split; apply in_region_intro; unfold s1; proj; layout_lia. }
  { unfold footer_at. rewrite Hsz. layout_lia. }
  rewrite Hfr. unfold footer_at. rewrite Hsz. unfold s1. proj.
  unfold add_to_free_list. rewrite E. unfold_fields. steps.
  match goal with |- context [get_size_class ?x] =>
    assert (Hx : x = 1048496) by (mem_other; rewrite load_le_store_le_same; reflexivity);
    rewrite Hx; clear Hx end.
  change (get_size_class 1048496) with 7%nat.
  unfold head_of. proj. rewrite Hfl.
  change (default NULL (replicate NUM_SIZE_CLASSES NULL !! 7%nat)) with NULL.
  steps.
  change (negb (NULL =? NULL)) with false. cbn [when]. steps.
  change (7 <? 4)%nat with false. steps.
  repeat match goal with |- context [set_free_bytes ?x] =>
    assert (Hx : x = 1048496) by (mem_other; rewrite load_le_store_le_same; reflexivity);
    rewrite Hx; clear Hx end.
  split; [reflexivity|]. split; [|auto].
  clear s1 Hsz Hfr.
  unfold fresh_heap, footer_is, footer_at, intact, sentinel_start_at, sentinel_end_at,
    size_at, free_at, prev_at, next_at. proj.
  assert (Hsize : forall m, load_le (store_le m (region_addr h + off_size) 8
                    (HEAP_SIZE - sizeof_Block - sizeof_BlockFooter))
                    (region_addr h + off_size) 8 = 1048496)
    by (intros m; rewrite load_le_store_le_same; reflexivity).
  mem. rewrite Hfl.
  repeat split; try reflexivity; try assumption. unfold NULL; lia.
Qed.

(** X9.  On an uninitialised allocator whose lists are empty, [initialize]
    with a region the host grants leaves a fresh heap: one free block of
    [HEAP_SIZE - sizeof(Block) - sizeof(BlockFooter)] bytes at the start of
    the region, with both sentinels, null links and a matching footer, alone
    in bucket 7; the used list stays empty, the flag is set, the one line
    printed is the banner on [stdout], and of the statistics only
    [free_bytes], [free_blocks] and the largest and smallest free block
    change. *)
Theorem initialize_installs_one_block (h : host) (s : state) :
  initialized s = false -> 0 < region_addr h ->
  free_lists s = replicate NUM_SIZE_CLASSES NULL -> used_list s = NULL ->
  after (initialize h) s (fun _ s' err =>
    err = [Initialized (region_addr h)] /\
    fresh_heap s' /\ heap s' = region_addr h /\
    next_alloc_id s' = next_alloc_id s /\
    allocation_records s' = allocation_records s /\
    stats s' =
      set_smallest_free_block (HEAP_SIZE - sizeof_Block - sizeof_BlockFooter)
        (set_largest_free_block (HEAP_SIZE - sizeof_Block - sizeof_BlockFooter)
           (set_free_blocks 1
              (set_free_bytes (HEAP_SIZE - sizeof_Block - sizeof_BlockFooter) (stats s))))).
Proof. exact (initialize_run h s). Qed.

Lemma initialize_installs_one_block_witness :
  initialized startup = false /\ 0 < region_addr host0 /\
  free_lists startup = replicate NUM_SIZE_CLASSES NULL /\ used_list startup = NULL /\
  after (initialize host0) startup (fun _ s' err =>
    err = [Initialized (region_addr host0)] /\
    fresh_heap s' /\ heap s' = region_addr host0 /\
    next_alloc_id s' = next_alloc_id startup /\
    allocation_records s' = allocation_records startup /\
    stats s' =
      set_smallest_free_block (HEAP_SIZE - sizeof_Block - sizeof_BlockFooter)
        (set_largest_free_block (HEAP_SIZE - sizeof_Block - sizeof_BlockFooter)
           (set_free_blocks 1
              (set_free_bytes (HEAP_SIZE - sizeof_Block - sizeof_BlockFooter)
                 (stats startup))))).
Proof.
  split; [reflexivity|]. split; [reflexivity|]. split; [reflexivity|].
  split; [reflexivity|].
  exact (initialize_installs_one_block host0 startup eq_refl eq_refl eq_refl eq_refl).
Defined.

(** X10.  [initialize] is idempotent: once it has acquired a region, a
    second call (whatever the host would answer) changes nothing and prints
    nothing. *)
Theorem initialize_twice (h h' : host) (s : state) :
  initialized s = false -> head_of s 7 = NULL -> region_addr h <> NULL ->
  (initialize h;; initialize h') s = initialize h s.
Proof.
  intros Hi Hh Ha.
  pose proof (initialize_returns h s Hi Hh) as Hr.
  apply after_ok in Hr as ([] & s1 & e1 & Heq & Hpost).
  apply Z.eqb_neq in Ha. rewrite Ha in Hpost. destruct Hpost as (Hi1 & _ & _).
  unfold mbind, M_bind. rewrite Heq.
  unfold initialize at 1. unfold mbind, M_bind, get. rewrite Hi1.
  cbn. rewrite app_nil_r. reflexivity.
Qed.

Lemma initialize_twice_witness :
  initialized startup = false /\ head_of startup 7 = NULL /\ region_addr host0 <> NULL /\
  (initialize host0;; initialize host0) startup = initialize host0 startup.
Proof.
  split; [reflexivity|]. split; [reflexivity|].
  assert (Ha : region_addr host0 <> NULL) by discriminate.
  split; [exact Ha|].
  exact (initialize_twice host0 host0 startup eq_refl eq_refl Ha).
Defined.

(** X11.  [cleanup] followed by [initialize] gives a fresh heap from every
    initialised state, whatever the lists and the region held: the leak
    records are dropped and the allocation-id counter is kept.  The
    statistics are not reset by [cleanup]; [initialize] overwrites four of
    them.  What is printed is the banner of each of the two calls. *)
Theorem cleanup_then_initialize (h : host) (s : state) :
  initialized s = true -> 0 < region_addr h ->
  after (cleanup;; initialize h) s (fun _ s' err =>
    err = [CleanedUp; Initialized (region_addr h)] /\
    fresh_heap s' /\ heap s' = region_addr h /\
    allocation_records s' = [] /\
    next_alloc_id s' = next_alloc_id s /\
    stats s' =
      set_smallest_free_block (HEAP_SIZE - sizeof_Block - sizeof_BlockFooter)
        (set_largest_free_block (HEAP_SIZE - sizeof_Block - sizeof_BlockFooter)
           (set_free_blocks 1
              (set_free_bytes (HEAP_SIZE - sizeof_Block - sizeof_BlockFooter) (stats s))))).
Proof.
  intros Hi Ha. apply after_bind. unfold cleanup. step. step. rewrite Hi. cbn [negb].
  steps.
  match goal with |- after _ ?sc _ =>
    pose proof (initialize_run h sc eq_refl Ha eq_refl eq_refl) as Hr end.
  apply after_ok in Hr as ([] & s1 & e1 & Heq & -> & Hf & Hh & Hid & Hrec & Hst).
  unfold after. rewrite Heq. cbn [app].
  split; [reflexivity|]. split; [exact Hf|]. split; [exact Hh|].
  split; [exact Hrec|]. split; [exact Hid|]. exact Hst.
Qed.

Lemma cleanup_then_initialize_witness :
  initialized coalesced = true /\ 0 < region_addr host0 /\
  after (cleanup;; initialize host0) coalesced (fun _ s' err =>
    err = [CleanedUp; Initialized (region_addr host0)] /\
    fresh_heap s' /\ heap s' = region_addr host0 /\
    allocation_records s' = [] /\
    next_alloc_id s' = next_alloc_id coalesced /\
    stats s' =
      set_smallest_free_block (HEAP_SIZE - sizeof_Block - sizeof_BlockFooter)
        (set_largest_free_block (HEAP_SIZE - sizeof_Block - sizeof_BlockFooter)
           (set_free_blocks 1
              (set_free_bytes (HEAP_SIZE - sizeof_Block - sizeof_BlockFooter)
                 (stats coalesced))))).
Proof.
  assert (Hi : initialized coalesced = true) by (vm_compute; reflexivity).
  split; [exact Hi|]. split; [reflexivity|].
  exact (cleanup_then_initialize host0 coalesced Hi eq_refl).
Defined.

(** ** Boundary tags *)

(** X12.  Boundary tags: after [set_block_footer] on a block whose header is
    intact, the footer mirrors the header's size and free flag and carries
    [FOOTER_SENTINEL], and [get_prev_physical_block] called on the address
    right after the block finds the block again, without changing the state
    or printing anything. *)
Theorem footer_leads_back (s : state) (b : Z) :
  0 < heap s -> readable s b -> intact s b = true ->
  after (set_block_footer b) s (fun _ s' err =>
    err = [] /\
    footer_is s' (footer_at s b) (size_at s b) (free_at s b) /\
    get_prev_physical_block (next_physical s b) s' = Ok b s' []).
Proof.
  intros Hh Hr Hin. pose proof (size_at_range s b) as Hrange.
  assert (Hf : footer_at s b <> NULL).
  { destruct Hr as [H1 H2]. apply in_region_elim in H1 as (_ & H1 & _).
    unfold footer_at, NULL, sizeof_Block. lia. }
  apply after_set_block_footer_exact; [assumption|assumption|].
  split; [reflexivity|].
  match goal with |- footer_is ?s1 _ _ _ /\ _ => set (s' := s1) end.
  assert (F : footer_is s' (footer_at s b) (size_at s b) (free_at s b)).
  { unfold footer_is, s'. proj. repeat split.
    - mem. reflexivity.
    - destruct (free_at s b); mem; reflexivity.
    - mem. reflexivity. }
  split; [exact F|].
  cut (after (get_prev_physical_block (next_physical s b)) s'
         (fun r s2 e => r = b /\ s2 = s' /\ e = [])).
  { intros H. apply after_ok in H as (r & s2 & e & Heq & -> & -> & ->). exact Heq. }
  destruct F as (F1 & F2 & F3).
  unfold get_prev_physical_block. step. step.
  assert (Hgt : (next_physical s b <=? heap s') = false).
  { apply Z.leb_gt. destruct Hr as [H1 H2]. apply in_region_elim in H1 as (_ & H1 & _).
    unfold s', next_physical, sizeof_Block, sizeof_BlockFooter. proj. lia. }
  rewrite Hgt.
  replace (next_physical s b - sizeof_BlockFooter) with (footer_at s b)
    by (unfold next_physical, footer_at; lia).
  assert (Hhs : heap s' = heap s) by reflexivity.
  assert (Hb : forall a w, a + Z.of_nat w <= footer_at s b ->
                 load_le (region s') a w = load_le (region s) a w).
  { intros a w Ha. unfold s'. proj. rewrite !load_le_store_le_other by layout_lia.
    reflexivity. }
  unfold intact, sentinel_start_at, sentinel_end_at in Hin.
  apply andb_prop in Hin as [Hs1 Hs2].
  unfold_fields. step. step. rewrite F3.
  change (negb (FOOTER_SENTINEL =? FOOTER_SENTINEL)) with false. cbv iota.
  step. step. rewrite F1.
  replace (footer_at s b - size_at s b - sizeof_Block) with b by (unfold footer_at; lia).
  step. step. rewrite Hb by layout_lia. rewrite Hs1. cbn [negb].
  step. step. rewrite Hb by layout_lia. rewrite Hs2. cbn [negb].
  step. auto.
Qed.

Lemma footer_leads_back_witness :
  0 < heap coalesced /\ readable coalesced 65536 /\ intact coalesced 65536 = true /\
  after (set_block_footer 65536) coalesced (fun _ s' err =>
    err = [] /\
    footer_is s' (footer_at coalesced 65536) (size_at coalesced 65536)
      (free_at coalesced 65536) /\
    get_prev_physical_block (next_physical coalesced 65536) s' = Ok 65536 s' []).
Proof.
  assert (Hh : 0 < heap coalesced) by (vm_compute; reflexivity).
  assert (Hr : readable coalesced 65536) by (split; vm_compute; reflexivity).
  assert (Hi : intact coalesced 65536 = true) by (vm_compute; reflexivity).
  split; [exact Hh|]. split; [exact Hr|]. split; [exact Hi|].
  exact (footer_leads_back coalesced 65536 Hh Hr Hi).
Defined.

(** ** Fragmentation statistics *)

Lemma wf_count c L M t : fragmentation_count (with_fragmentation c L M t) = c.
Proof. reflexivity. Qed.

Lemma wf_largest c L M t : largest_free_block (with_fragmentation c L M t) = L.
Proof. reflexivity. Qed.

Lemma wf_smallest c L M t : smallest_free_block (with_fragmentation c L M t) = M.
Proof. reflexivity. Qed.

Lemma wf_set_count c' c L M t :
  set_fragmentation_count c' (with_fragmentation c L M t) = with_fragmentation c' L M t.
Proof. reflexivity. Qed.

Lemma wf_set_largest L' c L M t :
  set_largest_free_block L' (with_fragmentation c L M t) = with_fragmentation c L' M t.
Proof. reflexivity. Qed.

Lemma wf_set_smallest M' c L M t :
  set_smallest_free_block M' (with_fragmentation c L M t) = with_fragmentation c L M' t.
Proof. reflexivity. Qed.

Lemma set_stats_set_stats a b s : set_stats a (set_stats b s) = set_stats a s.
Proof. reflexivity. Qed.

Lemma after_fragmentation_walk (s : state) (b : Z) (l : list Z) :
  chain s b l ->
  forall (fuel : nat) (c L M : Z) (t : AllocStats)
         (Q : unit -> state -> list diagnostic -> Prop),
  (length l < fuel)%nat ->
  0 <= c -> c + Z.of_nat (length l) < 2 ^ 64 ->
  Q tt (set_stats (with_fragmentation (c + Z.of_nat (length l))
                     (foldl Z.max L (map (size_at s) l))
                     (foldl Z.min M (map (size_at s) l)) t) s) [] ->
  after (fragmentation_walk fuel b) (set_stats (with_fragmentation c L M t) s) Q.
Proof.
  induction 1 as [|b l Hb Hr Hc IH]; intros fuel c L M t Q Hlen Hc0 Hc1 HQ;
    (destruct fuel as [|fuel]; [cbn [length] in Hlen; lia|]); cbn [fragmentation_walk].
  - change (NULL =? NULL) with true. step.
    cbn [length map foldl] in HQ. replace (c + Z.of_nat 0) with c in HQ by lia. exact HQ.
  - apply Z.eqb_neq in Hb as Hb'. rewrite Hb'.
    cbn [length map foldl] in HQ, Hlen, Hc1.
    unfold upd_stats, get_size, get_next.
    step. step. proj. rewrite wf_count, wf_set_count.
    do 4 step. proj. fold (size_at s b). rewrite wf_largest.
    assert (Hm : wrap64 (c + 1) = c + 1) by (unfold wrap64; apply Z.mod_small; lia).
    rewrite Hm.
    assert (HL : (if L <? size_at s b
                  then set_largest_free_block (size_at s b) (with_fragmentation (c + 1) L M t)
                  else with_fragmentation (c + 1) L M t)
                 = with_fragmentation (c + 1) (Z.max L (size_at s b)) M t).
    { destruct (Z.ltb_spec L (size_at s b)).
      - rewrite wf_set_largest, Z.max_r by lia. reflexivity.
      - rewrite Z.max_l by lia. reflexivity. }
    rewrite HL.
    do 4 step. proj. fold (size_at s b). rewrite wf_smallest.
    assert (HM : (if size_at s b <? M
                  then set_smallest_free_block (size_at s b)
                         (with_fragmentation (c + 1) (Z.max L (size_at s b)) M t)
                  else with_fragmentation (c + 1) (Z.max L (size_at s b)) M t)
                 = with_fragmentation (c + 1) (Z.max L (size_at s b)) (Z.min M (size_at s b)) t).
    { destruct (Z.ltb_spec (size_at s b) M).
      - rewrite wf_set_smallest, Z.min_r by lia. reflexivity.
      - rewrite Z.min_l by lia. reflexivity. }
    rewrite HM.
    step. step. proj. fold (next_at s b).
    apply (IH fuel (c + 1) (Z.max L (size_at s b)) (Z.min M (size_at s b)) t); [lia|lia|lia|].
    replace (c + 1 + Z.of_nat (length l)) with (c + Z.of_nat (Datatypes.S (length l))) by lia.
    exact HQ.
Qed.

Lemma after_fragmentation_classes (s : state) (cs : list nat) (ls : list (list Z)) :
  Forall2 (fun i l => chain s (head_of s i) l) cs ls ->
  forall (c L M : Z) (t : AllocStats) (Q : unit -> state -> list diagnostic -> Prop),
  0 <= c -> c + Z.of_nat (length (concat ls)) < 2 ^ 64 ->
  Q tt (set_stats (with_fragmentation (c + Z.of_nat (length (concat ls)))
                     (foldl Z.max L (map (size_at s) (concat ls)))
                     (foldl Z.min M (map (size_at s) (concat ls))) t) s) [] ->
  after (fragmentation_classes cs) (set_stats (with_fragmentation c L M t) s) Q.
Proof.
  induction 1 as [|i l cs ls Hl Hcs IH]; intros c L M t Q Hc0 Hc1 HQ;
    cbn [fragmentation_classes].
  - step. cbn [concat length map foldl] in HQ.
    replace (c + Z.of_nat 0) with c in HQ by lia. exact HQ.
  - cbn [concat] in HQ, Hc1. rewrite length_app in HQ, Hc1.
    rewrite map_app, !foldl_app in HQ.
    step. step. step. proj.
    change (head_of (set_stats (with_fragmentation c L M t) s) i) with (head_of s i).
    apply (after_fragmentation_walk s _ l Hl);
      [apply (chain_length s _ l Hl) | lia | lia |].
    cbv beta. apply IH; [lia | lia |]. cbn [app].
    replace (c + Z.of_nat (length l) + Z.of_nat (length (concat ls)))
      with (c + Z.of_nat (length l + length (concat ls))) by lia.
    exact HQ.
Qed.

Lemma foldl_max_ge (xs : list Z) : forall (L : Z),
  L <= foldl Z.max L xs /\ (forall x, In x xs -> x <= foldl Z.max L xs).
Proof.
  induction xs as [|y xs IH]; intros L; cbn [foldl In].
  - split; [lia | tauto].
  - destruct (IH (Z.max L y)) as [H1 H2]. split; [lia|].
    intros x [->|Hx]; [lia | auto].
Qed.

Lemma foldl_max_in (xs : list Z) : forall (L : Z),
  foldl Z.max L xs = L \/ In (foldl Z.max L xs) xs.
Proof.
  induction xs as [|y xs IH]; intros L; cbn [foldl In]; [auto|].
  destruct (IH (Z.max L y)) as [H|H]; [|auto].
  rewrite H. destruct (Z.max_spec L y) as [[_ ->]|[_ ->]]; auto.
Qed.

Lemma foldl_min_le (xs : list Z) : forall (M : Z),
  foldl Z.min M xs <= M /\ (forall x, In x xs -> foldl Z.min M xs <= x).
Proof.
  induction xs as [|y xs IH]; intros M; cbn [foldl In].
  - split; [lia | tauto].
  - destruct (IH (Z.min M y)) as [H1 H2]. split; [lia|].
    intros x [->|Hx]; [lia | auto].
Qed.

Lemma foldl_min_in (xs : list Z) : forall (M : Z),
  foldl Z.min M xs = M \/ In (foldl Z.min M xs) xs.
Proof.
  induction xs as [|y xs IH]; intros M; cbn [foldl In]; [auto|].
  destruct (IH (Z.min M y)) as [H|H]; [|auto].
  rewrite H. destruct (Z.min_spec M y) as [[_ ->]|[_ ->]]; auto.
Qed.

Lemma concat_chains_length (s : state) (cs : list nat) (ls : list (list Z)) :
  Forall2 (fun i l => chain s (head_of s i) l) cs ls ->
  (length (concat ls) <= length cs * walk_fuel)%nat.
Proof.
  induction 1 as [|i l cs ls Hl Hcs IH]; cbn [concat length]; [lia|].
  rewrite length_app. pose proof (chain_length s _ l Hl). lia.
Qed.

Lemma update_fragmentation_stats_run (s : state) (buckets : list (list Z)) :
  Forall2 (fun i l => chain s (head_of s i) l) (seq 0 NUM_SIZE_CLASSES) buckets ->
  after update_fragmentation_stats s (fun _ s' err =>
    err = [] /\
    s' = set_stats (with_fragmentation (fragmentation_count (stats s'))
                      (largest_free_block (stats s'))
                      (smallest_free_block (stats s')) (stats s)) s /\
    fragmentation_count (stats s') = Z.of_nat (length (concat buckets)) /\
    (forall b, In b (concat buckets) ->
       smallest_free_block (stats s') <= size_at s b <= largest_free_block (stats s')) /\
    (concat buckets = [] ->
       largest_free_block (stats s') = 0 /\ smallest_free_block (stats s') = 0) /\
    (concat buckets <> [] ->
       (exists b, In b (concat buckets) /\ size_at s b = largest_free_block (stats s')) /\
       (exists b, In b (concat buckets) /\ size_at s b = smallest_free_block (stats s')))).
Proof.
  intros Hb.
  pose proof (concat_chains_length s _ _ Hb) as Hlen.
  rewrite length_seq in Hlen.
  assert (Hlen' : Z.of_nat (length (concat buckets)) < 2 ^ 64).
  { change (2 ^ 64) with 18446744073709551616.
    assert (Hw : Z.of_nat walk_fuel = 1048577)
      by (unfold walk_fuel; rewrite Z2Nat.id; [reflexivity | discriminate]).
    apply Nat2Z.inj_le in Hlen. rewrite Nat2Z.inj_mul, Hw in Hlen.
    change (Z.of_nat NUM_SIZE_CLASSES) with 8 in Hlen. lia. }
  unfold update_fragmentation_stats, upd_stats.
  do 7 step. proj. rewrite !set_stats_set_stats.
  change (set_smallest_free_block SIZE_MAX
            (set_largest_free_block 0 (set_fragmentation_count 0 (stats s))))
    with (with_fragmentation 0 0 SIZE_MAX (stats s)).
  apply (after_fragmentation_classes s _ buckets Hb 0 0 SIZE_MAX (stats s)); [lia | lia |].
  cbn [Z.add app].
  set (all := concat buckets) in *.
  set (sizes := map (size_at s) all).
  assert (Hsz : forall x, In x sizes -> 0 <= x < 2 ^ 64).
  { intros x Hx. apply in_map_iff in Hx as (b & <- & _). apply size_at_range. }
  destruct (foldl_max_ge sizes 0) as [HL0 HL1].
  destruct (foldl_min_le sizes SIZE_MAX) as [HM0 HM1].
  pose proof (foldl_max_in sizes 0) as HLin.
  pose proof (foldl_min_in sizes SIZE_MAX) as HMin.
  assert (Hnil : all = [] -> sizes = []) by (intros E; unfold sizes; rewrite E; reflexivity).
  assert (HLin' : all <> [] -> In (foldl Z.max 0 sizes) sizes).
  { intros Hne. destruct HLin as [E|]; [|assumption].
    destruct all as [|b r] eqn:Eall; [congruence|]. unfold sizes in *. cbn [map] in *.
    assert (Hb0 : size_at s b = 0).
    { pose proof (HL1 (size_at s b) (or_introl eq_refl)).
      pose proof (size_at_range s b). lia. }
    rewrite E. left. exact Hb0. }
  assert (HMin' : all <> [] -> In (foldl Z.min SIZE_MAX sizes) sizes).
  { intros Hne. destruct HMin as [E|]; [|assumption].
    destruct all as [|b r] eqn:Eall; [congruence|]. unfold sizes in *. cbn [map] in *.
    assert (Hb0 : size_at s b = SIZE_MAX).
    { pose proof (HM1 (size_at s b) (or_introl eq_refl)).
      pose proof (size_at_range s b). unfold SIZE_MAX in *. lia. }
    rewrite E. left. exact Hb0. }
  step. step. proj. rewrite wf_count. unfold when.
  rewrite !Z.add_0_l.
  destruct (Z.eqb_spec (Z.of_nat (length all)) 0) as [E0|E0].
  - assert (Eall : all = []) by (destruct all; [reflexivity | cbn [length] in E0; lia]).
    step. proj. rewrite set_stats_set_stats, wf_set_smallest.
    split; [reflexivity|]. proj.
    rewrite wf_count, wf_largest, wf_smallest.
    split; [reflexivity|]. split; [reflexivity|].
    rewrite (Hnil Eall). cbn [foldl]. rewrite Eall.
    split; [intros b []|]. split; [auto|]. intros Hne. congruence.
  - assert (Hne : all <> []) by (intros E; rewrite E in E0; cbn [length] in E0; lia).
    step. split; [reflexivity|]. proj.
    rewrite wf_count, wf_largest, wf_smallest.
    split; [reflexivity|]. split; [reflexivity|].
    split.
    { intros b Hin. assert (In (size_at s b) sizes) by (apply in_map; exact Hin).
      split; [apply HM1 | apply HL1]; assumption. }
    split; [intros E; congruence|]. intros _.
    split.
    + specialize (HLin' Hne). apply in_map_iff in HLin' as (b & Hb1 & Hb2). exists b. auto.
    + specialize (HMin' Hne). apply in_map_iff in HMin' as (b & Hb1 & Hb2). exists b. auto.
Qed.

(** X13.  When every bucket is a null-terminated chain of readable blocks,
    [update_fragmentation_stats] returns and changes three statistics only:
    [fragmentation_count] becomes the number of blocks threaded into the
    buckets, [largest_free_block] and [smallest_free_block] the greatest and
    the least of their sizes (both attained), and both are 0 when all the
    buckets are empty. *)
Theorem update_fragmentation_stats_spec (s : state) (buckets : list (list Z)) :
  Forall2 (fun i l => chain s (head_of s i) l) (seq 0 NUM_SIZE_CLASSES) buckets ->
  after update_fragmentation_stats s (fun _ s' err =>
    err = [] /\
    s' = set_stats (with_fragmentation (fragmentation_count (stats s'))
                      (largest_free_block (stats s'))
                      (smallest_free_block (stats s')) (stats s)) s /\
    fragmentation_count (stats s') = Z.of_nat (length (concat buckets)) /\
    (forall b, In b (concat buckets) ->
       smallest_free_block (stats s') <= size_at s b <= largest_free_block (stats s')) /\
    (concat buckets = [] ->
       largest_free_block (stats s') = 0 /\ smallest_free_block (stats s') = 0) /\
    (concat buckets <> [] ->
       (exists b, In b (concat buckets) /\ size_at s b = largest_free_block (stats s')) /\
       (exists b, In b (concat buckets) /\ size_at s b = smallest_free_block (stats s')))).
Proof. exact (update_fragmentation_stats_run s buckets). Qed.

Ltac chain_tac :=
  repeat (match goal with
          | |- chain ?s ?b ?l =>
              let b' := eval vm_compute in b in
              replace b with b' by (vm_compute; reflexivity)
          end;
          first [ apply chain_end
                | apply chain_step; [discriminate | split; vm_compute; reflexivity |] ]).

Lemma two_free_buckets :
  Forall2 (fun i l => chain two_free (head_of two_free i) l) (seq 0 NUM_SIZE_CLASSES)
    [[]; []; []; [65536; 65984]; []; []; []; [66336]].
Proof. repeat apply List.Forall2_cons; try apply List.Forall2_nil; chain_tac. Defined.

Lemma update_fragmentation_stats_spec_witness :
  Forall2 (fun i l => chain two_free (head_of two_free i) l) (seq 0 NUM_SIZE_CLASSES)
    [[]; []; []; [65536; 65984]; []; []; []; [66336]] /\
  exists s', update_fragmentation_stats two_free = Ok tt s' [] /\
    fragmentation_count (stats s') = 3 /\
    largest_free_block (stats s') = size_at two_free 66336 /\
    smallest_free_block (stats s') = size_at two_free 65984.
Proof.
  pose proof two_free_buckets as Hb.
  split; [exact Hb|].
  pose proof (update_fragmentation_stats_spec two_free _ Hb) as H.
  destruct (proj1 (after_ok _ _ _) H)
    as ([] & s' & err & Heq & Herr & _ & Hn & Hall & _ & Hsome).
  rewrite Herr in Heq.
  exists s'. split; [exact Heq|]. split; [exact Hn|].
  destruct Hsome as [(b1 & Hi1 & Hb1) (b2 & Hi2 & Hb2)]; [discriminate|].
  assert (H1 : size_at two_free 65536 = 240) by (vm_compute; reflexivity).
  assert (H2 : size_at two_free 65984 = 144) by (vm_compute; reflexivity).
  assert (H3 : size_at two_free 66336 = 1047696) by (vm_compute; reflexivity).
  destruct (Hall 66336) as [_ Hmax]; [cbn [concat app In]; tauto|].
  destruct (Hall 65984) as [Hmin _]; [cbn [concat app In]; tauto|].
  split.
  - destruct Hi1 as [<-|[<-|[<-|[]]]]; rewrite ?H1, ?H2, ?H3 in Hb1; lia.
  - destruct Hi2 as [<-|[<-|[<-|[]]]]; rewrite ?H1, ?H2, ?H3 in Hb2; lia.
Defined.

(** ** The lists, the entry check and the split *)

Lemma after_remove_from_free_list (s : state) (b : Z)
    (Q : unit -> state -> list diagnostic -> Prop) :
  b <> NULL -> in_region s b sizeof_Block = true ->
  neighbour s b (prev_at s b) -> neighbour s b (next_at s b) ->
  (prev_at s b = NULL \/ next_at s b = NULL \/
   prev_at s b = next_at s b \/ apart (prev_at s b) (next_at s b)) ->
  Q tt (set_free_lists
          (if head_of s (get_size_class (size_at s b)) =? b
           then <[get_size_class (size_at s b) := next_at s b]> (free_lists s)
           else free_lists s)
          (set_region
             (let p := prev_at s b in
              let n := next_at s b in
              let m1 := if p =? NULL then region s
                        else store_le (region s) (p + off_next) 8 n in
              let m2 := if n =? NULL then m1 else store_le m1 (n + off_prev) 8 p in
              store_le (store_le m2 (b + off_prev) 8 NULL) (b + off_next) 8 NULL) s)) [] ->
  after (remove_from_free_list b) s Q.
Proof.
  intros Hb Hr Hp Hn Hpn HQ. cbv zeta in HQ.
  unfold remove_from_free_list. apply Z.eqb_neq in Hb as Hb'. rewrite Hb'.
  unfold_fields. steps. fold (size_at s b). fold (prev_at s b).
  unfold when.
  destruct (Z.eqb_spec (prev_at s b) NULL) as [Ep|Ep];
    [|destruct Hp as [?|[Hpr Hpa]]; [contradiction|]];
  cbn [negb]; steps;
  rewrite ?load_le_store_le_other by (unfold apart in *; layout_lia);
  fold (next_at s b);
  (destruct (Z.eqb_spec (next_at s b) NULL) as [En|En];
    [|destruct Hn as [?|[Hnr Hna]]; [contradiction|]]);
  cbn [negb]; steps; rewrite ?load_le_store_le_other by (unfold apart in *; layout_lia);
  fold (prev_at s b); fold (next_at s b); steps;
  unfold head_of; proj; fold (head_of s (get_size_class (size_at s b)));
  destruct (head_of s (get_size_class (size_at s b)) =? b); steps.
  all: unfold apart in *; region_facts.
  all: rewrite ?load_le_store_le_other by layout_lia; fold (next_at s b).
  all: exact HQ.
Qed.

(** X14.  [remove_from_free_list] picks the bucket by the size the block has
    now: it unlinks the block from its neighbours and resets its links, but
    the only head it can change is that of bucket
    [get_size_class (size_at s b)].  A block that heads another bucket,
    because its size changed while it was threaded, stays the head of that
    bucket. *)
Theorem remove_from_free_list_by_current_size (s : state) (b : Z) :
  b <> NULL -> in_region s b sizeof_Block = true ->
  neighbour s b (prev_at s b) -> neighbour s b (next_at s b) ->
  (prev_at s b = next_at s b \/ apart (prev_at s b) (next_at s b)) ->
  after (remove_from_free_list b) s (fun _ s' err =>
    err = [] /\
    (exists m', s' = set_free_lists
                  (if head_of s (get_size_class (size_at s b)) =? b
                   then <[get_size_class (size_at s b) := next_at s b]> (free_lists s)
                   else free_lists s) (set_region m' s)) /\
    (forall j, j <> get_size_class (size_at s b) -> head_of s' j = head_of s j) /\
    prev_at s' b = NULL /\ next_at s' b = NULL /\
    (prev_at s b <> NULL -> next_at s' (prev_at s b) = next_at s b) /\
    (next_at s b <> NULL -> prev_at s' (next_at s b) = prev_at s b) /\
    (forall a w,
       (a + Z.of_nat w <= b + off_prev \/ b + off_prev + 16 <= a) ->
       (prev_at s b = NULL \/ a + Z.of_nat w <= prev_at s b + off_next
        \/ prev_at s b + off_next + 8 <= a) ->
       (next_at s b = NULL \/ a + Z.of_nat w <= next_at s b + off_prev
        \/ next_at s b + off_prev + 8 <= a) ->
       load_le (region s') a w = load_le (region s) a w)).
Proof.
  intros Hb Hr Hp Hn Hpn.
  pose proof (load_le_range 8 (region s) (b + off_next)) as Rn.
  pose proof (load_le_range 8 (region s) (b + off_prev)) as Rp.
  fold (next_at s b) in Rn. fold (prev_at s b) in Rp.
  apply after_remove_from_free_list; [assumption.. | right; right; exact Hpn |]. cbv zeta.
  split; [reflexivity|]. split; [eexists; reflexivity|].
  split.
  { intros j Hj. destruct (head_of s (get_size_class (size_at s b)) =? b); [|reflexivity].
    unfold head_of. proj. rewrite list_lookup_insert_ne by congruence. reflexivity. }
  destruct (Z.eqb_spec (prev_at s b) NULL) as [Ep|Ep];
    [|destruct Hp as [?|[Hpr Hpa]]; [contradiction|]];
  (destruct (Z.eqb_spec (next_at s b) NULL) as [En|En];
    [|destruct Hn as [?|[Hnr Hna]]; [contradiction|]]).
  all: unfold apart in *; region_facts.
  all: unfold prev_at, next_at in *; proj.
  all: split; [mem; reflexivity|].
  all: split; [mem; reflexivity|].
  all: split; [intros Hx; try contradiction; mem; reflexivity|].
  all: split; [intros Hx; try contradiction; mem; reflexivity|].
  all: intros a w F1 F2 F3;
       (destruct F2 as [F2|F2]; [try contradiction|]);
       (destruct F3 as [F3|F3]; [try contradiction|]);
       rewrite !load_le_store_le_other by layout_lia; reflexivity.
Qed.

Lemma head_of_set_region (m : gmap Z Z) (s : state) (i : nat) :
  head_of (set_region m s) i = head_of s i.
Proof. reflexivity. Qed.

Lemma head_of_insert (s : state) (i : nat) (v : Z) (fl : list Z) :
  (i < length fl)%nat -> head_of (set_free_lists (<[i := v]> fl) s) i = v.
Proof.
  intros H. unfold head_of. proj. rewrite list_lookup_insert_eq by exact H. reflexivity.
Qed.

Lemma head_of_insert_ne (s : state) (i j : nat) (v : Z) (fl : list Z) :
  i <> j -> head_of (set_free_lists (<[i := v]> fl) s) j = default NULL (fl !! j).
Proof.
  intros H. unfold head_of. proj. rewrite list_lookup_insert_ne by exact H. reflexivity.
Qed.

Lemma walk_fuel_S : exists f, walk_fuel = Datatypes.S f.
Proof.
  exists (Z.to_nat HEAP_SIZE). unfold walk_fuel.
  rewrite Z2Nat.inj_add by (unfold HEAP_SIZE; lia). apply Nat.add_1_r.
Qed.

Lemma get_size_class_lt (size : Z) : (get_size_class size < NUM_SIZE_CLASSES)%nat.
Proof.
  unfold get_size_class, NUM_SIZE_CLASSES.
  repeat match goal with |- context [if ?c then _ else _] => destruct c end; lia.
Qed.

(** [add_to_free_list] when the block goes to the head of its bucket: the
    bucket is one of the four that are not kept in address order, or it is
    empty, or its head lies above the block. *)
Lemma after_add_to_free_list (s : state) (b : Z)
    (Q : unit -> state -> list diagnostic -> Prop) :
  b <> NULL -> in_region s b sizeof_Block = true ->
  addressable s ->
  length (free_lists s) = NUM_SIZE_CLASSES ->
  neighbour s b (head_of s (get_size_class (size_at s b))) ->
  ((4 <= get_size_class (size_at s b))%nat \/
   head_of s (get_size_class (size_at s b)) = NULL \/
   b < head_of s (get_size_class (size_at s b))) ->
  Q tt (set_free_lists (<[get_size_class (size_at s b) := b]> (free_lists s))
          (set_region
             (let h := head_of s (get_size_class (size_at s b)) in
              let m := store_le (store_le (store_le (region s) (b + off_free) 1 1)
                                   (b + off_prev) 8 NULL) (b + off_next) 8 h in
              if h =? NULL then m else store_le m (h + off_prev) 8 b) s)) [] ->
  after (add_to_free_list b) s Q.
Proof.
  intros Hb Hr Hmax Hlen Hh Hw HQ. unfold addressable in Hmax. cbv zeta in HQ.
  unfold add_to_free_list. apply Z.eqb_neq in Hb as Hb'. rewrite Hb'.
  set (c := get_size_class (size_at s b)) in *.
  set (h := head_of s c) in *.
  unfold_fields. unfold store_bool. steps.
  rewrite ?load_le_store_le_other by layout_lia. fold (size_at s b). fold c.
  rewrite !head_of_set_region. fold h.
  unfold when.
  assert (Hpost : forall m1 (Q : unit -> state -> list diagnostic -> Prop),
    load_le m1 (b + off_next) 8 = h ->
    Q tt (set_free_lists (<[c:=b]> (free_lists s)) (set_region m1 s)) [] ->
    after
      (modify (fun s0 => set_free_lists (<[c:=b]> (free_lists s0)) s0);;
       (if (c <? 4)%nat
        then
          s0 ← get;
          '(current, prev) ← locality_walk walk_fuel b (head_of s0 c) NULL;
          if prev =? NULL then mret tt
          else
            s2 ← get;
            hn ← load 8 (head_of s2 c + off_next);
            modify (fun s3 => set_free_lists (<[c:=hn]> (free_lists s3)) s3);;
            (if negb (hn =? NULL) then store 8 (hn + off_prev) NULL else mret tt);;
            cn ← load 8 (current + off_next);
            store 8 (b + off_next) cn;;
            bn ← load 8 (b + off_next);
            (if negb (bn =? NULL) then store 8 (bn + off_prev) b else mret tt);;
            store 8 (current + off_next) b;;
            store 8 (b + off_prev) current
        else mret tt))
      (set_region m1 s) Q).
  { intros m1 Q1 H3 Hfin.
    step. step. proj.
    destruct (c <? 4)%nat eqn:Ec; [|step; exact Hfin].
    step. step. step.
    rewrite head_of_insert by (rewrite Hlen; apply get_size_class_lt).
    destruct walk_fuel_S as [f ->]. cbn [locality_walk]. rewrite Hb'.
    unfold_fields. step. step. proj. rewrite H3.
    assert (Hstop : negb (h =? NULL) && (h <? b) = false).
    { destruct Hw as [Hw|[Hw|Hw]].
      - apply Nat.ltb_lt in Ec. lia.
      - rewrite Hw. reflexivity.
      - apply andb_false_iff. right. apply Z.ltb_ge. lia. }
    rewrite Hstop. step. cbv beta iota. change (NULL =? NULL) with true. cbv iota.
    step. exact Hfin. }
  destruct (Z.eqb_spec h NULL) as [Eh|Eh]; cbn [negb].
  - step. cbv beta.
    match goal with |- after _ (set_region ?M _) _ => apply (Hpost M) end.
    { mem. reflexivity. }
    exact HQ.
  - destruct Hh as [?|[Hhr Hha]]; [contradiction|]. unfold apart in Hha.
    step. cbv beta. proj. region_facts.
    match goal with |- after _ (set_region ?M _) _ => apply (Hpost M) end.
    { mem. reflexivity. }
    exact HQ.
Qed.

(** X15.  [add_to_free_list] on a block that goes in front (its bucket is one
    of the four upper ones, or is empty, or has its head above the block):
    the block is marked free and becomes the head of the bucket of its size,
    with a null [prev], the old head as [next] and, when there is one, the
    old head pointing back to it; nothing else in the region changes. *)
Theorem add_to_free_list_pushes (s : state) (b : Z) :
  b <> NULL -> in_region s b sizeof_Block = true ->
  addressable s ->
  length (free_lists s) = NUM_SIZE_CLASSES ->
  neighbour s b (head_of s (get_size_class (size_at s b))) ->
  ((4 <= get_size_class (size_at s b))%nat \/
   head_of s (get_size_class (size_at s b)) = NULL \/
   b < head_of s (get_size_class (size_at s b))) ->
  after (add_to_free_list b) s (fun _ s' err =>
    err = [] /\
    (exists m', s' = set_free_lists (<[get_size_class (size_at s b) := b]> (free_lists s))
                       (set_region m' s)) /\
    head_of s' (get_size_class (size_at s b)) = b /\
    free_at s' b = true /\ prev_at s' b = NULL /\
    next_at s' b = head_of s (get_size_class (size_at s b)) /\
    (head_of s (get_size_class (size_at s b)) <> NULL ->
     prev_at s' (head_of s (get_size_class (size_at s b))) = b) /\
    (forall a w,
       (a + Z.of_nat w <= b + off_free \/ b + off_free + 1 <= a) ->
       (a + Z.of_nat w <= b + off_prev \/ b + off_prev + 16 <= a) ->
       (head_of s (get_size_class (size_at s b)) = NULL
        \/ a + Z.of_nat w <= head_of s (get_size_class (size_at s b)) + off_prev
        \/ head_of s (get_size_class (size_at s b)) + off_prev + 8 <= a) ->
       load_le (region s') a w = load_le (region s) a w)).
Proof.
  intros Hb Hr Hmax Hlen Hh Hw.
  apply after_add_to_free_list; try assumption. cbv zeta.
  unfold addressable in Hmax.
  set (c := get_size_class (size_at s b)) in *.
  set (h := head_of s c) in *.
  split; [reflexivity|]. split; [eexists; reflexivity|].
  split; [apply head_of_insert; rewrite Hlen; apply get_size_class_lt|].
  unfold free_at, prev_at, next_at. proj. region_facts.
  destruct (Z.eqb_spec h NULL) as [Eh|Eh];
    [|destruct Hh as [?|[Hhr Hha]]; [contradiction|]; unfold apart in Hha; region_facts].
  all: split; [mem; reflexivity|]; split; [mem; reflexivity|]; split; [mem; reflexivity|].
  all: split; [intros Hx; try contradiction; mem; reflexivity|].
  all: intros a w F1 F2 F3; (destruct F3 as [F3|F3]; [try contradiction|]);
       rewrite !load_le_store_le_other by layout_lia; reflexivity.
Qed.

Lemma add_to_used_list_run (s : state) (b : Z)
    (Q : unit -> state -> list diagnostic -> Prop) :
  b <> NULL -> in_region s b sizeof_Block = true ->
  neighbour s b (used_list s) ->
  Q tt (set_used_list b
          (set_region
             (let m := store_le (store_le (store_le (region s) (b + off_free) 1 0)
                                   (b + off_prev) 8 NULL) (b + off_next) 8 (used_list s) in
              if used_list s =? NULL then m
              else store_le m (used_list s + off_prev) 8 b) s)) [] ->
  after (add_to_used_list b) s Q.
Proof.
  intros Hb Hr Hu HQ. cbv zeta in HQ.
  unfold add_to_used_list. apply Z.eqb_neq in Hb as Hb'. rewrite Hb'.
  unfold_fields. unfold store_bool, when. steps.
  destruct (Z.eqb_spec (used_list s) NULL) as [Eu|Eu]; cbn [negb].
  - steps. exact HQ.
  - destruct Hu as [?|[Hur Hua]]; [contradiction|]. steps. exact HQ.
Qed.

Lemma remove_from_used_list_head (s : state) (b : Z)
    (Q : unit -> state -> list diagnostic -> Prop) :
  b <> NULL -> in_region s b sizeof_Block = true ->
  used_list s = b -> prev_at s b = NULL -> neighbour s b (next_at s b) ->
  Q tt (set_used_list (next_at s b)
          (set_region
             (store_le
                (store_le
                   (if next_at s b =? NULL then region s
                    else store_le (region s) (next_at s b + off_prev) 8 NULL)
                   (b + off_prev) 8 NULL) (b + off_next) 8 NULL) s)) [] ->
  after (remove_from_used_list b) s Q.
Proof.
  intros Hb Hr Hu Hp Hn HQ.
  unfold remove_from_used_list. apply Z.eqb_neq in Hb as Hb'. rewrite Hb'.
  unfold_fields. unfold when. steps. fold (prev_at s b). rewrite Hp.
  change (negb (NULL =? NULL)) with false. cbv iota. steps. fold (next_at s b).
  destruct (Z.eqb_spec (next_at s b) NULL) as [En|En]; cbn [negb].
  - steps. rewrite Hu, Z.eqb_refl. steps. fold (next_at s b). exact HQ.
  - destruct Hn as [?|[Hnr Hna]]; [contradiction|]. unfold apart in Hna.
    steps. fold (prev_at s b). rewrite Hp. rewrite Hu, Z.eqb_refl. steps.
    rewrite !load_le_store_le_other by layout_lia. fold (next_at s b). exact HQ.
Qed.

(** X16.  The used list is a stack: [remove_from_used_list] right after
    [add_to_used_list] of the same block gives back the old head, leaves the
    block marked in use with null links and the old head with a null
    [prev], and changes nothing else. *)
Theorem used_list_push_pop (s : state) (b : Z) :
  b <> NULL -> in_region s b sizeof_Block = true -> addressable s ->
  neighbour s b (used_list s) ->
  after (add_to_used_list b;; remove_from_used_list b) s (fun _ s' err =>
    err = [] /\ (exists m', s' = set_region m' s) /\
    free_at s' b = false /\ prev_at s' b = NULL /\ next_at s' b = NULL /\
    (used_list s <> NULL -> prev_at s' (used_list s) = NULL) /\
    (forall a w,
       (a + Z.of_nat w <= b + off_free \/ b + off_free + 1 <= a) ->
       (a + Z.of_nat w <= b + off_prev \/ b + off_prev + 16 <= a) ->
       (used_list s = NULL \/ a + Z.of_nat w <= used_list s + off_prev
        \/ used_list s + off_prev + 8 <= a) ->
       load_le (region s') a w = load_le (region s) a w)).
Proof.
  intros Hb Hr Hmax Hu. unfold addressable in Hmax.
  apply after_bind. apply add_to_used_list_run; [assumption..|]. cbv zeta.
  assert (Hu' : neighbour s b (used_list s)) by exact Hu.
  destruct (Z.eqb_spec (used_list s) NULL) as [Eu|Eu];
    [|destruct Hu as [?|[Hur Hua]]; [contradiction|]; unfold apart in Hua];
    region_facts;
    (match goal with |- after _ ?s0 _ => set (s1 := s0) end);
    (assert (Hn1 : next_at s1 b = used_list s)
       by (unfold next_at, s1; proj; mem; reflexivity));
    (assert (Hp1 : prev_at s1 b = NULL)
       by (unfold prev_at, s1; proj; mem; reflexivity));
    (apply remove_from_used_list_head;
       [assumption | unfold s1; region_tac | reflexivity | assumption
       | rewrite Hn1; exact Hu' |]);
    rewrite Hn1; clear Hn1 Hp1;
    (destruct (Z.eqb_spec (used_list s) NULL) as [Eu'|Eu']; [|try contradiction]);
    try contradiction;
    unfold s1; proj; clear s1;
    (split; [reflexivity|]); (split; [eexists; reflexivity|]);
    unfold free_at, prev_at, next_at; proj;
    (split; [mem; reflexivity|]); (split; [mem; reflexivity|]);
    (split; [mem; reflexivity|]);
    (split; [intros Hx; try contradiction; mem; reflexivity|]);
    intros a w F1 F2 F3;
    (destruct F3 as [F3|F3]; [try contradiction|]);
    rewrite !load_le_store_le_other by layout_lia; reflexivity.
Qed.

Lemma after_mono {A} (m : M A) (s : state) (Q Q' : A -> state -> list diagnostic -> Prop) :
  after m s Q -> (forall a s' e, Q a s' e -> Q' a s' e) -> after m s Q'.
Proof.
  unfold after. destruct (m s) as [a s' e| |]; [|tauto|tauto]. intros H HQ. apply HQ, H.
Qed.

Lemma after_validate_block_exact (s : state) (b : Z) (location : string)
    (Q : unit -> state -> list diagnostic -> Prop) :
  0 < heap s -> readable s b ->
  Q tt s (validate_report s b location) -> after (validate_block b location) s Q.
Proof.
  intros Hh Hr HQ. pose proof (size_at_range s b) as Hsz.
  unfold validate_block.
  assert (Hb : (b =? NULL) = false).
  { apply Z.eqb_neq. destruct Hr as [H1 _]. apply in_region_elim in H1. unfold NULL. lia. }
  rewrite Hb. step. step.
  assert (Hin : (b <? heap s) || (heap s + HEAP_SIZE <=? b) = false).
  { destruct Hr as [H1 _]. apply in_region_elim in H1 as (_ & H1 & H2).
    apply orb_false_iff. split; [apply Z.ltb_ge; lia|apply Z.leb_gt].
    unfold sizeof_Block in H2. lia. }
  rewrite Hin.
  assert (Hf : (footer_at s b =? NULL) = false).
  { apply Z.eqb_neq. destruct Hr as [H1 _]. apply in_region_elim in H1.
    unfold footer_at, NULL, sizeof_Block. lia. }
  unfold validate_report, sentinel_start_at, sentinel_end_at, footer_sentinel_at in HQ.
  unfold get_footer. unfold_fields. unfold when.
  steps.
  destruct (load_le (region s) (b + off_sentinel_start) 4 =? SENTINEL_VALUE);
    cbn [negb andb]; steps;
  (destruct (load_le (region s) (b + off_sentinel_end) 4 =? SENTINEL_VALUE);
    cbn [negb andb]; steps);
  fold (size_at s b); fold (footer_at s b); rewrite Hf; steps;
  (destruct (load_le (region s) (footer_at s b + foff_sentinel) 4 =? FOOTER_SENTINEL);
    cbn [negb andb]; steps);
  fold (size_at s b);
  (destruct (HEAP_SIZE <? size_at s b); cbn [negb andb]; steps);
  cbn [app]; cbn [app] in HQ; exact HQ.
Qed.

Lemma validate_report_nil (s : state) (b : Z) (location : string) :
  validate_report s b location = [] <-> valid_block s b = true.
Proof.
  unfold validate_report, valid_block, intact.
  rewrite (Z.leb_antisym HEAP_SIZE (size_at s b)).
  destruct (sentinel_start_at s b =? SENTINEL_VALUE),
    (sentinel_end_at s b =? SENTINEL_VALUE),
    (footer_sentinel_at s b =? FOOTER_SENTINEL),
    (HEAP_SIZE <? size_at s b); cbn [app negb andb]; split; congruence.
Qed.




Lemma valid_block_elim (s : state) (b : Z) :
  valid_block s b = true ->
  sentinel_start_at s b = SENTINEL_VALUE /\ sentinel_end_at s b = SENTINEL_VALUE /\
  footer_sentinel_at s b = FOOTER_SENTINEL /\ size_at s b <= HEAP_SIZE.
Proof.
  unfold valid_block, intact. intros H.
  apply andb_prop in H as [H H3]. apply andb_prop in H as [H H2].
  apply andb_prop in H as [H0 H1].
  apply Z.eqb_eq in H0, H1, H2. apply Z.leb_le in H3. auto.
Qed.

Lemma valid_block_intro (s : state) (b : Z) :
  sentinel_start_at s b = SENTINEL_VALUE -> sentinel_end_at s b = SENTINEL_VALUE ->
  footer_sentinel_at s b = FOOTER_SENTINEL -> size_at s b <= HEAP_SIZE ->
  valid_block s b = true.
Proof.
  unfold valid_block, intact. intros -> -> -> H.
  apply Z.leb_le in H. rewrite H. reflexivity.
Qed.

Lemma after_validate_block_valid (s : state) (b : Z) (location : string)
    (Q : unit -> state -> list diagnostic -> Prop) :
  0 < heap s -> readable s b -> valid_block s b = true ->
  Q tt s [] -> after (validate_block b location) s Q.
Proof.
  intros Hh Hr Hv HQ. apply after_validate_block_exact; [assumption..|].
  rewrite (proj2 (validate_report_nil s b location) Hv). exact HQ.
Qed.

Lemma set_region_set_region (m m' : gmap Z Z) (s : state) :
  set_region m (set_region m' s) = set_region m s.
Proof. reflexivity. Qed.

(** Stepping with the nested region updates collapsed. *)
Ltac cstep := step; rewrite ?set_region_set_region.
Ltac csteps := repeat cstep; cbv beta iota; proj.

Lemma split_state_facts (s : state) (b size : Z) :
  splittable s b size ->
  valid_block (split_state s b size) b = true /\
  size_at (split_state s b size) b = size /\
  free_at (split_state s b size) b = free_at s b /\
  footer_is (split_state s b size) (b + 64 + size) size (free_at s b) /\
  valid_block (split_state s b size) (b + 80 + size) = true /\
  size_at (split_state s b size) (b + 80 + size) = size_at s b - size - 80 /\
  free_at (split_state s b size) (b + 80 + size) = true /\
  request_size_at (split_state s b size) (b + 80 + size) = 0 /\
  prev_at (split_state s b size) (b + 80 + size) = NULL /\
  next_at (split_state s b size) (b + 80 + size)
    = head_of s (get_size_class (size_at s b - size - 80)) /\
  footer_is (split_state s b size) (footer_at s b) (size_at s b - size - 80) true /\
  (forall a w, b + sizeof_Block <= a -> a + Z.of_nat w <= b + sizeof_Block + size ->
     load_le (region (split_state s b size)) a w = load_le (region s) a w).
Proof.
  intros (Hads & Hlen & Hr & Hv & Hs0 & Hs1 & Hh & Hw).
  pose proof Hads as [Hh0 Hmax].
  destruct (valid_block_elim s b Hv) as (V1 & V2 & V3 & V4).
  pose proof (size_at_range s b) as Rsz.
  pose proof Hr as [Hr1 Hr2]. apply in_region_elim in Hr1 as (_ & Hr1 & Hr1').
  apply in_region_elim in Hr2 as (_ & Hr2 & Hr2').
  unfold footer_at in Hr2, Hr2'.
  unfold sentinel_start_at, sentinel_end_at, footer_sentinel_at in V1, V2, V3.
  unfold next_physical, footer_at in Hh.
  remember (size_at s b - size - 80) as rem eqn:Hrem.
  remember (head_of s (get_size_class rem)) as h eqn:Hhd.
  assert (Hcase : h = NULL \/ h <> NULL /\ heap s <= h /\ h + 64 <= heap s + HEAP_SIZE /\
            (h = b \/ h + 64 <= b \/ b + 64 + size_at s b + 16 <= h)).
  { destruct (Z.eq_dec h NULL) as [E|E]; [left; exact E|right].
    destruct Hh as [?|[Hhr Hhc]]; [contradiction|].
    apply in_region_elim in Hhr as (_ & Hhr & Hhr').
    unfold sizeof_Block, sizeof_BlockFooter in *. auto. }
  clear Hh.
  cut (let m := split_mem s b size in
       load_le m (b + off_sentinel_start) 4 = SENTINEL_VALUE /\
       load_le m (b + off_sentinel_end) 4 = SENTINEL_VALUE /\
       load_le m (b + off_size) 8 = size /\
       load_le m (b + off_free) 1 = load_le (region s) (b + off_free) 1 /\
       footer_is (set_region m s) (b + 64 + size) size (free_at s b) /\
       load_le m (b + 80 + size + off_sentinel_start) 4 = SENTINEL_VALUE /\
       load_le m (b + 80 + size + off_sentinel_end) 4 = SENTINEL_VALUE /\
       load_le m (b + 80 + size + off_size) 8 = rem /\
       load_le m (b + 80 + size + off_free) 1 = 1 /\
       load_le m (b + 80 + size + off_request_size) 4 = 0 /\
       load_le m (b + 80 + size + off_prev) 8 = NULL /\
       load_le m (b + 80 + size + off_next) 8 = h /\
       footer_is (set_region m s) (b + 64 + size_at s b) rem true /\
       (forall a w, b + sizeof_Block <= a -> a + Z.of_nat w <= b + sizeof_Block + size ->
          load_le m a w = load_le (region s) a w)).
  { cbv zeta. intros (M1 & M2 & M3 & M4 & M5 & M6 & M7 & M8 & M9 & M10 & M11 & M12 & M13 & M14).
    assert (Hsz' : size_at (split_state s b size) b = size) by exact M3.
    assert (Hsn : size_at (split_state s b size) (b + 80 + size) = rem) by exact M8.
    assert (Hfn : footer_at (split_state s b size) (b + 80 + size) = b + 64 + size_at s b).
    { unfold footer_at. rewrite Hsn. unfold sizeof_Block. lia. }
    split.
    { apply valid_block_intro; [exact M1 | exact M2 | | rewrite Hsz'; lia].
      unfold footer_sentinel_at, footer_at. rewrite Hsz'. apply M5. }
    split; [exact Hsz'|].
    split; [unfold free_at; f_equal; f_equal; exact M4|].
    split; [exact M5|].
    split.
    { apply valid_block_intro; [exact M6 | exact M7 | | rewrite Hsn; lia].
      unfold footer_sentinel_at. rewrite Hfn. apply M13. }
    split; [rewrite Hsn; reflexivity|].
    split; [unfold free_at; change (region (split_state s b size)) with (split_mem s b size);
            rewrite M9; reflexivity|].
    split; [exact M10|]. split; [exact M11|]. split; [exact M12|].
    split; [exact M13|]. exact M14. }
  unfold split_mem, push_links, write_footer, new_header, footer_is. rewrite <- Hrem, <- Hhd.
  cbv zeta. proj.
  destruct Hcase as [Eh|(Eh & Hh1 & Hh2 & Hhc)].
  - replace (h =? NULL) with true by (symmetry; apply Z.eqb_eq; exact Eh).
    repeat split.
    all: try (intros a w F1 F2).
    all: mem; try reflexivity; try assumption.
    all: destruct (free_at s b); mem; reflexivity.
  - replace (h =? NULL) with false by (symmetry; apply Z.eqb_neq; exact Eh).
    repeat split.
    all: try (intros a w F1 F2).
    all: mem; try reflexivity; try assumption.
    all: destruct (free_at s b); mem; reflexivity.
Qed.

Lemma after_split_block (s : state) (b size : Z)
    (Q : unit -> state -> list diagnostic -> Prop) :
  splittable s b size ->
  Q tt (split_state s b size) [] -> after (split_block b size) s Q.
Proof.
  intros Hsp HQ. pose proof Hsp as (Hads & Hlen & Hr & Hv & Hs0 & Hs1 & Hh & Hw).
  unfold split_state, split_mem in HQ. cbv zeta in HQ.
  assert (Hrem : wrap64 (size_at s b - size - sizeof_Block - sizeof_BlockFooter)
                 = size_at s b - size - 80).
  { pose proof (size_at_range s b).
    unfold wrap64, sizeof_Block, sizeof_BlockFooter. rewrite Z.mod_small; lia. }
  assert (Hge : (size_at s b - size - 80 <? MIN_BLOCK_SIZE + ALIGNMENT * 2) = false).
  { apply Z.ltb_ge. change (MIN_BLOCK_SIZE + ALIGNMENT * 2) with 112. lia. }
  remember (size_at s b - size - 80) as rem eqn:Erem.
  remember (head_of s (get_size_class rem)) as h eqn:Ehd.
  pose proof Hads as [Hh0 Hmax].
  destruct (valid_block_elim s b Hv) as (V1 & V2 & V3 & V4).
  pose proof (size_at_range s b) as Rsz.
  unfold split_block.
  apply after_bind. apply after_validate_block_valid; [assumption..|].
  unfold_fields. step. step. fold (size_at s b).
  rewrite Hrem, Hge.
  set (nb := b + sizeof_Block + size + sizeof_BlockFooter) in *.
  pose proof Hr as [Hr1 Hr2]. apply in_region_elim in Hr1 as (_ & Hr1 & Hr1').
  apply in_region_elim in Hr2 as (_ & Hr2 & Hr2').
  unfold footer_at in Hr2, Hr2'. unfold next_physical, footer_at in Hh.
  assert (Hnb : nb = b + 80 + size) by (unfold nb, sizeof_Block, sizeof_BlockFooter; lia).
  step. step.
  match goal with |- after _ ?s0 _ => set (s1 := s0) end.
  assert (Hsz1 : size_at s1 b = size).
  { unfold size_at, s1. proj. mem. reflexivity. }
  assert (Hfr1 : free_at s1 b = free_at s b).
  { unfold free_at, s1. proj. mem. reflexivity. }
  apply after_bind. apply after_set_block_footer_exact.
  { unfold readable, footer_at. rewrite Hsz1.
    split; apply in_region_intro; unfold s1; proj; layout_lia. }
  { unfold footer_at. rewrite Hsz1. unfold NULL, sizeof_Block. lia. }
  unfold footer_at. rewrite Hsz1, Hfr1. unfold s1. proj. clear s1 Hsz1 Hfr1.
  rewrite ?set_region_set_region.
  do 18 cstep. proj.
  unfold write_footer.
  match goal with |- after _ ?s0 _ => set (s5 := s0) end.
  assert (Hsz5 : size_at s5 nb = rem).
  { unfold size_at, s5. proj. mem. reflexivity. }
  assert (Hfr5 : free_at s5 nb = true).
  { unfold free_at, s5. proj. mem. reflexivity. }
  apply after_bind. apply after_set_block_footer_exact.
  { unfold readable, footer_at. rewrite Hsz5.
    split; apply in_region_intro; unfold s5; proj; layout_lia. }
  { unfold footer_at. rewrite Hsz5. unfold NULL, sizeof_Block. lia. }
  unfold footer_at. rewrite Hsz5, Hfr5. unfold s5. proj. clear s5 Hsz5 Hfr5.
  rewrite ?set_region_set_region.
  match goal with |- after _ ?s0 _ => set (s6 := s0) end.
  assert (Hsz6 : size_at s6 nb = rem).
  { unfold size_at, s6. proj. mem. reflexivity. }
  apply after_bind. apply after_add_to_free_list.
  { unfold NULL. lia. }
  { apply in_region_intro; unfold s6; proj; layout_lia. }
  { exact Hads. }
  { exact Hlen. }
  { rewrite Hsz6. change (head_of s6 (get_size_class rem)) with (head_of s (get_size_class rem)).
    rewrite <- Ehd. destruct Hh as [Hh|[Hh1 Hh2]]; [left; exact Hh|right].
    split; [exact Hh1|]. unfold apart.
    apply in_region_elim in Hh1. unfold sizeof_Block, sizeof_BlockFooter in *. lia. }
  { rewrite Hsz6. change (head_of s6 (get_size_class rem)) with (head_of s (get_size_class rem)).
    rewrite <- Ehd. rewrite Hnb.
    destruct Hw as [Hw|[Hw|Hw]]; auto. }
  cbv zeta. rewrite Hsz6.
  change (head_of s6 (get_size_class rem)) with (head_of s (get_size_class rem)).
  rewrite <- Ehd. unfold s6. proj. clear s6 Hsz6.
  rewrite ?set_region_set_region.
  cstep. cstep. proj.
  pose proof (split_state_facts s b size Hsp) as (F1 & F2 & _ & _ & F5 & F6 & _).
  subst h rem.
  match goal with |- after ?m ?S ?Q0 => change (after m (split_state s b size) Q0) end.
  assert (Hrb : readable (split_state s b size) b).
  { unfold readable, footer_at. rewrite F2.
    split; apply in_region_intro; unfold split_state; proj; layout_lia. }
  assert (Hrn : readable (split_state s b size) nb).
  { unfold readable, footer_at. rewrite Hnb, F6.
    split; apply in_region_intro; unfold split_state; proj; layout_lia. }
  apply after_bind. apply after_validate_block_valid; [exact Hh0 | exact Hrb | exact F1 |].
  apply after_validate_block_valid; [exact Hh0 | exact Hrn | rewrite Hnb; exact F5 |].
  exact HQ.
Qed.

(** X18.  When [split_block b size] splits, the two blocks tile the span of
    the old one: [b] keeps its header and free flag with size [size] and a
    footer of its own, the remainder starts right behind it with size
    [old - size - 80], is valid, free and heads the bucket of its size, its
    footer lies where the old footer was, and the block after it is the
    block that came after [b].  [free_blocks] grows by one, nothing is
    printed, and the first [size] payload bytes of [b] are untouched. *)
Theorem split_block_tiles (s : state) (b size : Z) :
  splittable s b size ->
  after (split_block b size) s (fun _ s' err =>
    err = [] /\
    valid_block s' b = true /\ size_at s' b = size /\ free_at s' b = free_at s b /\
    footer_is s' (footer_at s' b) size (free_at s b) /\
    next_physical s' b = b + 80 + size /\
    valid_block s' (b + 80 + size) = true /\
    size_at s' (b + 80 + size) = size_at s b - size - 80 /\
    free_at s' (b + 80 + size) = true /\
    request_size_at s' (b + 80 + size) = 0 /\
    prev_at s' (b + 80 + size) = NULL /\
    next_at s' (b + 80 + size) = head_of s (get_size_class (size_at s b - size - 80)) /\
    footer_is s' (footer_at s' (b + 80 + size)) (size_at s b - size - 80) true /\
    next_physical s' (b + 80 + size) = next_physical s b /\
    free_lists s'
      = <[get_size_class (size_at s b - size - 80) := b + 80 + size]> (free_lists s) /\
    stats s' = set_free_blocks (wrap64 (free_blocks (stats s) + 1)) (stats s) /\
    heap s' = heap s /\ used_list s' = used_list s /\
    (forall a w, b + sizeof_Block <= a -> a + Z.of_nat w <= b + sizeof_Block + size ->
       load_le (region s') a w = load_le (region s) a w)).
Proof.
  intros Hsp. apply after_split_block; [exact Hsp|].
  destruct (split_state_facts s b size Hsp)
    as (F1 & F2 & F3 & F4 & F5 & F6 & F7 & F8 & F9 & F10 & F11 & F12).
  assert (Hnb : b + sizeof_Block + size + sizeof_BlockFooter = b + 80 + size)
    by (unfold sizeof_Block, sizeof_BlockFooter; lia).
  split; [reflexivity|]. split; [exact F1|]. split; [exact F2|]. split; [exact F3|].
  split; [unfold footer_at; rewrite F2; exact F4|].
  split; [unfold next_physical; rewrite F2; unfold sizeof_Block, sizeof_BlockFooter; lia|].
  split; [exact F5|]. split; [exact F6|]. split; [exact F7|]. split; [exact F8|].
  split; [exact F9|]. split; [exact F10|].
  split.
  { replace (footer_at (split_state s b size) (b + 80 + size)) with (footer_at s b);
      [exact F11|].
    unfold footer_at. rewrite F6. unfold sizeof_Block. lia. }
  split; [unfold next_physical; rewrite F6; unfold sizeof_Block, sizeof_BlockFooter; lia|].
  split; [unfold split_state; proj; rewrite Hnb; reflexivity|].
  split; [reflexivity|]. split; [reflexivity|]. split; [reflexivity|].
  exact F12.
Qed.

Lemma split_block_small_run (s : state) (b size : Z) :
  0 < heap s -> readable s b ->
  size + 80 <= size_at s b -> size_at s b < size + 192 ->
  split_block b size s = Ok tt s (validate_report s b "split_block_before").
Proof.
  intros Hh Hr H1 H2. pose proof (size_at_range s b) as Rsz.
  cut (after (split_block b size) s (fun _ s' err =>
         s' = s /\ err = validate_report s b "split_block_before")).
  { intros H. apply after_ok in H as ([] & s' & e & Heq & -> & ->). exact Heq. }
  unfold split_block. apply after_bind.
  apply after_validate_block_exact; [assumption..|].
  unfold_fields. step. step. fold (size_at s b).
  assert (Hrem : wrap64 (size_at s b - size - sizeof_Block - sizeof_BlockFooter)
                 = size_at s b - size - 80).
  { unfold wrap64, sizeof_Block, sizeof_BlockFooter. rewrite Z.mod_small; lia. }
  rewrite Hrem.
  assert (Hlt : (size_at s b - size - 80 <? MIN_BLOCK_SIZE + ALIGNMENT * 2) = true).
  { apply Z.ltb_lt. change (MIN_BLOCK_SIZE + ALIGNMENT * 2) with 112. lia. }
  rewrite Hlt. step. split; [reflexivity|]. rewrite !app_nil_r. reflexivity.
Qed.

(** X19.  [split_block] does not split when fewer than 192 bytes are spare:
    with [size + 80 <= old size < size + 192] (the callers guarantee the
    first bound) the state is unchanged and only the entry check may
    print, so such a block is handed out whole. *)
Theorem split_block_keeps_small_remainders (s : state) (b size : Z) :
  0 < heap s -> readable s b ->
  size + 80 <= size_at s b -> size_at s b < size + 192 ->
  split_block b size s = Ok tt s (validate_report s b "split_block_before").
Proof. exact (split_block_small_run s b size). Qed.

Lemma coalesced_addressable : addressable coalesced.
Proof. split; vm_compute; [reflexivity | discriminate]. Defined.

Lemma remove_from_free_list_by_current_size_witness :
  65536 <> NULL /\ in_region coalesced 65536 sizeof_Block = true /\
  neighbour coalesced 65536 (prev_at coalesced 65536) /\
  neighbour coalesced 65536 (next_at coalesced 65536) /\
  (prev_at coalesced 65536 = next_at coalesced 65536 \/
   apart (prev_at coalesced 65536) (next_at coalesced 65536)) /\
  head_of coalesced 1 = 65536 /\ get_size_class (size_at coalesced 65536) = 7%nat /\
  exists s', remove_from_free_list 65536 coalesced = Ok tt s' [] /\
             head_of s' 1 = 65536.
Proof.
  assert (H1 : 65536 <> NULL) by discriminate.
  assert (H2 : in_region coalesced 65536 sizeof_Block = true) by (vm_compute; reflexivity).
  assert (H3 : neighbour coalesced 65536 (prev_at coalesced 65536))
    by (left; vm_compute; reflexivity).
  assert (H4 : neighbour coalesced 65536 (next_at coalesced 65536))
    by (left; vm_compute; reflexivity).
  assert (H5 : prev_at coalesced 65536 = next_at coalesced 65536 \/
               apart (prev_at coalesced 65536) (next_at coalesced 65536))
    by (left; vm_compute; reflexivity).
  assert (H6 : head_of coalesced 1 = 65536) by (vm_compute; reflexivity).
  assert (H7 : get_size_class (size_at coalesced 65536) = 7%nat) by (vm_compute; reflexivity).
  split; [exact H1|]. split; [exact H2|]. split; [exact H3|]. split; [exact H4|].
  split; [exact H5|]. split; [exact H6|]. split; [exact H7|].
  pose proof (remove_from_free_list_by_current_size coalesced 65536 H1 H2 H3 H4 H5) as H.
  destruct (proj1 (after_ok _ _ _) H) as ([] & s' & err & Heq & Herr & _ & Hother & _).
  rewrite Herr in Heq. exists s'. split; [exact Heq|].
  rewrite (Hother 1%nat); [exact H6|]. rewrite H7. discriminate.
Defined.

Lemma add_to_free_list_pushes_witness :
  65536 <> NULL /\ in_region coalesced 65536 sizeof_Block = true /\
  addressable coalesced /\ length (free_lists coalesced) = NUM_SIZE_CLASSES /\
  neighbour coalesced 65536 (head_of coalesced (get_size_class (size_at coalesced 65536))) /\
  ((4 <= get_size_class (size_at coalesced 65536))%nat \/
   head_of coalesced (get_size_class (size_at coalesced 65536)) = NULL \/
   65536 < head_of coalesced (get_size_class (size_at coalesced 65536))) /\
  exists s', add_to_free_list 65536 coalesced = Ok tt s' [] /\
             head_of s' (get_size_class (size_at coalesced 65536)) = 65536.
Proof.
  assert (H1 : 65536 <> NULL) by discriminate.
  assert (H2 : in_region coalesced 65536 sizeof_Block = true) by (vm_compute; reflexivity).
  assert (H3 : length (free_lists coalesced) = NUM_SIZE_CLASSES) by (vm_compute; reflexivity).
  assert (H4 : neighbour coalesced 65536
                 (head_of coalesced (get_size_class (size_at coalesced 65536))))
    by (left; vm_compute; reflexivity).
  assert (H5 : (4 <= get_size_class (size_at coalesced 65536))%nat \/
               head_of coalesced (get_size_class (size_at coalesced 65536)) = NULL \/
               65536 < head_of coalesced (get_size_class (size_at coalesced 65536)))
    by (right; left; vm_compute; reflexivity).
  split; [exact H1|]. split; [exact H2|]. split; [exact coalesced_addressable|].
  split; [exact H3|]. split; [exact H4|]. split; [exact H5|].
  pose proof (add_to_free_list_pushes coalesced 65536 H1 H2 coalesced_addressable H3 H4 H5)
    as H.
  destruct (proj1 (after_ok _ _ _) H) as ([] & s' & err & Heq & Herr & _ & Hhead & _).
  rewrite Herr in Heq. exists s'. split; [exact Heq | exact Hhead].
Defined.

Lemma used_list_push_pop_witness :
  65536 <> NULL /\ in_region coalesced 65536 sizeof_Block = true /\
  addressable coalesced /\ neighbour coalesced 65536 (used_list coalesced) /\
  exists s', (add_to_used_list 65536;; remove_from_used_list 65536) coalesced = Ok tt s' [] /\
             free_at s' 65536 = false.
Proof.
  assert (H1 : 65536 <> NULL) by discriminate.
  assert (H2 : in_region coalesced 65536 sizeof_Block = true) by (vm_compute; reflexivity).
  assert (H3 : neighbour coalesced 65536 (used_list coalesced))
    by (left; vm_compute; reflexivity).
  split; [exact H1|]. split; [exact H2|]. split; [exact coalesced_addressable|].
  split; [exact H3|].
  pose proof (used_list_push_pop coalesced 65536 H1 H2 coalesced_addressable H3) as H.
  destruct (proj1 (after_ok _ _ _) H) as ([] & s' & err & Heq & Herr & _ & Hfree & _).
  rewrite Herr in Heq. exists s'. split; [exact Heq | exact Hfree].
Defined.

Lemma coalesced_splittable : splittable coalesced 65536 48.
Proof.
  split; [exact coalesced_addressable|].
  split; [vm_compute; reflexivity|].
  split; [split; vm_compute; reflexivity|].
  split; [vm_compute; reflexivity|].
  split; [discriminate|].
  split; [vm_compute; discriminate|].
  split; [left; vm_compute; reflexivity|].
  right; left; vm_compute; reflexivity.
Defined.

Lemma split_block_tiles_witness :
  splittable coalesced 65536 48 /\
  exists s', split_block 65536 48 coalesced = Ok tt s' [] /\
             size_at s' 65536 = 48 /\ next_physical s' 65536 = 65664 /\
             next_physical s' 65664 = next_physical coalesced 65536.
Proof.
  split; [exact coalesced_splittable|].
  pose proof (split_block_tiles coalesced 65536 48 coalesced_splittable) as H.
  destruct (proj1 (after_ok _ _ _) H)
    as ([] & s' & err & Heq & Herr & _ & Hsz & _ & _ & Hnp & _ & _ & _ & _ & _ & _ & _ & Hnp' & _).
  rewrite Herr in Heq. exists s'.
  split; [exact Heq|]. split; [exact Hsz|]. split; [exact Hnp | exact Hnp'].
Defined.

Lemma split_block_keeps_small_remainders_witness :
  0 < heap two_free /\ readable two_free 65536 /\
  100 + 80 <= size_at two_free 65536 /\ size_at two_free 65536 < 100 + 192 /\
  split_block 65536 100 two_free
  = Ok tt two_free (validate_report two_free 65536 "split_block_before").
Proof.
  assert (H1 : 0 < heap two_free) by (vm_compute; reflexivity).
  assert (H2 : readable two_free 65536) by (split; vm_compute; reflexivity).
  assert (H3 : 100 + 80 <= size_at two_free 65536) by (vm_compute; discriminate).
  assert (H4 : size_at two_free 65536 < 100 + 192) by (vm_compute; reflexivity).
  split; [exact H1|]. split; [exact H2|]. split; [exact H3|]. split; [exact H4|].
  exact (split_block_keeps_small_remainders two_free 65536 100 H1 H2 H3 H4).
Defined.

(** ** Whole calls: wild pointers, reallocation in place, the first allocation *)

Lemma outside_region (s : state) (b off w : Z) :
  b + sizeof_Block <= heap s \/ heap s + HEAP_SIZE <= b ->
  0 <= off -> 0 < w -> off + w <= sizeof_Block ->
  in_region s (b + off) w = false.
Proof.
  intros H H0 H1 H2. unfold in_region.
  destruct (heap s =? NULL); [reflexivity|]. cbn [negb andb].
  destruct H as [H|H].
  - replace (heap s <=? b + off) with false; [reflexivity|].
    symmetry. apply Z.leb_gt. lia.
  - replace (b + off + w <=? heap s + HEAP_SIZE) with false; [apply andb_false_r|].
    symmetry. apply Z.leb_gt. lia.
Qed.

(** X20.  The entry points take any non-null pointer on trust.  Once the
    allocator is initialised, [my_malloc_size], [my_free] and
    [my_realloc_internal], given a pointer whose would-be header lies
    outside the region, read that header all the same: the bounds test of
    [validate_block] comes after the first read or only prints, so the call
    has no defined result. *)
Theorem wild_pointer_is_dereferenced (h : host) (s : state) (ptr size : Z)
    (file : string) (line : Z) :
  initialized s = true -> ptr <> NULL ->
  header_of ptr + sizeof_Block <= heap s \/ heap s + HEAP_SIZE <= header_of ptr ->
  my_malloc_size ptr s = Undefined /\
  my_free h ptr s = Undefined /\
  my_realloc_internal h ptr size file line s = Undefined.
Proof.
  intros Hi Hp Hout. apply Z.eqb_neq in Hp.
  assert (Hs : my_malloc_size ptr s = Undefined).
  { unfold my_malloc_size. apply (bind_ok _ _ s s s []); [reflexivity|].
    rewrite Hp, Hi. cbn [negb orb]. apply bind_undefined.
    apply load_outside. apply outside_region; [exact Hout|..]; vm_compute; first [reflexivity | discriminate]. }
  assert (Hf : my_free h ptr s = Undefined).
  { unfold my_free. apply (bind_ok _ _ s s s []); [reflexivity|].
    rewrite Hi. cbn [negb when]. apply (bind_ok _ _ s s tt []); [reflexivity|].
    rewrite Hp. apply (bind_ok _ _ s s tt []); [reflexivity|].
    fold (header_of ptr).
    assert (Hv : exists e, validate_block (header_of ptr) "my_free" s = Ok tt s e).
    { unfold validate_block. destruct (header_of ptr =? NULL); [eexists; reflexivity|].
      unfold mbind at 1. unfold M_bind, get.
      replace ((header_of ptr <? heap s) || (heap s + HEAP_SIZE <=? header_of ptr))
        with true; [eexists; reflexivity|].
      symmetry. apply orb_true_iff. unfold sizeof_Block in Hout.
      destruct Hout; [left; apply Z.ltb_lt|right; apply Z.leb_le]; lia. }
    destruct Hv as [e Hv]. apply (bind_ok _ _ s s tt e); [exact Hv|].
    apply bind_undefined. unfold get_free, load_bool. apply bind_undefined.
    apply load_outside. apply outside_region; [exact Hout|..]; vm_compute; first [reflexivity | discriminate]. }
  split; [exact Hs|]. split; [exact Hf|].
  unfold my_realloc_internal. rewrite Hp.
  destruct (size =? 0).
  - apply bind_undefined. exact Hf.
  - apply bind_undefined. exact Hs.
Qed.

Lemma wild_pointer_is_dereferenced_witness :
  initialized coalesced = true /\ 16 <> NULL /\
  (header_of 16 + sizeof_Block <= heap coalesced \/
   heap coalesced + HEAP_SIZE <= header_of 16) /\
  my_malloc_size 16 coalesced = Undefined /\
  my_free host0 16 coalesced = Undefined /\
  my_realloc_internal host0 16 8 "client.c" 1 coalesced = Undefined.
Proof.
  assert (H1 : initialized coalesced = true) by (vm_compute; reflexivity).
  assert (H2 : 16 <> NULL) by discriminate.
  assert (H3 : header_of 16 + sizeof_Block <= heap coalesced \/
               heap coalesced + HEAP_SIZE <= header_of 16)
    by (left; vm_compute; discriminate).
  split; [exact H1|]. split; [exact H2|]. split; [exact H3|].
  exact (wild_pointer_is_dereferenced host0 coalesced 16 8 "client.c" 1 H1 H2 H3).
Defined.

Lemma byte_at_load_le_frame (m m' : gmap Z Z) (x : Z) :
  load_le m' x 1 = load_le m x 1 -> byte_at m' x = byte_at m x.
Proof. rewrite !load_le_1. auto. Qed.

(** X21.  [my_realloc_internal] keeps a live block in place when the new
    size fits it and fewer than 192 bytes would be spare: it returns the
    same pointer, prints nothing, changes only the region, records the new
    request size (so [my_malloc_size] answers it), writes both guard bands
    for the new size, keeps the block size, and leaves the first [size]
    payload bytes as they were. *)
Theorem realloc_in_place (h : host) (s : state) (ptr size : Z) (file : string) (line : Z) :
  initialized s = true -> 0 < heap s ->
  readable s (header_of ptr) -> valid_block s (header_of ptr) = true ->
  free_at s (header_of ptr) = false -> request_size_at s (header_of ptr) <> 0 ->
  0 < size < 2 ^ 32 ->
  ALIGN (size + 32) <= size_at s (header_of ptr) ->
  size_at s (header_of ptr) < ALIGN (size + 32) + 192 ->
  after (my_realloc_internal h ptr size file line) s (fun r s' err =>
    r = ptr /\ err = [] /\
    (exists m', s' = set_region m' s) /\
    my_malloc_size ptr s' = Ok size s' [] /\
    guards_ok s' ptr size = true /\
    size_at s' (header_of ptr) = size_at s (header_of ptr) /\
    (forall x, ptr <= x < ptr + size -> byte_at (region s') x = byte_at (region s) x)).
Proof.
  intros Hi Hh Hr Hv Hfr Hrq Hsize Hfit Hspare.
  destruct (valid_block_elim s _ Hv) as (V1 & V2 & V3 & V4).
  pose proof (size_at_range s (header_of ptr)) as Rsz.
  assert (Hptr : ptr <> NULL).
  { destruct Hr as [H1 _]. apply in_region_elim in H1. unfold header_of, ALIGNMENT, sizeof_Block, NULL in *. lia. }
  assert (Hal : ALIGN (size + 32) = (size + 32 + 15) / 16 * 16).
  { apply ALIGN_small. lia. }
  assert (Hal' : size + 32 <= ALIGN (size + 32)).
  { rewrite Hal. pose proof (Z.div_mod (size + 32 + 15) 16 ltac:(lia)).
    pose proof (Z.mod_pos_bound (size + 32 + 15) 16 ltac:(lia)). lia. }
  unfold my_realloc_internal.
  apply Z.eqb_neq in Hptr as Hp'. rewrite Hp'.
  assert (Hs0 : (size =? 0) = false) by (apply Z.eqb_neq; lia). rewrite Hs0.
  destruct (my_malloc_size_run s ptr) as [_ Hms].
  destruct (Hms Hptr Hi (proj1 Hr)) as [Hms1 Hms2].
  assert (Hint : intact s (header_of ptr) = true).
  { unfold intact. rewrite V1, V2. reflexivity. }
  rewrite Hint, Hfr in Hms1. cbn [negb andb] in Hms1.
  apply after_bind. apply (after_eq _ _ _ _ _ _ Hms1).
  apply Z.eqb_neq in Hrq. rewrite Hrq.
  cbv zeta. fold (header_of ptr).
  replace (wrap64 (size + ALIGNMENT * 2)) with (size + 32)
    by (unfold wrap64, ALIGNMENT; rewrite Z.mod_small; lia).
  remember (ALIGN (size + 32)) as req eqn:Ereq.
  remember (header_of ptr) as b eqn:Eb.
  unfold_fields. step. step. fold (size_at s b).
  replace (req <=? size_at s b) with true by (symmetry; apply Z.leb_le; lia).
  step. step. fold (size_at s b).
  pose proof Hr as [Hr1 Hr2]. apply in_region_elim in Hr1 as (_ & Hr1 & Hr1').
  apply in_region_elim in Hr2 as (_ & Hr2 & Hr2'). unfold footer_at in Hr2, Hr2'.
  assert (Hstage : forall Q : unit -> state -> list diagnostic -> Prop,
    (forall m1,
       (forall a w, a + Z.of_nat w <= footer_at s b \/ footer_at s b + sizeof_BlockFooter <= a ->
                    load_le m1 a w = load_le (region s) a w) ->
       Q tt (set_region m1 s) []) ->
    after (when (wrap64 (req + MIN_BLOCK_SIZE) <=? size_at s b)
             (split_block b req;; set_block_footer b)) s Q).
  { intros Q HQ. unfold when.
    replace (wrap64 (req + MIN_BLOCK_SIZE)) with (req + 80)
      by (unfold wrap64; change MIN_BLOCK_SIZE with 80; unfold HEAP_SIZE in V4;
          rewrite Z.mod_small; lia).
    destruct (Z.leb_spec (req + 80) (size_at s b)) as [E|E].
    - apply after_bind.
      apply (after_eq _ _ _ _ _ _ (split_block_small_run s b req Hh Hr E Hspare)).
      rewrite (proj2 (validate_report_nil s b "split_block_before") Hv).
      apply after_set_block_footer; [exact Hr|]. exact HQ.
    - step. rewrite <- (set_region_same s). apply HQ. reflexivity. }
  apply after_bind. apply Hstage. intros m1 Hm1. unfold footer_at in Hm1.
  assert (Eptr : ptr = b + 80).
  { rewrite Eb. unfold header_of, ALIGNMENT, sizeof_Block. lia. }
  step. step. proj.
  rewrite ?set_region_set_region.
  apply after_bind. unfold add_guard_bytes.
  apply after_bind, after_fill.
  { apply in_region_intro; proj; try (unfold NULL; lia); rewrite Eptr;
      unfold ALIGNMENT, sizeof_Block, sizeof_BlockFooter in *;
      change (Z.of_nat (Z.to_nat 16)) with 16; lia. }
  apply after_fill.
  { apply in_region_intro; proj; try (unfold NULL; lia); rewrite Eptr;
      unfold ALIGNMENT, sizeof_Block, sizeof_BlockFooter in *;
      change (Z.of_nat (Z.to_nat 16)) with 16; lia. }
  step. proj. rewrite ?set_region_set_region.
  match goal with |- _ /\ _ /\ (exists m', set_region ?M _ = _) /\ _ => set (m2 := M) end.
  assert (Hb : forall x, byte_at m2 x =
             if decide (ptr + size <= x < ptr + size + 16) then GUARD_VALUE
             else if decide (ptr - 16 <= x < ptr - 16 + 16) then GUARD_VALUE
             else byte_at (store_le m1 (b + off_request_size) 4 size) x).
  { intros x. unfold m2. rewrite !byte_at_fill_mem. reflexivity. }
  assert (Hl : forall a w, a + Z.of_nat w <= b + 64 ->
             load_le m2 a w = load_le (store_le m1 (b + off_request_size) 4 size) a w).
  { intros a w Ha. unfold m2.
    rewrite !load_le_fill_mem_other; [reflexivity| |];
      unfold ALIGNMENT; change (Z.of_nat (Z.to_nat 16)) with 16; lia. }
  assert (Hhdr : forall off w, 0 <= off -> off + Z.of_nat w <= 64 ->
             (off + Z.of_nat w <= 40 \/ 44 <= off) ->
             load_le m2 (b + off) w = load_le (region s) (b + off) w).
  { intros off w H0 H1 H2. rewrite Hl by lia.
    rewrite load_le_store_le_other by layout_lia.
    apply Hm1. left. unfold sizeof_Block. lia. }
  assert (Hrq2 : load_le m2 (b + off_request_size) 4 = size).
  { rewrite Hl by layout_lia. apply load_le_store_le_eq.
    change (256 ^ Z.of_nat 4) with (2 ^ 32). lia. }
  split; [reflexivity|]. split; [reflexivity|]. split; [eexists; reflexivity|].
  split.
  { destruct (my_malloc_size_run (set_region m2 s) ptr) as [_ Hms'].
    destruct (Hms' Hptr Hi) as [Hms3 _].
    { rewrite <- Eb. apply in_region_intro; proj; unfold NULL, sizeof_Block in *; lia. }
    rewrite Hms3. rewrite <- Eb. f_equal.
    unfold intact, sentinel_start_at, sentinel_end_at, free_at, request_size_at. proj.
    rewrite (Hhdr off_sentinel_start 4%nat), (Hhdr off_sentinel_end 4%nat),
      (Hhdr off_free 1%nat), Hrq2
      by (unfold_layout; cbn; lia).
    unfold sentinel_start_at, sentinel_end_at in V1, V2. rewrite V1, V2.
    unfold free_at in Hfr. rewrite Hfr. reflexivity. }
  split.
  { unfold guards_ok. apply andb_true_intro. split;
      apply forallb_bytes_at; intros x Hx; proj; rewrite Hb; unfold ALIGNMENT in *;
      change (Z.of_nat (Z.to_nat 16)) with 16 in Hx;
      repeat destruct (decide _); try reflexivity; lia. }
  split.
  { unfold size_at. proj. rewrite (Hhdr off_size 8%nat) by (unfold_layout; cbn; lia).
    reflexivity. }
  intros x Hx. rewrite Hb. unfold ALIGNMENT in *.
  repeat destruct (decide _); try lia.
  rewrite <- !load_le_1. rewrite load_le_store_le_other by layout_lia.
  apply Hm1. left. unfold sizeof_Block. change (Z.of_nat 1) with 1. lia.
Qed.

Lemma realloc_in_place_witness :
  initialized (final_state split_client) = true /\ 0 < heap (final_state split_client) /\
  readable (final_state split_client) (header_of 65616) /\
  valid_block (final_state split_client) (header_of 65616) = true /\
  free_at (final_state split_client) (header_of 65616) = false /\
  request_size_at (final_state split_client) (header_of 65616) <> 0 /\
  0 < 10 < 2 ^ 32 /\
  ALIGN (10 + 32) <= size_at (final_state split_client) (header_of 65616) /\
  size_at (final_state split_client) (header_of 65616) < ALIGN (10 + 32) + 192 /\
  exists s', my_realloc_internal host0 65616 10 "client.c" 2 (final_state split_client)
             = Ok 65616 s' [] /\
             my_malloc_size 65616 s' = Ok 10 s' [].
Proof.
  assert (H1 : initialized (final_state split_client) = true) by (vm_compute; reflexivity).
  assert (H2 : 0 < heap (final_state split_client)) by (vm_compute; reflexivity).
  assert (H3 : readable (final_state split_client) (header_of 65616))
    by (split; vm_compute; reflexivity).
  assert (H4 : valid_block (final_state split_client) (header_of 65616) = true)
    by (vm_compute; reflexivity).
  assert (H5 : free_at (final_state split_client) (header_of 65616) = false)
    by (vm_compute; reflexivity).
  assert (H6 : request_size_at (final_state split_client) (header_of 65616) <> 0)
    by (vm_compute; discriminate).
  assert (H7 : 0 < 10 < 2 ^ 32) by (split; reflexivity).
  assert (H8 : ALIGN (10 + 32) <= size_at (final_state split_client) (header_of 65616))
    by (vm_compute; discriminate).
  assert (H9 : size_at (final_state split_client) (header_of 65616) < ALIGN (10 + 32) + 192)
    by (vm_compute; reflexivity).
  split; [exact H1|]. split; [exact H2|]. split; [exact H3|]. split; [exact H4|].
  split; [exact H5|]. split; [exact H6|]. split; [exact H7|]. split; [exact H8|].
  split; [exact H9|].
  pose proof (realloc_in_place host0 (final_state split_client) 65616 10 "client.c" 2
                H1 H2 H3 H4 H5 H6 H7 H8 H9) as H.
  destruct (proj1 (after_ok _ _ _) H) as (r & s' & err & Heq & Hr & Herr & _ & Hms & _).
  rewrite Hr, Herr in Heq.
  exists s'. split; [exact Heq | exact Hms].
Defined.

(** The scan of a bucket of valid blocks prints nothing. *)
Lemma after_best_fit_walk_valid (s : state) (size : Z) (b : Z) (l : list Z) :
  0 < heap s -> chain s b l -> Forall (fun x => valid_block s x = true) l ->
  forall (fuel : nat) (best_fit smallest_diff : Z)
         (Q : Z -> state -> list diagnostic -> Prop),
  (length l < fuel)%nat ->
  Q (best_fit_of s size l best_fit smallest_diff) s [] ->
  after (best_fit_walk fuel size b best_fit smallest_diff) s Q.
Proof.
  intros Hh Hc. induction Hc as [|b l Hb Hr Hc IH];
    intros Hv fuel best_fit smallest_diff Q Hlen HQ;
    (destruct fuel as [|fuel]; [cbn in Hlen; lia|]); cbn [best_fit_walk].
  - change (NULL =? NULL) with true. step. exact HQ.
  - apply Z.eqb_neq in Hb as Hb'. rewrite Hb'.
    apply Forall_cons in Hv as [Hvb Hv].
    cbn [length] in Hlen. cbn [best_fit_of] in HQ. unfold fits in HQ.
    step. apply after_validate_block_valid; [assumption..|].
    unfold_fields. steps.
    fold (free_at s b).
    destruct (free_at s b); steps.
    + fold (size_at s b).
      destruct (size <=? size_at s b); cbn [andb] in HQ; steps.
      * fold (size_at s b).
        destruct (size_at s b - size =? 0); [step; exact HQ|].
        destruct (size_at s b - size <? smallest_diff); steps;
          fold (next_at s b); (apply IH; [assumption | lia | exact HQ]).
      * fold (next_at s b). apply IH; [assumption | lia | exact HQ].
    + cbn [andb] in HQ. fold (next_at s b). apply IH; [assumption | lia | exact HQ].
Qed.

Lemma after_find_best_fit_block_valid (s : state) (size : Z) (l : list Z)
    (Q : Z -> state -> list diagnostic -> Prop) :
  0 < heap s ->
  chain s (head_of s (get_size_class size)) l ->
  Forall (fun x => valid_block s x = true) l ->
  Q (placement s size l) s [] ->
  after (find_best_fit_block size) s Q.
Proof.
  intros Hh Hc Hv HQ. unfold find_best_fit_block. step. step. step.
  apply (after_best_fit_walk_valid s size _ l Hh Hc Hv); [eapply chain_length; eassumption|].
  unfold placement in HQ. cbv zeta in HQ.
  destruct (negb (best_fit_of s size l NULL SIZE_MAX =? NULL)); step; exact HQ.
Qed.

Lemma after_update_fragmentation_stats (s : state) (buckets : list (list Z))
    (Q : unit -> state -> list diagnostic -> Prop) :
  Forall2 (fun i l => chain s (head_of s i) l) (seq 0 NUM_SIZE_CLASSES) buckets ->
  (forall c L M,
     c = Z.of_nat (length (concat buckets)) ->
     (forall b, In b (concat buckets) -> M <= size_at s b <= L) ->
     (concat buckets = [] -> L = 0 /\ M = 0) ->
     (concat buckets <> [] ->
      (exists b, In b (concat buckets) /\ size_at s b = L) /\
      (exists b, In b (concat buckets) /\ size_at s b = M)) ->
     Q tt (set_stats (with_fragmentation c L M (stats s)) s) []) ->
  after update_fragmentation_stats s Q.
Proof.
  intros Hb HQ.
  apply (after_mono _ _ _ _ (update_fragmentation_stats_run s buckets Hb)).
  intros [] s' e (-> & Hs' & Hc & Hall & Hnil & Hsome).
  rewrite Hs'. apply HQ; assumption.
Qed.

Lemma after_memset (p v n : Z) (s : state) (Q : unit -> state -> list diagnostic -> Prop) :
  0 < n -> in_region s p n = true ->
  Q tt (set_region (fill_mem (region s) p (Z.to_nat n) v) s) [] ->
  after (memset p v n) s Q.
Proof.
  intros Hn Hr HQ.
  assert (H : after (fill p (Z.to_nat n) v) s Q).
  { apply after_fill; [rewrite Z2Nat.id by lia; exact Hr | exact HQ]. }
  unfold after in *. unfold memset.
  replace (n =? 0) with false by (symmetry; apply Z.eqb_neq; lia).
  rewrite Hr. exact H.
Qed.

Ltac snorm :=
  cbn [stats allocated_bytes free_bytes allocated_blocks free_blocks total_allocations
       total_frees failed_allocations fragmentation_count largest_free_block
       smallest_free_block total_alloc_time total_free_time requested_bytes overhead_bytes
       class_usage set_allocated_bytes set_free_bytes set_allocated_blocks set_free_blocks
       set_total_allocations set_total_frees set_failed_allocations
       set_total_alloc_time set_total_free_time set_requested_bytes set_overhead_bytes
       set_class_usage].

Lemma set_stats_set_region (t : AllocStats) (m : gmap Z Z) (s : state) :
  set_region m (set_stats t s) = set_stats t (set_region m s).
Proof. reflexivity. Qed.

Lemma state_eta (s : state) :
  s = mkState (heap s) (region s) (free_lists s) (used_list s) (initialized s)
        (next_alloc_id s) (allocation_records s) (stats s).
Proof. destruct s. reflexivity. Qed.

(** The state of the goal as a record of its fields. *)
Ltac canon :=
  match goal with |- after _ ?S _ => rewrite (state_eta S) at 1; proj end.

Lemma stats_eta (t : AllocStats) :
  t = mkStats (allocated_bytes t) (free_bytes t) (allocated_blocks t) (free_blocks t)
        (total_allocations t) (total_frees t) (failed_allocations t)
        (fragmentation_count t) (largest_free_block t) (smallest_free_block t)
        (total_alloc_time t) (total_free_time t) (requested_bytes t) (overhead_bytes t)
        (class_usage t).
Proof. destruct t. reflexivity. Qed.

Ltac snorm_all :=
  cbn [stats allocated_bytes free_bytes allocated_blocks free_blocks total_allocations
       total_frees failed_allocations fragmentation_count largest_free_block
       smallest_free_block total_alloc_time total_free_time requested_bytes overhead_bytes
       class_usage set_allocated_bytes set_free_bytes set_allocated_blocks set_free_blocks
       set_total_allocations set_total_frees set_failed_allocations
       set_fragmentation_count set_largest_free_block set_smallest_free_block
       set_total_alloc_time set_total_free_time set_requested_bytes set_overhead_bytes
       set_class_usage usage_of with_fragmentation].

(** The state of the goal as a record whose statistics are a record too. *)
Ltac canon_stats :=
  canon;
  match goal with
  | |- after _ {| heap := _; region := _; free_lists := _; used_list := _;
                  initialized := _; next_alloc_id := _; allocation_records := _;
                  stats := ?T |} _ =>
      rewrite (stats_eta T) at 1; snorm_all
  end.

Lemma fresh_heap_facts (s : state) :
  fresh_heap s -> addressable s ->
  readable s (heap s) /\ valid_block s (heap s) = true /\
  length (free_lists s) = NUM_SIZE_CLASSES /\
  (forall c, head_of s c = if (c =? 7)%nat then heap s else NULL).
Proof.
  intros (Hi & Hn & Hfl & Hul & Hint & Hsz & Hfr & Hp & Hnx & Hft) [Hh0 Hmax].
  split.
  { unfold readable, footer_at. rewrite Hsz.
    split; apply in_region_intro; layout_lia. }
  split.
  { unfold intact in Hint. apply andb_prop in Hint as [H1 H2].
    apply Z.eqb_eq in H1, H2.
    apply valid_block_intro; [exact H1 | exact H2 | | rewrite Hsz; unfold_layout; lia].
    unfold footer_sentinel_at. apply Hft. }
  split; [rewrite Hfl; reflexivity|].
  intros c. unfold head_of. rewrite Hfl.
  do 8 (destruct c as [|c]; [reflexivity|]). reflexivity.
Qed.

Lemma get_size_class_big (x : Z) : SIZE_CLASS_7 < x -> get_size_class x = 7%nat.
Proof.
  intros H. unfold get_size_class.
  unfold SIZE_CLASS_1, SIZE_CLASS_2, SIZE_CLASS_3, SIZE_CLASS_4, SIZE_CLASS_5,
    SIZE_CLASS_6, SIZE_CLASS_7 in *.
  repeat match goal with |- context [?u <=? ?v] =>
    replace (u <=? v) with false by (symmetry; apply Z.leb_gt; lia) end.
  reflexivity.
Qed.

Lemma after_leak_record (h : host) (p n b : Z) (file : string) (line : Z) (s : state)
    (Q : Z -> state -> list diagnostic -> Prop) :
  in_region s (b + off_alloc_id) 4 = true ->
  Q p (set_allocation_records
         ((if record_ok h
           then [mkRecord p n (load_le (region s) (b + off_alloc_id) 4) file line]
           else []) ++ allocation_records s)%list s) [] ->
  after ((if record_ok h
          then load 4 (b + off_alloc_id) ≫= λ id : Z,
               modify (λ s0 : state,
                 set_allocation_records
                   (mkRecord p n id file line :: allocation_records s0) s0)
          else mret ()) ≫= λ _ : (), mret p) s Q.
Proof.
  intros Hin HQ. destruct (record_ok h).
  - apply after_bind. apply after_bind. apply after_load; [exact Hin|].
    apply after_modify. apply after_ret. exact HQ.
  - apply after_bind. apply after_ret. apply after_ret.
    destruct s. exact HQ.
Qed.

Lemma first_allocation_run (h : host) (s : state) (n : Z) (file : string) (line : Z) :
  fresh_heap s -> addressable s -> 0 < n <= 1046000 ->
  after (my_malloc_internal h n file line) s (fun p s' err =>
    p = heap s + 80 /\ err = [] /\
    my_malloc_size p s' = Ok n s' [] /\
    (forall x, p <= x < p + n -> byte_at (region s') x = 0) /\
    guards_ok s' p n = true /\
    used_list s' = heap s /\
    free_lists s'
      = <[7%nat := heap s + 80 + ALIGN (n + 32)]> (replicate NUM_SIZE_CLASSES NULL) /\
    valid_block s' (heap s) = true /\
    size_at s' (heap s) = ALIGN (n + 32) /\ free_at s' (heap s) = false /\
    valid_block s' (heap s + 80 + ALIGN (n + 32)) = true /\
    size_at s' (heap s + 80 + ALIGN (n + 32)) = 1048496 - ALIGN (n + 32) - 80 /\
    free_at s' (heap s + 80 + ALIGN (n + 32)) = true /\
    next_physical s' (heap s + 80 + ALIGN (n + 32)) = heap s + HEAP_SIZE /\
    allocation_records s'
      = ((if record_ok h
          then [mkRecord (heap s + 80) n (wrap32 (next_alloc_id s)) file line]
          else []) ++ allocation_records s)%list /\
    next_alloc_id s' = wrap32 (next_alloc_id s + 1) /\
    allocated_bytes (stats s') = wrap64 (allocated_bytes (stats s) + ALIGN (n + 32)) /\
    free_bytes (stats s') = wrap64 (free_bytes (stats s) - ALIGN (n + 32)) /\
    fragmentation_count (stats s') = 1 /\
    largest_free_block (stats s') = 1048496 - ALIGN (n + 32) - 80 /\
    heap s' = heap s /\ initialized s' = true /\
    request_size_at s' (heap s) = n /\
    prev_at s' (heap s) = NULL /\ next_at s' (heap s) = NULL /\
    prev_at s' (heap s + 80 + ALIGN (n + 32)) = NULL /\
    next_at s' (heap s + 80 + ALIGN (n + 32)) = NULL).
Proof.
  intros Hfresh Hads Hn.
  destruct (fresh_heap_facts s Hfresh Hads) as (Hr & Hv & Hlen & Hhd).
  pose proof Hfresh as (Hi & Hnn & Hfl & Hul & Hint & Hsz & Hfr & Hp & Hnx & Hft).
  pose proof Hads as [Hh0 Hmax].
  change (HEAP_SIZE - sizeof_Block - sizeof_BlockFooter) with 1048496 in Hsz.
  assert (Ha : wrap64 (n + ALIGNMENT * 2) = n + 32)
    by (unfold wrap64, ALIGNMENT; rewrite Z.mod_small; lia).
  destruct (ALIGN_small_bounds (n + 32) ltac:(lia)) as [Hab Ham].
  unfold my_malloc_internal. step. step. rewrite Hi. cbn [negb when].
  step. step.
  replace (n =? 0) with false by (symmetry; apply Z.eqb_neq; lia).
  rewrite Ha. remember (ALIGN (n + 32)) as a eqn:Ea.
  unfold upd_stats, check_heap_integrity. do 6 step. canon_stats.
  match goal with |- after _ ?s0 _ => set (s1 := s0) end.
  assert (Hfind : forall Q : Z -> state -> list diagnostic -> Prop,
            Q (heap s) s1 [] -> after (find_best_fit_block a) s1 Q).
  { intros Q HQ.
    assert (Hh1 : forall c, head_of s1 c = if (c =? 7)%nat then heap s else NULL)
      by exact Hhd.
    destruct (Nat.eqb_spec (get_size_class a) 7) as [Ec|Ec].
    - apply (after_find_best_fit_block_valid _ a [heap s]).
      + exact Hh0.
      + rewrite Hh1, Ec. cbn [Nat.eqb]. apply chain_step; [exact Hnn | exact Hr |].
        change (next_at (s1) (heap s)) with (next_at s (heap s)).
        rewrite Hnx. apply chain_end.
      + apply Forall_cons. split; [exact Hv | apply Forall_nil; exact I].
      + unfold placement. cbn [best_fit_of]. unfold fits.
        change (free_at (s1) (heap s)) with (free_at s (heap s)).
        change (size_at (s1) (heap s)) with (size_at s (heap s)).
        rewrite Hfr, Hsz. cbn [andb].
        replace (a <=? 1048496) with true by (symmetry; apply Z.leb_le; lia).
        replace (1048496 - a =? 0) with false by (symmetry; apply Z.eqb_neq; lia).
        replace (1048496 - a <? SIZE_MAX) with true
          by (symmetry; apply Z.ltb_lt; unfold SIZE_MAX; lia).
        replace (heap s =? NULL) with false by (symmetry; apply Z.eqb_neq; exact Hnn).
        exact HQ.
    - apply (after_find_best_fit_block_valid _ a []).
      + exact Hh0.
      + rewrite Hh1. apply Nat.eqb_neq in Ec. rewrite Ec. apply chain_end.
      + apply Forall_nil. exact I.
      + unfold placement. cbn [best_fit_of]. change (negb (NULL =? NULL)) with false.
        cbv iota.
        assert (Hc7 : (get_size_class a < 7)%nat).
        { pose proof (get_size_class_lt a). unfold NUM_SIZE_CLASSES in *. lia. }
        replace (first_head (s1) (higher_classes (get_size_class a)))
          with (heap s); [exact HQ|].
        unfold higher_classes, NUM_SIZE_CLASSES.
        destruct (get_size_class a) as [|[|[|[|[|[|[|c]]]]]]]; try lia;
          cbn [seq Nat.sub first_head]; rewrite !Hh1; cbn [Nat.eqb];
          change (NULL =? NULL) with true; cbv iota;
          replace (heap s =? NULL) with false by (symmetry; apply Z.eqb_neq; exact Hnn);
          reflexivity. }
  apply after_bind. apply Hfind. clear Hfind.
  replace (heap s =? NULL) with false by (symmetry; apply Z.eqb_neq; exact Hnn).
  unfold s1. unfold_fields. step. step. proj. fold (size_at s (heap s)). rewrite Hsz.
  replace (wrap64 (a + MIN_BLOCK_SIZE) <=? 1048496) with true
    by (symmetry; apply Z.leb_le; unfold wrap64; change MIN_BLOCK_SIZE with 80;
        rewrite Z.mod_small; lia).
  cbn [when]. fold s1.
  set (b := heap s) in *.
  assert (Hrem7 : get_size_class (1048496 - a - 80) = 7%nat).
  { apply get_size_class_big. unfold SIZE_CLASS_7. lia. }
  assert (Hsp : splittable (s1) b a).
  { unfold splittable.
    change (size_at (s1) b) with (size_at s b). rewrite Hsz, Hrem7.
    change (head_of (s1) 7) with (head_of s 7). rewrite (Hhd 7%nat).
    cbn [Nat.eqb].
    split; [exact Hads|]. split; [exact Hlen|]. split; [exact Hr|]. split; [exact Hv|].
    split; [lia|]. split; [lia|].
    split; [right; split; [exact (proj1 Hr) | left; reflexivity]|].
    left. lia. }
  apply after_bind. apply after_split_block; [exact Hsp|].
  unfold split_state, split_mem. cbv zeta.
  change (size_at (s1) b) with (size_at s b). rewrite Hsz, Hrem7.
  change (head_of (s1) 7) with (head_of s 7). rewrite (Hhd 7%nat).
  cbn [Nat.eqb].
  change (free_at (s1) b) with (free_at s b). rewrite Hfr.
  unfold push_links. cbv zeta.
  replace (b =? NULL) with false by (symmetry; apply Z.eqb_neq; exact Hnn).
  pose proof Hr as [Hr1 Hr2]. apply in_region_elim in Hr1 as (_ & Hr1 & Hr1').
  clear Hr2.
  set (nb := b + sizeof_Block + a + sizeof_BlockFooter) in *.
  assert (Hnb : nb = b + 80 + a) by (unfold nb, sizeof_Block, sizeof_BlockFooter; lia).
  unfold HEAP_SIZE in Hmax, Hr1'.
  unfold s1. canon_stats. do 12 cstep. canon_stats. clear Hsp.
  match goal with |- after _ ?s0 _ => set (s3 := s0) end.
  assert (Hp3 : prev_at s3 b = nb).
  { unfold prev_at, s3. proj. unfold write_footer, new_header. mem. reflexivity. }
  assert (Hn3 : next_at s3 b = NULL).
  { unfold next_at, s3. proj. unfold write_footer, new_header. mem. exact Hnx. }
  assert (Hs3 : size_at s3 b = a).
  { unfold size_at, s3. proj. unfold write_footer, new_header. mem. reflexivity. }
  assert (Hh3 : forall c, head_of s3 c = if (c =? 7)%nat then nb else NULL).
  { intros c. unfold head_of, s3. proj. rewrite Hfl.
    do 8 (destruct c as [|c]; [reflexivity|]). reflexivity. }
  assert (Hnbr : in_region s3 nb sizeof_Block = true).
  { apply in_region_intro; unfold s3; proj; unfold NULL, sizeof_Block, HEAP_SIZE; lia. }
  assert (Hbr : in_region s3 b sizeof_Block = true).
  { apply in_region_intro; unfold s3; proj; unfold NULL, sizeof_Block, HEAP_SIZE; lia. }
  apply after_bind. apply after_remove_from_free_list.
  { exact Hnn. }
  { exact Hbr. }
  { rewrite Hp3. right. split; [exact Hnbr|]. unfold apart, sizeof_Block. lia. }
  { rewrite Hn3. left. reflexivity. }
  { right. left. exact Hn3. }
  cbv zeta. rewrite Hp3, Hn3, Hs3, Hh3.
  replace ((if (get_size_class a =? 7)%nat then nb else NULL) =? b) with false
    by (symmetry; apply Z.eqb_neq; destruct (get_size_class a =? 7)%nat; unfold NULL; lia).
  replace (nb =? NULL) with false by (symmetry; apply Z.eqb_neq; unfold NULL; lia).
  change (NULL =? NULL) with true. cbv iota.
  unfold s3. canon. clear s3 Hp3 Hn3 Hs3 Hh3 Hnbr Hbr.
  match goal with |- after _ ?s0 _ => set (s4 := s0) end.
  apply after_bind. apply add_to_used_list_run.
  { exact Hnn. }
  { apply in_region_intro; unfold s4; proj; unfold NULL, sizeof_Block, HEAP_SIZE; lia. }
  { left. exact Hul. }
  cbv zeta. change (used_list s4) with (used_list s). rewrite Hul.
  change (NULL =? NULL) with true. cbv iota.
  unfold s4. canon. clear s4.
  match goal with |- after _ ?s0 _ => set (s5 := s0) end.
  assert (Hs5 : size_at s5 b = a).
  { unfold size_at, s5. proj. unfold write_footer, new_header. mem. reflexivity. }
  assert (Hf5 : free_at s5 b = false).
  { unfold free_at, s5. proj. mem. reflexivity. }
  apply after_bind. apply after_set_block_footer_exact.
  { unfold readable, footer_at. rewrite Hs5.
    split; apply in_region_intro; unfold s5; proj; unfold NULL, sizeof_Block,
      sizeof_BlockFooter, HEAP_SIZE; lia. }
  { unfold footer_at. rewrite Hs5. unfold NULL, sizeof_Block. lia. }
  unfold footer_at. rewrite Hs5, Hf5.
  unfold s5. canon. clear s5 Hs5 Hf5.
  match goal with |- after _ {| heap := _; region := ?M; free_lists := _; used_list := _;
                               initialized := _; next_alloc_id := _;
                               allocation_records := _; stats := _ |} _ =>
    set (m6 := M) end.
  assert (M6o : forall x w, x + Z.of_nat w <= b + 8 \/
                  (b + 16 <= x /\ x + Z.of_nat w <= b + 16) \/
                  (b + 60 <= x /\ x + Z.of_nat w <= b + 64) ->
                load_le m6 x w = load_le (region s) x w).
  { intros x w Hx. unfold m6, write_footer, new_header.
    rewrite !load_le_store_le_other by layout_lia. reflexivity. }
  assert (M6size : load_le m6 (b + off_size) 8 = a).
  { unfold m6, write_footer, new_header. mem. reflexivity. }
  assert (M6free : load_le m6 (b + off_free) 1 = 0).
  { unfold m6, write_footer, new_header. mem. reflexivity. }
  assert (M6req : load_le m6 (b + off_request_size) 4 = n).
  { unfold m6, write_footer, new_header. mem. reflexivity. }
  assert (M6nsize : load_le m6 (nb + off_size) 8 = 1048496 - a - 80).
  { unfold m6, write_footer, new_header. mem. reflexivity. }
  assert (M6nfree : load_le m6 (nb + off_free) 1 = 1).
  { unfold m6, write_footer, new_header. mem. reflexivity. }
  assert (M6nnext : load_le m6 (nb + off_next) 8 = NULL).
  { unfold m6, write_footer, new_header. mem. reflexivity. }
  assert (M6prev : load_le m6 (b + off_prev) 8 = NULL).
  { unfold m6, write_footer, new_header. mem. reflexivity. }
  assert (M6next : load_le m6 (b + off_next) 8 = NULL).
  { unfold m6, write_footer, new_header. mem. reflexivity. }
  assert (M6nprev : load_le m6 (nb + off_prev) 8 = NULL).
  { unfold m6, write_footer, new_header. mem. reflexivity. }
  assert (M6id : load_le m6 (b + off_alloc_id) 4 = wrap32 (next_alloc_id s)).
  { unfold m6, write_footer, new_header.
    rewrite !load_le_store_le_other by layout_lia.
    rewrite load_le_store_le_same. reflexivity. }
  assert (M6fs : load_le m6 (b + sizeof_Block + a + foff_sentinel) 4 = FOOTER_SENTINEL).
  { unfold m6, write_footer, new_header. mem. reflexivity. }
  assert (M6nss : load_le m6 (nb + off_sentinel_start) 4 = SENTINEL_VALUE).
  { unfold m6, write_footer, new_header. mem. reflexivity. }
  assert (M6nse : load_le m6 (nb + off_sentinel_end) 4 = SENTINEL_VALUE).
  { unfold m6, write_footer, new_header. mem. reflexivity. }
  assert (M6nfs : load_le m6 (nb + sizeof_Block + (1048496 - a - 80) + foff_sentinel) 4
                  = FOOTER_SENTINEL).
  { unfold m6, write_footer, new_header. mem. reflexivity. }
  unfold_fields. repeat (step; proj; rewrite ?M6size; try canon_stats).
  match goal with |- after _ ?s0 _ => set (s7 := s0) end.
  assert (Hh7 : forall c, head_of s7 c = if (c =? 7)%nat then nb else NULL).
  { intros c. unfold head_of, s7. proj. rewrite Hfl.
    do 8 (destruct c as [|c]; [reflexivity|]). reflexivity. }
  assert (Hs7 : size_at s7 nb = 1048496 - a - 80) by exact M6nsize.
  assert (Hc7 : chain s7 nb [nb]).
  { apply chain_step.
    - unfold NULL. lia.
    - unfold readable, footer_at. rewrite Hs7.
      split; apply in_region_intro; unfold s7; proj; unfold NULL, sizeof_Block,
        sizeof_BlockFooter, HEAP_SIZE; lia.
    - replace (next_at s7 nb) with NULL by (symmetry; exact M6nnext). apply chain_end. }
  apply (after_update_fragmentation_stats s7 [[]; []; []; []; []; []; []; [nb]]).
  { unfold NUM_SIZE_CLASSES. cbn [seq].
    repeat apply List.Forall2_cons; try apply List.Forall2_nil;
      rewrite Hh7; cbn [Nat.eqb]; first [apply chain_end | exact Hc7]. }
  cbn [concat app length]. intros c L M -> Hall _ Hsome.
  destruct Hsome as [(b1 & Hb1 & HL) (b2 & Hb2 & HM)]; [discriminate|].
  destruct Hb1 as [<-|[]]. destruct Hb2 as [<-|[]]. rewrite Hs7 in HL, HM.
  subst L M. clear Hall.
  unfold s7. canon_stats. clear s7 Hh7 Hs7 Hc7.
  change (get_block_data b + ALIGNMENT) with (b + sizeof_Block + ALIGNMENT).
  set (p := b + sizeof_Block + ALIGNMENT).
  assert (Hp' : p = b + 80) by (unfold p, sizeof_Block, ALIGNMENT; lia).
  apply after_bind. unfold add_guard_bytes.
  apply after_bind, after_fill.
  { apply in_region_intro; proj; unfold NULL, ALIGNMENT, HEAP_SIZE;
      change (Z.of_nat (Z.to_nat 16)) with 16; lia. }
  apply after_fill.
  { apply in_region_intro; proj; unfold NULL, ALIGNMENT, HEAP_SIZE;
      change (Z.of_nat (Z.to_nat 16)) with 16; lia. }
  proj. rewrite ?set_region_set_region.
  apply after_bind. apply after_memset; [lia | |].
  { apply in_region_intro; proj; unfold NULL, HEAP_SIZE; lia. }
  proj. rewrite ?set_region_set_region. canon.
  match goal with |- after _ {| heap := _; region := ?M; free_lists := _; used_list := _;
                               initialized := _; next_alloc_id := _;
                               allocation_records := _; stats := _ |} _ =>
    set (mf := M) end.
  assert (Hmf : forall x w, x + Z.of_nat w <= b + 64 \/ b + 80 + n + 16 <= x ->
              load_le mf x w = load_le m6 x w).
  { intros x w Hx. unfold mf.
    rewrite !load_le_fill_mem_other; [reflexivity| | |];
      unfold ALIGNMENT; change (Z.of_nat (Z.to_nat 16)) with 16;
      rewrite ?Z2Nat.id by lia; lia. }
  assert (Hbf : forall x, byte_at mf x =
             if decide (p <= x < p + n) then 0
             else if decide (p + n <= x < p + n + 16) then GUARD_VALUE
             else if decide (p - 16 <= x < p - 16 + 16) then GUARD_VALUE
             else byte_at m6 x).
  { intros x. unfold mf. rewrite !byte_at_fill_mem. unfold ALIGNMENT.
    change (Z.of_nat (Z.to_nat 16)) with 16. rewrite Z2Nat.id by lia. reflexivity. }
  assert (Hid : load_le mf (b + off_alloc_id) 4 = wrap32 (next_alloc_id s)).
  { rewrite Hmf by layout_lia. exact M6id. }
  apply (after_leak_record h p n b).
  { apply in_region_intro; proj; unfold_layout; unfold NULL, HEAP_SIZE; lia. }
  proj. rewrite Hid.
  match goal with |- context [my_malloc_size p ?S] => set (sf := S) end.
  assert (Rf : region sf = mf) by reflexivity.
  assert (If : initialized sf = true) by exact Hi.
  assert (Hhdr : header_of p = b) by (unfold header_of, p; lia).
  assert (Fss : sentinel_start_at sf b = SENTINEL_VALUE).
  { unfold sentinel_start_at. rewrite Rf, Hmf, M6o by layout_lia.
    unfold intact in Hint. apply andb_prop in Hint as [H1 _]. apply Z.eqb_eq in H1.
    exact H1. }
  assert (Fse : sentinel_end_at sf b = SENTINEL_VALUE).
  { unfold sentinel_end_at. rewrite Rf, Hmf, M6o by layout_lia.
    unfold intact in Hint. apply andb_prop in Hint as [_ H2]. apply Z.eqb_eq in H2.
    exact H2. }
  assert (Fsz : size_at sf b = a).
  { unfold size_at. rewrite Rf, Hmf by layout_lia. exact M6size. }
  assert (Ffr : free_at sf b = false).
  { unfold free_at. rewrite Rf, Hmf, M6free by layout_lia. reflexivity. }
  assert (Frq : request_size_at sf b = n).
  { unfold request_size_at. rewrite Rf, Hmf by layout_lia. exact M6req. }
  assert (Fnsz : size_at sf nb = 1048496 - a - 80).
  { unfold size_at. rewrite Rf, Hmf by layout_lia. exact M6nsize. }
  assert (Fnfr : free_at sf nb = true).
  { unfold free_at. rewrite Rf, Hmf, M6nfree by layout_lia. reflexivity. }
  rewrite <- Hnb.
  split; [exact Hp'|]. split; [reflexivity|].
  split.
  { destruct (my_malloc_size_run sf p) as [_ Hms].
    destruct Hms as [Hms _].
    - unfold NULL. lia.
    - exact If.
    - rewrite Hhdr. apply in_region_intro; unfold NULL, sizeof_Block, HEAP_SIZE;
        change (heap sf) with b; lia.
    - rewrite Hms, Hhdr. unfold intact. rewrite Fss, Fse, Ffr, Frq, !Z.eqb_refl.
      reflexivity. }
  split.
  { intros x Hx. rewrite ?Rf, Hbf. destruct (decide _); [reflexivity|lia]. }
  split.
  { unfold guards_ok. apply andb_true_intro. split;
      apply forallb_bytes_at; intros x Hx; rewrite ?Rf, Hbf; unfold ALIGNMENT in *;
      change (Z.of_nat (Z.to_nat 16)) with 16 in Hx;
      repeat destruct (decide _); try reflexivity; lia. }
  split; [reflexivity|].
  split.
  { change (free_lists sf) with (<[7%nat:=nb]> (free_lists s)). rewrite Hfl.
    reflexivity. }
  split.
  { apply valid_block_intro; [exact Fss | exact Fse | | rewrite Fsz; unfold HEAP_SIZE; lia].
    unfold footer_sentinel_at, footer_at. rewrite Fsz, Rf, Hmf by layout_lia.
    exact M6fs. }
  split; [exact Fsz|]. split; [exact Ffr|].
  split.
  { apply valid_block_intro; [| | | rewrite Fnsz; unfold HEAP_SIZE; lia].
    - unfold sentinel_start_at. rewrite Rf, Hmf by layout_lia. exact M6nss.
    - unfold sentinel_end_at. rewrite Rf, Hmf by layout_lia. exact M6nse.
    - unfold footer_sentinel_at, footer_at. rewrite Fnsz, Rf, Hmf by layout_lia.
      exact M6nfs. }
  split; [exact Fnsz|]. split; [exact Fnfr|].
  split.
  { unfold next_physical. rewrite Fnsz. unfold sizeof_Block, sizeof_BlockFooter, HEAP_SIZE.
    lia. }
  split.
  { unfold sf. proj. rewrite Hp'. reflexivity. }
  split; [reflexivity|]. split; [reflexivity|]. split; [reflexivity|].
  split; [reflexivity|]. split; [reflexivity|]. split; [reflexivity|].
  split; [exact Hi|]. split; [exact Frq|].
  split; [unfold prev_at; rewrite Hmf by layout_lia; exact M6prev|].
  split; [unfold next_at; rewrite Hmf by layout_lia; exact M6next|].
  split; [unfold prev_at; rewrite Hmf by layout_lia; exact M6nprev|].
  unfold next_at. rewrite Hmf by layout_lia. exact M6nnext.
Qed.

(** X22.  The first allocation from a fresh heap, for every request of 1 to
    1046000 bytes: the pointer is 80 bytes above the start of the region
    (header and guard band), nothing is printed, [my_malloc_size] answers
    the requested size, the payload is zeroed and both guard bands are set;
    the block at the start has size [ALIGN (n + 32)] and heads the used
    list, the remainder behind it is a valid free block that ends with the
    region and is alone in bucket 7 (both blocks have null links), a leak
    record is pushed when the host grants one, and [free_bytes] drops by the
    block size alone, not by the 80 bytes of header and footer the split
    consumed. *)
Theorem first_allocation (h : host) (s : state) (n : Z) (file : string) (line : Z) :
  fresh_heap s -> addressable s -> 0 < n <= 1046000 ->
  after (my_malloc_internal h n file line) s (fun p s' err =>
    p = heap s + 80 /\ err = [] /\
    my_malloc_size p s' = Ok n s' [] /\
    (forall x, p <= x < p + n -> byte_at (region s') x = 0) /\
    guards_ok s' p n = true /\
    used_list s' = heap s /\
    free_lists s'
      = <[7%nat := heap s + 80 + ALIGN (n + 32)]> (replicate NUM_SIZE_CLASSES NULL) /\
    valid_block s' (heap s) = true /\
    size_at s' (heap s) = ALIGN (n + 32) /\ free_at s' (heap s) = false /\
    valid_block s' (heap s + 80 + ALIGN (n + 32)) = true /\
    size_at s' (heap s + 80 + ALIGN (n + 32)) = 1048496 - ALIGN (n + 32) - 80 /\
    free_at s' (heap s + 80 + ALIGN (n + 32)) = true /\
    next_physical s' (heap s + 80 + ALIGN (n + 32)) = heap s + HEAP_SIZE /\
    allocation_records s'
      = ((if record_ok h
          then [mkRecord (heap s + 80) n (wrap32 (next_alloc_id s)) file line]
          else []) ++ allocation_records s)%list /\
    next_alloc_id s' = wrap32 (next_alloc_id s + 1) /\
    allocated_bytes (stats s') = wrap64 (allocated_bytes (stats s) + ALIGN (n + 32)) /\
    free_bytes (stats s') = wrap64 (free_bytes (stats s) - ALIGN (n + 32)) /\
    fragmentation_count (stats s') = 1 /\
    largest_free_block (stats s') = 1048496 - ALIGN (n + 32) - 80 /\
    heap s' = heap s /\ initialized s' = true /\
    request_size_at s' (heap s) = n /\
    prev_at s' (heap s) = NULL /\ next_at s' (heap s) = NULL /\
    prev_at s' (heap s + 80 + ALIGN (n + 32)) = NULL /\
    next_at s' (heap s + 80 + ALIGN (n + 32)) = NULL).
Proof. exact (first_allocation_run h s n file line). Qed.

Lemma first_allocation_witness :
  fresh_heap (final_state (initialize host0)) /\
  addressable (final_state (initialize host0)) /\ 0 < 100 <= 1046000 /\
  exists s', my_malloc_internal host0 100 "client.c" 1 (final_state (initialize host0))
             = Ok 65616 s' [] /\
             my_malloc_size 65616 s' = Ok 100 s' [] /\ guards_ok s' 65616 100 = true.
Proof.
  assert (H1 : fresh_heap (final_state (initialize host0))).
  { unfold fresh_heap, footer_is. repeat split; vm_compute; try reflexivity. discriminate. }
  assert (H2 : addressable (final_state (initialize host0)))
    by (split; vm_compute; [reflexivity | discriminate]).
  assert (H3 : 0 < 100 <= 1046000) by lia.
  assert (H4 : heap (final_state (initialize host0)) + 80 = 65616)
    by (vm_compute; reflexivity).
  split; [exact H1|]. split; [exact H2|]. split; [exact H3|].
  pose proof (first_allocation host0 (final_state (initialize host0)) 100 "client.c" 1
                H1 H2 H3) as H.
  destruct (proj1 (after_ok _ _ _) H) as (p & s' & err & Heq & Hp & Herr & Hms & _ & Hg & _).
  rewrite Hp, H4 in Heq, Hms, Hg. rewrite Herr in Heq.
  exists s'. split; [exact Heq|]. split; [exact Hms | exact Hg].
Defined.

(** A call that finds the allocator initialised skips [initialize]. *)
Lemma after_skip_when {A} (c : state -> bool) (m : M unit) (k : M A) (s : state)
    (Q : A -> state -> list diagnostic -> Prop) :
  c s = false -> after (s0 ← get; when (c s0) m;; k) s Q -> after k s Q.
Proof.
  intros Hc. unfold after, mbind, M_bind, get. rewrite Hc. cbn [when].
  unfold mret, M_ret. destruct (k s); exact id.
Qed.

Lemma my_malloc_internal_lazy (h : host) (n : Z) (file : string) (line : Z) (s : state)
    (Q : Z -> state -> list diagnostic -> Prop) :
  initialized s = false ->
  after (initialize h) s (fun _ s1 e1 =>
    initialized s1 = true /\
    after (my_malloc_internal h n file line) s1 (fun p s2 e2 => Q p s2 (e1 ++ e2)%list)) ->
  after (my_malloc_internal h n file line) s Q.
Proof.
  intros Hi H. unfold my_malloc_internal in *. step. step. rewrite Hi. cbn [negb when].
  apply after_bind. apply (after_mono _ _ _ _ H). cbv beta.
  intros [] s1 e1 [Hi1 H1].
  apply (after_skip_when (fun s0 => negb (initialized s0)) (initialize h)).
  { rewrite Hi1. reflexivity. }
  exact H1.
Qed.

(** X23.  [my_malloc_internal] initialises on first use: on an allocator
    that was never initialised, with a host that grants a region, it
    acquires the region and serves the request from it as from a fresh
    heap; the one line printed is the banner of [initialize] on [stdout].
    [free_bytes] then reads [1048496 - ALIGN (n + 32)] while the one free
    block holds 80 bytes less. *)
Theorem malloc_initializes_on_first_use (h : host) (s : state) (n : Z) (file : string)
    (line : Z) :
  initialized s = false -> 0 < region_addr h -> region_addr h + HEAP_SIZE <= 2 ^ 64 ->
  free_lists s = replicate NUM_SIZE_CLASSES NULL -> used_list s = NULL ->
  0 < n <= 1046000 ->
  after (my_malloc_internal h n file line) s (fun p s' err =>
    p = region_addr h + 80 /\ err = [Initialized (region_addr h)] /\
    initialized s' = true /\ heap s' = region_addr h /\
    my_malloc_size p s' = Ok n s' [] /\
    (forall x, p <= x < p + n -> byte_at (region s') x = 0) /\
    guards_ok s' p n = true /\
    used_list s' = region_addr h /\
    free_lists s'
      = <[7%nat := region_addr h + 80 + ALIGN (n + 32)]> (replicate NUM_SIZE_CLASSES NULL) /\
    size_at s' (region_addr h + 80 + ALIGN (n + 32)) = 1048496 - ALIGN (n + 32) - 80 /\
    free_at s' (region_addr h + 80 + ALIGN (n + 32)) = true /\
    next_at s' (region_addr h + 80 + ALIGN (n + 32)) = NULL /\
    fragmentation_count (stats s') = 1 /\
    free_bytes (stats s') = 1048496 - ALIGN (n + 32) /\
    allocated_bytes (stats s') = wrap64 (allocated_bytes (stats s) + ALIGN (n + 32))).
Proof.
  intros Hi Hr Hmax Hfl Hul Hn.
  apply my_malloc_internal_lazy; [exact Hi|].
  apply (after_mono _ _ _ _ (initialize_run h s Hi Hr Hfl Hul)). cbv beta.
  intros [] s1 e1 (-> & Hfresh & Hh & _ & _ & Hst).
  split; [apply Hfresh|].
  assert (Hads : addressable s1) by (unfold addressable; rewrite Hh; lia).
  apply (after_mono _ _ _ _ (first_allocation_run h s1 n file line Hfresh Hads Hn)).
  cbv beta. rewrite Hh.
  intros p s' err (Hp & He & Hms & Hz & Hg & Hu & Hf & _ & _ & _ & _ & Hns & Hnf & _ & _ & _
                   & Hab & Hfb & Hfc & _ & Hhp & Hi' & _ & _ & _ & _ & Hnn).
  subst err. cbn [app].
  destruct (ALIGN_small_bounds (n + 32) ltac:(lia)) as [Hb _].
  rewrite Hst in Hab, Hfb.
  cbn [free_bytes allocated_bytes set_smallest_free_block set_largest_free_block
       set_free_blocks set_free_bytes] in Hab, Hfb.
  repeat (split; [first [assumption | reflexivity | congruence]|]).
  split.
  { rewrite Hfb. unfold wrap64, HEAP_SIZE, sizeof_Block, sizeof_BlockFooter.
    apply Z.mod_small. lia. }
  exact Hab.
Qed.

Lemma best_fit_walk_null (size best smallest : Z) (s : state) :
  best_fit_walk walk_fuel size NULL best smallest s = Ok best s [].
Proof. destruct walk_fuel_S as [f ->]. reflexivity. Qed.

Lemma first_head_null (s : state) (cs : list nat) :
  (forall c, head_of s c = NULL) -> first_head s cs = NULL.
Proof.
  intros H. induction cs as [|c r IH]; [reflexivity|].
  cbn [first_head]. rewrite H. exact IH.
Qed.

(** X24.  When the host refuses the region, [my_malloc_internal] with a
    non-zero size prints the initialisation failure, counts the request as
    an allocation and as a failed one, returns the null pointer and leaves
    the allocator uninitialised, so that the next call asks the host
    again. *)
Theorem malloc_without_a_region (h : host) (s : state) (n : Z) (file : string) (line : Z) :
  initialized s = false -> region_addr h = NULL ->
  free_lists s = replicate NUM_SIZE_CLASSES NULL -> n <> 0 ->
  my_malloc_internal h n file line s
  = Ok NULL
       (set_stats
          (set_failed_allocations (wrap64 (failed_allocations (stats s) + 1))
             (set_requested_bytes (wrap64 (requested_bytes (stats s) + n))
                (set_total_allocations (wrap64 (total_allocations (stats s) + 1))
                   (stats s))))
          (set_heap NULL s))
       [HeapInitFailed].
Proof.
  intros Hi Hr Hfl Hn.
  assert (Hh : forall s', free_lists s' = free_lists s -> forall c, head_of s' c = NULL).
  { intros s' E c. unfold head_of. rewrite E, Hfl.
    do 8 (destruct c as [|c]; [reflexivity|]). reflexivity. }
  cut (after (my_malloc_internal h n file line) s (fun p s' err =>
         p = NULL /\ s' = set_stats
          (set_failed_allocations (wrap64 (failed_allocations (stats s) + 1))
             (set_requested_bytes (wrap64 (requested_bytes (stats s) + n))
                (set_total_allocations (wrap64 (total_allocations (stats s) + 1))
                   (stats s))))
          (set_heap NULL s) /\ err = [HeapInitFailed])).
  { intros H. apply after_ok in H as (p & s' & e & Heq & -> & -> & ->). exact Heq. }
  unfold my_malloc_internal. step. step. rewrite Hi. cbn [negb when].
  apply after_bind. unfold initialize. step. step. rewrite Hi. steps. proj. rewrite Hr.
  change (NULL =? NULL) with true. cbv iota. step.
  apply Z.eqb_neq in Hn. rewrite Hn.
  unfold upd_stats, check_heap_integrity. do 6 step. proj.
  unfold find_best_fit_block. step. step. step. cbv zeta.
  match goal with |- after _ ?S _ =>
    set (s1 := S); assert (Hh1 : forall c, head_of s1 c = NULL) by (apply Hh; reflexivity)
  end.
  rewrite Hh1. apply after_bind. eapply after_eq; [apply best_fit_walk_null|].
  change (negb (NULL =? NULL)) with false. cbv iota. step.
  rewrite first_head_null by exact Hh1.
  change (NULL =? NULL) with true. cbv iota. steps.
  split; [reflexivity|]. split; [|reflexivity].
  destruct s as [hp rg fl ul ini nid recs st]. destruct st. reflexivity.
Qed.

Lemma malloc_initializes_on_first_use_witness :
  initialized startup = false /\ 0 < region_addr host0 /\
  region_addr host0 + HEAP_SIZE <= 2 ^ 64 /\
  free_lists startup = replicate NUM_SIZE_CLASSES NULL /\ used_list startup = NULL /\
  0 < 1 <= 1046000 /\
  exists s', split_client startup = Ok 65616 s' [Initialized 65536] /\
             my_malloc_size 65616 s' = Ok 1 s' [] /\
             free_bytes (stats s') = 1048448.
Proof.
  assert (H3 : region_addr host0 + HEAP_SIZE <= 2 ^ 64) by (vm_compute; discriminate).
  assert (H6 : 0 < 1 <= 1046000) by lia.
  split; [reflexivity|]. split; [reflexivity|]. split; [exact H3|].
  split; [reflexivity|]. split; [reflexivity|]. split; [exact H6|].
  pose proof (malloc_initializes_on_first_use host0 startup 1 "client.c" 1
                eq_refl eq_refl H3 eq_refl eq_refl H6) as H.
  destruct (proj1 (after_ok _ _ _) H)
    as (p & s' & err & Heq & Hp & Herr & _ & _ & Hms & _ & _ & _ & _ & _ & _ & _ & _
        & Hfb & _).
  change (region_addr host0 + 80) with 65616 in Hp.
  rewrite Hp in Heq, Hms. rewrite Herr in Heq.
  exists s'. split; [exact Heq|]. split; [exact Hms|].
  rewrite Hfb. reflexivity.
Defined.

Lemma malloc_without_a_region_witness :
  initialized startup = false /\ region_addr refusing_host = NULL /\
  free_lists startup = replicate NUM_SIZE_CLASSES NULL /\ 8 <> 0 /\
  exists s', my_malloc_internal refusing_host 8 "client.c" 1 startup
             = Ok NULL s' [HeapInitFailed] /\
             initialized s' = false /\ failed_allocations (stats s') = 1.
Proof.
  assert (H4 : 8 <> 0) by discriminate.
  split; [reflexivity|]. split; [reflexivity|]. split; [reflexivity|]. split; [exact H4|].
  eexists. split.
  - exact (malloc_without_a_region refusing_host startup 8 "client.c" 1
             eq_refl eq_refl eq_refl H4).
  - split; reflexivity.
Defined.

(** ** Allocate, then free *)

(** [my_free] of the one block in use, at the start of the region, with the
    free remainder behind it alone in bucket 7. *)
Lemma my_free_sole_block_run (h : host) (s : state) (n : Z) :
  addressable s -> initialized s = true -> 0 < n <= 1046000 ->
  valid_block s (heap s) = true -> size_at s (heap s) = ALIGN (n + 32) ->
  free_at s (heap s) = false -> request_size_at s (heap s) = n ->
  prev_at s (heap s) = NULL -> next_at s (heap s) = NULL ->
  guards_ok s (heap s + 80) n = true ->
  used_list s = heap s ->
  free_lists s = <[7%nat := heap s + 80 + ALIGN (n + 32)]> (replicate NUM_SIZE_CLASSES NULL) ->
  valid_block s (heap s + 80 + ALIGN (n + 32)) = true ->
  size_at s (heap s + 80 + ALIGN (n + 32)) = 1048496 - ALIGN (n + 32) - 80 ->
  free_at s (heap s + 80 + ALIGN (n + 32)) = true ->
  prev_at s (heap s + 80 + ALIGN (n + 32)) = NULL ->
  next_at s (heap s + 80 + ALIGN (n + 32)) = NULL ->
  after (my_free h (heap s + 80)) s (fun _ s' err =>
    err = [] /\ heap s' = heap s /\ initialized s' = true /\ used_list s' = NULL /\
    free_lists s'
      = <[get_size_class (ALIGN (n + 32)) := heap s]> (replicate NUM_SIZE_CLASSES NULL) /\
    intact s' (heap s) = true /\ size_at s' (heap s) = 1048496 /\
    free_at s' (heap s) = true /\
    prev_at s' (heap s) = NULL /\ next_at s' (heap s) = NULL /\
    footer_is s' (footer_at s' (heap s)) 1048496 true /\
    allocation_records s' = remove_record (heap s + 80) (allocation_records s) /\
    next_alloc_id s' = next_alloc_id s /\
    allocated_bytes (stats s') = wrap64 (allocated_bytes (stats s) - ALIGN (n + 32)) /\
    free_bytes (stats s') = wrap64 (free_bytes (stats s) + ALIGN (n + 32)) /\
    allocated_blocks (stats s') = wrap64 (allocated_blocks (stats s) - 1) /\
    free_blocks (stats s') = wrap64 (wrap64 (free_blocks (stats s) + 1) - 1) /\
    total_frees (stats s') = wrap64 (total_frees (stats s) + 1) /\
    fragmentation_count (stats s') = 1 /\
    largest_free_block (stats s') = 1048496 /\
    smallest_free_block (stats s') = 1048496).
Proof.
  intros Hads Hi Hn Hv Hsz Hfr Hrq Hpv Hnx Hg Hul Hfl Hnv Hnsz Hnfr Hnpv Hnnx.
  pose proof Hads as [Hh0 Hmax].
  destruct (ALIGN_small_bounds (n + 32) ltac:(lia)) as [Hab Ham].
  remember (ALIGN (n + 32)) as a eqn:Ea.
  set (b := heap s) in *.
  set (nb := b + 80 + a) in *.
  unfold HEAP_SIZE in Hmax.
  assert (Eb : heap s = b) by reflexivity.
  assert (Hnb : nb = b + 80 + a) by reflexivity.
  assert (Hr : readable s b).
  { unfold readable, footer_at. rewrite Hsz.
    split; apply in_region_intro; fold b; unfold NULL, sizeof_Block, sizeof_BlockFooter,
      HEAP_SIZE; lia. }
  assert (Hrn : readable s nb).
  { unfold readable, footer_at. rewrite Hnsz.
    split; apply in_region_intro; fold b; unfold nb, NULL, sizeof_Block, sizeof_BlockFooter,
      HEAP_SIZE; lia. }
  unfold my_free. step. step. rewrite Hi. cbn [negb when]. step. step.
  replace (b + 80 =? NULL) with false by (symmetry; apply Z.eqb_neq; unfold NULL; lia).
  unfold check_heap_integrity. step. step. cbv zeta.
  replace (b + 80 - ALIGNMENT - sizeof_Block) with b by (unfold ALIGNMENT, sizeof_Block; lia).
  replace (b + 80 - ALIGNMENT + ALIGNMENT) with (b + 80) by lia.
  apply after_bind. apply after_validate_block_valid; [exact Hh0 | exact Hr | exact Hv |].
  unfold_fields. do 4 step. fold (free_at s b). rewrite Hfr. cbv iota.
  step. step. fold (request_size_at s b). rewrite Hrq.
  apply after_bind. eapply after_eq.
  { apply check_guard_bytes_run; apply in_region_intro; fold b;
      unfold NULL, ALIGNMENT, HEAP_SIZE; lia. }
  rewrite Hg. step. step.
  repeat (step; proj; change (load_le (region s) (b + off_size) 8) with (size_at s b);
          rewrite ?Hsz).
  canon_stats.
  match goal with |- after _ ?s0 _ => set (s2 := s0) end.
  assert (Hbn : b <> NULL) by (unfold NULL; lia).
  assert (Hbr : forall s', heap s' = b -> in_region s' b sizeof_Block = true).
  { intros s' E. apply in_region_intro; rewrite E; unfold NULL, sizeof_Block, HEAP_SIZE; lia. }
  assert (Hp2 : prev_at s2 b = NULL).
  { unfold prev_at, s2. proj. mem. exact Hpv. }
  assert (Hn2 : next_at s2 b = NULL).
  { unfold next_at, s2. proj. mem. exact Hnx. }
  apply remove_from_used_list_head;
    [exact Hbn | apply Hbr; reflexivity | exact Hul | exact Hp2 | left; exact Hn2 |].
  rewrite Hn2. change (NULL =? NULL) with true. cbv iota.
  unfold s2. canon. clear s2 Hp2 Hn2.
  match goal with |- after _ ?s0 _ => set (s3 := s0) end.
  assert (Hs3 : size_at s3 b = a).
  { unfold size_at, s3. proj. mem. exact Hsz. }
  assert (Hh3 : forall c, head_of s3 c = if (c =? 7)%nat then nb else NULL).
  { intros c. unfold head_of, s3. proj. rewrite Hfl.
    do 8 (destruct c as [|c]; [reflexivity|]). reflexivity. }
  assert (Enb : (nb =? NULL) = false) by (apply Z.eqb_neq; unfold nb, NULL; lia).
  assert (Hnbr : forall s', heap s' = b -> in_region s' nb sizeof_Block = true).
  { intros s' E. apply in_region_intro; rewrite E; unfold nb, NULL, sizeof_Block, HEAP_SIZE; lia. }
  remember (get_size_class a) as c eqn:Ec.
  set (hd := if (c =? 7)%nat then nb else NULL).
  assert (Hc8 : (c < 8)%nat) by (subst c; apply get_size_class_lt).
  apply after_bind. apply after_add_to_free_list.
  { exact Hbn. }
  { apply Hbr. reflexivity. }
  { exact Hads. }
  { unfold s3. proj. rewrite Hfl. reflexivity. }
  { rewrite Hs3, <- Ec, Hh3. destruct (c =? 7)%nat; [right|left; reflexivity].
    split; [apply Hnbr; reflexivity|]. right. unfold nb, sizeof_Block. lia. }
  { rewrite Hs3, <- Ec, Hh3. destruct (Nat.eqb_spec c 7) as [E|E]; [left; lia|].
    right. left. reflexivity. }
  cbv zeta. rewrite Hs3, <- Ec, Hh3. fold hd.
  unfold s3. canon. clear s3 Hs3 Hh3.
  match goal with |- after _ {| heap := _; region := ?M; free_lists := _; used_list := _;
                               initialized := _; next_alloc_id := _;
                               allocation_records := _; stats := _ |} _ =>
    set (m4 := M) end.
  assert (M4o : forall x w, x + Z.of_nat w <= b + 16 \/
                  (b + 40 <= x /\ x + Z.of_nat w <= b + 48) \/
                  (b + 56 <= x /\ x + Z.of_nat w <= nb + 24) \/ nb + 32 <= x ->
                load_le m4 x w = load_le (region s) x w).
  { intros x w Hx. unfold m4, hd. destruct (c =? 7)%nat; rewrite ?Enb; change (NULL =? NULL) with true; cbv iota;
      rewrite !load_le_store_le_other by layout_lia; reflexivity. }
  assert (M4free : load_le m4 (b + off_free) 1 = 1).
  { unfold m4, hd. destruct (c =? 7)%nat; rewrite ?Enb; change (NULL =? NULL) with true; cbv iota; mem; reflexivity. }
  assert (M4prev : load_le m4 (b + off_prev) 8 = NULL).
  { unfold m4, hd. destruct (c =? 7)%nat; rewrite ?Enb; change (NULL =? NULL) with true; cbv iota; mem; reflexivity. }
  assert (M4next : load_le m4 (b + off_next) 8 = hd).
  { unfold m4, hd. destruct (c =? 7)%nat; rewrite ?Enb; change (NULL =? NULL) with true; cbv iota; mem; reflexivity. }
  assert (M4nprev : load_le m4 (nb + off_prev) 8 = if (c =? 7)%nat then b else NULL).
  { unfold m4, hd. destruct (c =? 7)%nat; rewrite ?Enb; change (NULL =? NULL) with true; cbv iota; mem;
      [reflexivity | exact Hnpv]. }
  match goal with |- after _ ?s0 _ => set (s4 := s0) end.
  assert (Hs4 : size_at s4 b = a).
  { unfold size_at, s4. proj. rewrite M4o by layout_lia. exact Hsz. }
  assert (Hf4 : free_at s4 b = true).
  { unfold free_at, s4. proj. rewrite M4free. reflexivity. }
  apply after_bind. apply after_set_block_footer_exact.
  { unfold readable, footer_at. rewrite Hs4.
    split; apply in_region_intro; unfold s4; proj; fold b; unfold NULL, sizeof_Block,
      sizeof_BlockFooter, HEAP_SIZE; lia. }
  { unfold footer_at. rewrite Hs4. unfold NULL, sizeof_Block. lia. }
  unfold footer_at. rewrite Hs4, Hf4.
  unfold s4. canon. clear s4 Hs4 Hf4.
  match goal with |- after _ {| heap := _; region := ?M; free_lists := _; used_list := _;
                               initialized := _; next_alloc_id := _;
                               allocation_records := _; stats := _ |} _ =>
    set (m5 := M) end.
  assert (M5o : forall x w, x + Z.of_nat w <= b + 64 + a \/ nb <= x ->
                load_le m5 x w = load_le m4 x w).
  { intros x w Hx. unfold m5. rewrite !load_le_store_le_other by layout_lia. reflexivity. }
  match goal with |- after _ ?s0 _ => set (s5 := s0) end.
  assert (Hs5 : size_at s5 b = a).
  { unfold size_at, s5. proj. rewrite M5o, M4o by layout_lia. exact Hsz. }
  assert (Hns5 : size_at s5 nb = 1048496 - a - 80).
  { unfold size_at, s5. proj. rewrite M5o, M4o by layout_lia. exact Hnsz. }
  assert (Hnf5 : free_at s5 nb = true).
  { unfold free_at, s5. proj. rewrite M5o, M4o by layout_lia. exact Hnfr. }
  assert (Hnv5 : valid_block s5 nb = true).
  { destruct (valid_block_elim s nb Hnv) as (V1 & V2 & V3 & V4).
    apply valid_block_intro; [| | | rewrite Hns5; unfold HEAP_SIZE; lia].
    - unfold sentinel_start_at, s5. proj. rewrite M5o, M4o by layout_lia. exact V1.
    - unfold sentinel_end_at, s5. proj. rewrite M5o, M4o by layout_lia. exact V2.
    - unfold footer_sentinel_at, footer_at. rewrite Hns5. unfold s5. proj.
      rewrite M5o, M4o by layout_lia.
      unfold footer_sentinel_at, footer_at in V3. rewrite Hnsz in V3. exact V3. }
  assert (Hnr5 : readable s5 nb).
  { unfold readable, footer_at. rewrite Hns5.
    split; apply in_region_intro; unfold s5; proj; fold b;
      unfold nb, NULL, sizeof_Block, sizeof_BlockFooter, HEAP_SIZE; lia. }
  assert (Hnp5 : prev_at s5 nb = if (c =? 7)%nat then b else NULL).
  { unfold prev_at, s5. proj. rewrite M5o by layout_lia. exact M4nprev. }
  assert (Hnn5 : next_at s5 nb = NULL).
  { unfold next_at, s5. proj. rewrite M5o, M4o by layout_lia. exact Hnnx. }
  assert (Hh5 : forall k, head_of s5 k = if (k =? c)%nat then b
                                         else if (k =? 7)%nat then nb else NULL).
  { intros k. unfold head_of, s5. proj. rewrite Hfl.
    do 8 (destruct c as [|c]; [do 8 (destruct k as [|k]; [reflexivity|]); reflexivity|]).
    lia. }
  apply after_bind. unfold try_merge_with_neighbors. step. step.
  replace ((b <? heap s5) || (heap s5 + HEAP_SIZE <=? b)) with false
    by (symmetry; apply orb_false_intro; [apply Z.ltb_ge | apply Z.leb_gt];
        unfold s5; proj; fold b; unfold HEAP_SIZE; lia).
  unfold s5. unfold_fields. step. step. fold s5. fold (size_at s5 b). rewrite Hs5.
  replace (b + sizeof_Block + a + sizeof_BlockFooter) with nb
    by (unfold nb, sizeof_Block, sizeof_BlockFooter; lia).
  replace (nb <? heap s + HEAP_SIZE - sizeof_Block) with true
    by (symmetry; apply Z.ltb_lt; unfold HEAP_SIZE, sizeof_Block; lia).
  apply after_bind. apply after_bind.
  apply after_validate_block_valid; [exact Hh0 | exact Hnr5 | exact Hnv5 |].
  unfold s5. do 4 step. fold s5.
  change (negb (load_le m5 (nb + off_free) 1 =? 0)) with (free_at s5 nb).
  rewrite Hnf5. cbv iota.
  apply after_bind. apply after_remove_from_free_list.
  { unfold nb, NULL. lia. }
  { apply Hnbr. reflexivity. }
  { rewrite Hnp5. destruct (c =? 7)%nat; [right|left; reflexivity].
    split; [apply Hbr; reflexivity|]. left. unfold sizeof_Block. lia. }
  { left. exact Hnn5. }
  { right. left. exact Hnn5. }
  cbv zeta. rewrite Hnp5, Hnn5, Hns5, Hh5.
  assert (Hrem7 : get_size_class (1048496 - a - 80) = 7%nat).
  { apply get_size_class_big. unfold SIZE_CLASS_7. lia. }
  rewrite Hrem7. change (7 =? 7)%nat with true.
  change (NULL =? NULL) with true. cbv iota.
  set (pv := if (c =? 7)%nat then b else NULL).
  unfold s5. canon. 
  match goal with |- after _ {| heap := _; region := ?M; free_lists := ?L; used_list := _;
                               initialized := _; next_alloc_id := _;
                               allocation_records := _; stats := _ |} _ =>
    set (m6 := M); set (fl6 := L) end.
  assert (Epv : pv = NULL \/ pv = b) by (unfold pv; destruct (c =? 7)%nat; auto).
  assert (M6o : forall x w, (x + Z.of_nat w <= b + 32 \/ b + 40 <= x) ->
                  (x + Z.of_nat w <= nb + 24 \/ nb + 40 <= x) ->
                load_le m6 x w = load_le m5 x w).
  { intros x w Hx Hx'. unfold m6. destruct Epv as [->| ->];
      [change (NULL =? NULL) with true
      |replace (b =? NULL) with false by (symmetry; apply Z.eqb_neq; exact Hbn)];
      cbv iota; rewrite !load_le_store_le_other by layout_lia; reflexivity. }
  assert (M6next : load_le m6 (b + off_next) 8 = NULL).
  { unfold m6, pv. destruct (Nat.eqb_spec c 7) as [E7|E7].
    - replace (b =? NULL) with false by (symmetry; apply Z.eqb_neq; exact Hbn).
      mem. reflexivity.
    - change (NULL =? NULL) with true. cbv iota.
      rewrite !load_le_store_le_other by layout_lia.
      rewrite M5o by layout_lia. rewrite M4next. unfold hd.
      apply Nat.eqb_neq in E7. rewrite ?E7. reflexivity. }
  assert (M6size : load_le m6 (b + off_size) 8 = a).
  { rewrite M6o, M5o, M4o by layout_lia. exact Hsz. }
  assert (M6nsize : load_le m6 (nb + off_size) 8 = 1048496 - a - 80).
  { rewrite M6o, M5o, M4o by layout_lia. exact Hnsz. }
  unfold_fields. do 4 step. cbv beta. proj. rewrite M6size, M6nsize.
  replace (wrap64 (a + wrap64 (sizeof_Block + (1048496 - a - 80) + sizeof_BlockFooter)))
    with 1048496
    by (unfold wrap64, sizeof_Block, sizeof_BlockFooter;
        rewrite (Z.mod_small (64 + _ + 16)) by lia; rewrite Z.mod_small by lia; lia).
  step. step. canon.
  match goal with |- after _ ?s0 _ => set (s7 := s0) end.
  assert (Hs7 : size_at s7 b = 1048496).
  { unfold size_at, s7. proj. mem. reflexivity. }
  assert (Hf7 : free_at s7 b = true).
  { unfold free_at, s7. proj. rewrite load_le_store_le_other by layout_lia.
    rewrite M6o, M5o, M4free by layout_lia. reflexivity. }
  apply after_bind. apply after_set_block_footer_exact.
  { unfold readable, footer_at. rewrite Hs7.
    split; apply in_region_intro; unfold s7; proj; fold b; unfold NULL, sizeof_Block,
      sizeof_BlockFooter, HEAP_SIZE; lia. }
  { unfold footer_at. rewrite Hs7. unfold NULL, sizeof_Block. lia. }
  unfold footer_at. rewrite Hs7, Hf7.
  unfold s7. canon. clear s7 Hs7 Hf7.
  step. step. step. step. canon_stats.
  unfold get_prev_physical_block. step. step.
  proj. replace (b <=? heap s) with true by (symmetry; apply Z.leb_le; lia).
  step. change (NULL =? NULL) with true. cbv iota. step. step. cbv iota.
  step. proj. step. step. step. step. canon_stats.
  match goal with |- after _ {| heap := _; region := ?M; free_lists := _; used_list := _;
                               initialized := _; next_alloc_id := _;
                               allocation_records := _; stats := _ |} _ =>
    set (m8 := M) end.
  assert (M8o : forall x w, x + Z.of_nat w <= b + 8 \/
                  (b + 16 <= x /\ x + Z.of_nat w <= b + 64 + 1048496) ->
                load_le m8 x w = load_le m6 x w).
  { intros x w Hx. unfold m8. rewrite !load_le_store_le_other by layout_lia. reflexivity. }
  assert (Hfl6 : fl6 = <[c := b]> (replicate NUM_SIZE_CLASSES NULL)).
  { unfold fl6. rewrite Hfl.
    do 7 (destruct c as [|c]; [cbn [Nat.eqb]; rewrite Z.eqb_refl; reflexivity|]).
    destruct c as [|c]; [|lia]. cbn [Nat.eqb].
    replace (b =? nb) with false by (symmetry; apply Z.eqb_neq; lia).
    reflexivity. }
  rewrite Hfl6. clear Hfl6 fl6.
  match goal with |- after _ ?s0 _ => set (s8 := s0) end.
  assert (Hh8 : forall k, head_of s8 k = if (k =? c)%nat then b else NULL).
  { intros k. unfold head_of, s8. proj.
    do 8 (destruct c as [|c]; [do 8 (destruct k as [|k]; [reflexivity|]); reflexivity|]).
    lia. }
  assert (Hs8 : size_at s8 b = 1048496).
  { unfold size_at, s8. proj. unfold m8. mem. reflexivity. }
  assert (Hn8 : next_at s8 b = NULL).
  { unfold next_at, s8. proj. rewrite M8o by layout_lia. exact M6next. }
  assert (Hc8' : chain s8 b [b]).
  { apply chain_step.
    - exact Hbn.
    - unfold readable, footer_at. rewrite Hs8.
      split; apply in_region_intro; unfold s8; proj; fold b; unfold NULL, sizeof_Block,
        sizeof_BlockFooter, HEAP_SIZE; lia.
    - rewrite Hn8. apply chain_end. }
  apply (after_update_fragmentation_stats s8 (<[c := [b]]> (replicate NUM_SIZE_CLASSES []))).
  { unfold NUM_SIZE_CLASSES. cbn [seq].
    do 8 (destruct c as [|c];
      [repeat apply List.Forall2_cons; try apply List.Forall2_nil;
         rewrite Hh8; cbn [Nat.eqb]; first [apply chain_end | exact Hc8']|]).
    lia. }
  assert (Hcat : concat (<[c := [b]]> (replicate NUM_SIZE_CLASSES [])) = [b]).
  { do 8 (destruct c as [|c]; [reflexivity|]). lia. }
  rewrite Hcat. cbn [length]. intros k L M -> Hall _ Hsome.
  destruct Hsome as [(b1 & Hb1 & HL) (b2 & Hb2 & HM)]; [discriminate|].
  destruct Hb1 as [<-|[]]. destruct Hb2 as [<-|[]]. rewrite Hs8 in HL, HM.
  subst L M. clear Hall.
  match goal with |- context [heap ?S = b] => set (sf := S) end.
  assert (Rf : region sf = m8) by reflexivity.
  destruct (valid_block_elim s b Hv) as (V1 & V2 & V3 & V4).
  split; [reflexivity|]. split; [reflexivity|]. split; [exact Hi|].
  split; [reflexivity|]. split; [reflexivity|].
  split.
  { unfold intact, sentinel_start_at, sentinel_end_at. rewrite Rf.
    rewrite !M8o, !M6o, !M5o, !M4o by layout_lia.
    unfold sentinel_start_at in V1. unfold sentinel_end_at in V2.
    rewrite V1, V2, !Z.eqb_refl. reflexivity. }
  split; [exact Hs8|].
  split.
  { unfold free_at. rewrite Rf, M8o, M6o, M5o, M4free by layout_lia. reflexivity. }
  split.
  { unfold prev_at. rewrite Rf, M8o, M6o, M5o by layout_lia. exact M4prev. }
  split; [exact Hn8|].
  split.
  { unfold footer_is, footer_at.
    change (size_at sf b) with (size_at s8 b). rewrite Hs8, Rf. unfold m8.
    split; [mem; reflexivity|]. split; mem; reflexivity. }
  split; [reflexivity|]. split; [reflexivity|]. split; [reflexivity|].
  split; [reflexivity|]. split; [reflexivity|]. split; [reflexivity|].
  split; [reflexivity|]. split; [reflexivity|]. split; reflexivity.
Qed.

Lemma get_size_class_7 (x : Z) : get_size_class x = 7%nat <-> SIZE_CLASS_7 < x.
Proof.
  split; [|apply get_size_class_big].
  unfold get_size_class.
  unfold SIZE_CLASS_1, SIZE_CLASS_2, SIZE_CLASS_3, SIZE_CLASS_4, SIZE_CLASS_5,
    SIZE_CLASS_6, SIZE_CLASS_7.
  repeat match goal with |- context [?u <=? ?v] => destruct (Z.leb_spec u v) end;
    intros E; first [discriminate E | lia].
Qed.

Lemma wrap64_add_sub (x a : Z) : wrap64 (wrap64 (x - a) + a) = wrap64 x.
Proof. unfold wrap64. rewrite Zplus_mod_idemp_l. f_equal. lia. Qed.

Lemma wrap64_sub_add (x a : Z) : wrap64 (wrap64 (x + a) - a) = wrap64 x.
Proof. unfold wrap64. rewrite Zminus_mod_idemp_l. f_equal. lia. Qed.

(** X27.  Allocate and free on a fresh heap, for every request of 1 to
    1046000 bytes: nothing is printed, the used list is empty again, and the
    region is again one valid free block of the full size with null links
    and a matching footer, the next-neighbour merge having taken the
    remainder back.  The byte counters are back where they were (modulo
    2^64) and a leak record the host granted is gone.  But the block is
    threaded into the bucket of the size it was allocated with,
    [get_size_class (ALIGN (n + 32))], so the heap is fresh again exactly
    when that size is above 2048; for smaller requests bucket 7 is left
    empty. *)
Theorem malloc_then_free (h : host) (s : state) (n : Z) (file : string) (line : Z) :
  fresh_heap s -> addressable s -> 0 < n <= 1046000 ->
  after (p ← my_malloc_internal h n file line; my_free h p) s (fun _ s' err =>
    err = [] /\ heap s' = heap s /\ initialized s' = true /\ used_list s' = NULL /\
    free_lists s'
      = <[get_size_class (ALIGN (n + 32)) := heap s]> (replicate NUM_SIZE_CLASSES NULL) /\
    intact s' (heap s) = true /\ size_at s' (heap s) = size_at s (heap s) /\
    free_at s' (heap s) = true /\
    prev_at s' (heap s) = NULL /\ next_at s' (heap s) = NULL /\
    footer_is s' (footer_at s' (heap s)) (size_at s' (heap s)) true /\
    allocation_records s'
      = (if record_ok h then allocation_records s
         else remove_record (heap s + 80) (allocation_records s)) /\
    allocated_bytes (stats s') = wrap64 (allocated_bytes (stats s)) /\
    free_bytes (stats s') = wrap64 (free_bytes (stats s)) /\
    fragmentation_count (stats s') = 1 /\
    largest_free_block (stats s') = size_at s (heap s) /\
    (fresh_heap s' <-> SIZE_CLASS_7 < ALIGN (n + 32))).
Proof.
  intros Hf Ha Hn.
  pose proof Hf as (_ & Hnn & _ & _ & _ & Hsz & _).
  change (HEAP_SIZE - sizeof_Block - sizeof_BlockFooter) with 1048496 in Hsz.
  apply after_bind.
  apply (after_mono _ _ _ _ (first_allocation_run h s n file line Hf Ha Hn)).
  intros p s1 e1 (-> & -> & _ & _ & Hg & Hu & Hfl & Hv & Hs & Hfr & Hnv & Hns & Hnf & _ & Hrec
                  & _ & Hab & Hfb & _ & _ & Hh & Hi & Hrq & Hp & Hnx & Hnp & Hnnx).
  assert (Ha1 : addressable s1) by (unfold addressable; rewrite Hh; exact Ha).
  pose proof (my_free_sole_block_run h s1 n) as F. rewrite Hh in F.
  specialize (F Ha1 Hi Hn Hv Hs Hfr Hrq Hp Hnx Hg Hu Hfl Hnv Hns Hnf Hnp Hnnx).
  apply (after_mono _ _ _ _ F). clear F.
  intros [] s' e (-> & Hh' & Hi' & Hu' & Hfl' & Hint' & Hs' & Hfr' & Hp' & Hnx' & Hft'
                  & Hrec' & _ & Hab' & Hfb' & _ & _ & _ & Hfc & Hlg & _).
  split; [reflexivity|]. split; [exact Hh'|]. split; [exact Hi'|]. split; [exact Hu'|].
  split; [exact Hfl'|]. split; [exact Hint'|]. split; [congruence|].
  split; [exact Hfr'|]. split; [exact Hp'|]. split; [exact Hnx'|].
  split; [rewrite Hs'; exact Hft'|].
  split.
  { rewrite Hrec', Hrec. destruct (record_ok h); [|reflexivity].
    cbn [app remove_record rec_ptr]. rewrite Z.eqb_refl. reflexivity. }
  split; [rewrite Hab', Hab; apply wrap64_sub_add|].
  split; [rewrite Hfb', Hfb; apply wrap64_add_sub|].
  split; [exact Hfc|]. split; [congruence|].
  rewrite <- get_size_class_7. split.
  - intros (_ & _ & Hfl7 & _). rewrite Hh', Hfl' in Hfl7.
    pose proof (get_size_class_lt (ALIGN (n + 32))) as Hlt.
    remember (get_size_class (ALIGN (n + 32))) as c eqn:Ec. clear Ec.
    unfold NUM_SIZE_CLASSES in *.
    do 7 (destruct c as [|c]; [exfalso; apply Hnn; unfold NULL; cbn in Hfl7; congruence|]).
    destruct c; [reflexivity|lia].
  - intros E7. rewrite E7 in Hfl'.
    unfold fresh_heap. rewrite Hh', Hs'.
    split; [exact Hi'|]. split; [exact Hnn|]. split; [exact Hfl'|]. split; [exact Hu'|].
    split; [exact Hint'|]. split; [reflexivity|]. split; [exact Hfr'|].
    split; [exact Hp'|]. split; [exact Hnx'|]. exact Hft'.
Qed.

Lemma malloc_then_free_witness :
  fresh_heap (final_state (initialize host0)) /\
  addressable (final_state (initialize host0)) /\ 0 < 100 <= 1046000 /\
  exists s', (p ← my_malloc_internal host0 100 "client.c" 1; my_free host0 p)
               (final_state (initialize host0)) = Ok tt s' [] /\
             size_at s' 65536 = 1048496 /\
             free_lists s' = [0; 0; 0; 65536; 0; 0; 0; 0] /\ ~ fresh_heap s'.
Proof.
  assert (H1 : fresh_heap (final_state (initialize host0))).
  { unfold fresh_heap, footer_is. repeat split; vm_compute; try reflexivity. discriminate. }
  assert (H2 : addressable (final_state (initialize host0)))
    by (split; vm_compute; [reflexivity | discriminate]).
  assert (H3 : 0 < 100 <= 1046000) by lia.
  assert (H4 : heap (final_state (initialize host0)) = 65536) by (vm_compute; reflexivity).
  assert (H5 : size_at (final_state (initialize host0)) 65536 = 1048496)
    by (vm_compute; reflexivity).
  assert (H6 : get_size_class (ALIGN (100 + 32)) = 3%nat) by (vm_compute; reflexivity).
  assert (H7 : ~ SIZE_CLASS_7 < ALIGN (100 + 32)) by (vm_compute; discriminate).
  split; [exact H1|]. split; [exact H2|]. split; [exact H3|].
  pose proof (malloc_then_free host0 (final_state (initialize host0)) 100 "client.c" 1
                H1 H2 H3) as H.
  destruct (proj1 (after_ok _ _ _) H)
    as ([] & s' & err & Heq & Herr & _ & _ & _ & Hfl & _ & Hs & _ & _ & _ & _ & _ & _ & _
        & _ & _ & Hfresh).
  rewrite Herr in Heq. rewrite H4, H5 in Hs. rewrite H4, H6 in Hfl.
  exists s'. split; [exact Heq|]. split; [exact Hs|]. split; [exact Hfl|].
  intros Hf. apply H7. apply Hfresh. exact Hf.
Defined.
